(** * NRD sample and REBLUR pass graph: a shallow embedding

    The development follows the sources of the repository:

    - [Reblur]: the pass-graph builder
      [nrd::InstanceImpl::Add_ReblurDiffuseSpecularOcclusion];
    - [PingPong]: the per-frame exchange of ping-pong slots;
    - [Denoiser]: [nrd::SetMethodSettings];
    - [Transitions]: [Sample::BuildOptimizedTransitions] and its callers;
    - [Tlas]: the instance loop of
      [Sample::BuildTopLevelAccelerationStructure];
    - [Tests]: the test-mode snapshot panel of [Sample::PrepareFrame].

    Further parts of the sample:

    - [Frame]: the barriers of the composition stage of
      [Sample::RenderFrame];
    - [Resources]: [Sample::CreateTexture], [Sample::CreateBuffer],
      [GetCorrectFormatForDepth], [Sample::CreateDescriptors] and
      [Sample::CreateResources];
    - [Pipelines]: the pipeline layouts of [Sample::CreatePipelines] and
      the descriptor sets and pool of [Sample::CreateDescriptorSets].

    The definitions come first; the properties of each part follow in the
    modules [ReblurProofs], [PingPongProofs], [DenoiserProofs],
    [TransitionsProofs], [TlasProofs], [TestsProofs], [FrameProofs],
    [ResourcesProofs] and [PipelinesProofs]. *)


From Stdlib Require Import ZArith List String Bool Lia SpecFloat.
From Stdlib.Strings Require Import Byte.
From stdpp Require Import base list.
Import ListNotations.

Local Open Scope string_scope.
Local Open Scope list_scope.

(** ** Machine integers and outcomes *)

(** Unsigned 32- and 64-bit arithmetic wraps around. *)
Definition u32 (x : Z) : Z := (x mod 2 ^ 32)%Z.
Definition u64 (x : Z) : Z := (x mod 2 ^ 64)%Z.

(** What a run comes to: a result, a failed [assert], or an index past the
    end of a vector. *)
Inductive Outcome (A : Type) :=
  | Done (a : A)
  | AssertionFailed
  | OutOfRange.
Arguments Done {A} a.
Arguments AssertionFailed {A}.
Arguments OutOfRange {A}.

(** ** The REBLUR diffuse+specular occlusion pass graph *)

Module Reblur.

(** Caller-bound textures named by the builder ([nrd::ResourceType]). *)
Inductive ResourceType :=
  | IN_MV
  | IN_NORMAL_ROUGHNESS
  | IN_VIEWZ
  | IN_DIFF_HITDIST
  | IN_SPEC_HITDIST
  | IN_DISOCCLUSION_THRESHOLD_MIX
  | IN_DIFF_CONFIDENCE
  | IN_SPEC_CONFIDENCE
  | OUT_DIFF_HITDIST
  | OUT_SPEC_HITDIST.

(** [enum class Permanent], in declaration order. *)
Module Permanent.
Inductive t :=
  | PREV_VIEWZ
  | PREV_NORMAL_ROUGHNESS
  | PREV_INTERNAL_DATA
  | DIFF_FAST_HISTORY
  | SPEC_FAST_HISTORY
  | SPEC_HITDIST_FOR_TRACKING_PING
  | SPEC_HITDIST_FOR_TRACKING_PONG.
End Permanent.

(** [enum class Transient], in declaration order. *)
Module Transient.
Inductive t :=
  | DATA1
  | DIFF_TMP1
  | DIFF_TMP2
  | DIFF_FAST_HISTORY
  | SPEC_TMP1
  | SPEC_TMP2
  | SPEC_FAST_HISTORY
  | TILES.
End Transient.

(** A pass names its resources by an index that falls in one of three
    disjoint ranges: the caller's [ResourceType] values, the permanent pool
    (from [PERMANENT_POOL_START]) and the transient pool (from
    [TRANSIENT_POOL_START]).  The ranges are kept apart as the constructors
    of a tagged union.

    Modelled from the spec: the macro [REBLUR_DUMMY] is not in the sources;
    the specification calls it a shared dummy placeholder bound in place of
    an optional input, so it is a value of its own. *)
Inductive Slot :=
  | Caller (r : ResourceType)
  | PermanentSlot (p : Permanent.t)
  | TransientSlot (t : Transient.t)
  | REBLUR_DUMMY.

#[global] Instance ResourceType_eq_dec : EqDecision ResourceType.
Proof. solve_decision. Defined.
#[global] Instance Permanent_eq_dec : EqDecision Permanent.t.
Proof. solve_decision. Defined.
#[global] Instance Transient_eq_dec : EqDecision Transient.t.
Proof. solve_decision. Defined.
#[global] Instance Slot_eq_dec : EqDecision Slot.
Proof. solve_decision. Defined.

(** The overloaded [AsUint] of the source. *)
Class AsUintOf (A : Type) := AsUint : A -> Slot.
#[global] Instance AsUint_ResourceType : AsUintOf ResourceType := Caller.
#[global] Instance AsUint_Permanent : AsUintOf Permanent.t := PermanentSlot.
#[global] Instance AsUint_Transient : AsUintOf Transient.t := TransientSlot.

(** The [#define]s at the head of the builder. *)
Definition DIFF_TEMP1 : Slot := AsUint Transient.DIFF_TMP1.
Definition DIFF_TEMP2 : Slot := AsUint Transient.DIFF_TMP2.
Definition SPEC_TEMP1 : Slot := AsUint Transient.SPEC_TMP1.
Definition SPEC_TEMP2 : Slot := AsUint Transient.SPEC_TMP2.

(** Texture formats, kept symbolic: the [REBLUR_FORMAT_*] macros are not
    expanded here. *)
Inductive Format :=
  | RG8_UNORM
  | R8_UNORM
  | REBLUR_FORMAT_PREV_VIEWZ
  | REBLUR_FORMAT_PREV_NORMAL_ROUGHNESS
  | REBLUR_FORMAT_PREV_INTERNAL_DATA
  | REBLUR_FORMAT_OCCLUSION
  | REBLUR_FORMAT_OCCLUSION_FAST_HISTORY
  | REBLUR_FORMAT_HITDIST_FOR_TRACKING.

Record TextureDesc := { format : Format; downsampleFactor : nat }.

(** One pushed input or output: the slot, and for a ping-pong resource the
    slot it is exchanged with. *)
Record Resource := { indexInPool : Slot; indexToSwapWith : option Slot }.

Record Dispatch := {
  shader : string;
  constants : string;
  dispatchDownsampleFactor : nat
}.

Record Pass := {
  name : string;
  inputs : list Resource;
  outputs : list Resource;
  dispatches : list Dispatch
}.

(** The settings union of [DenoiserData], by the member last assigned. *)
Inductive SettingsKind := NoSettings | ReblurSettings.

(** What the builder writes to: the two pools, the pass list, and the
    [DenoiserData] it is handed. *)
Record InstanceImpl := {
  permanentPool : list TextureDesc;
  transientPool : list TextureDesc;
  passes : list Pass;
  denoiserSettings : SettingsKind
}.

Definition empty_instance : InstanceImpl :=
  {| permanentPool := []; transientPool := []; passes := [];
     denoiserSettings := NoSettings |}.

(** *** The builder's state monad *)

Definition Build (A : Type) : Type := InstanceImpl -> A * InstanceImpl.

Definition ret {A} (a : A) : Build A := fun s => (a, s).
Definition bind {A B} (c : Build A) (k : A -> Build B) : Build B :=
  fun s => let (a, s') := c s in k a s'.
Definition modify (f : InstanceImpl -> InstanceImpl) : Build unit :=
  fun s => (tt, f s).
Definition exec {A} (c : Build A) (s : InstanceImpl) : InstanceImpl := snd (c s).

Declare Scope build_scope.
Delimit Scope build_scope with build.
Notation "c1 ;; c2" := (bind c1 (fun _ => c2))
  (at level 100, right associativity) : build_scope.
Local Open Scope build_scope.

(** [for (int i = 0; i < n; i++) body] *)
Fixpoint for_from (i : Z) (n : nat) (body : Z -> Build unit) : Build unit :=
  match n with
  | O => ret tt
  | S n' => body i ;; for_from (i + 1) n' body
  end.
Definition for_ (n : nat) (body : Z -> Build unit) : Build unit := for_from 0 n body.

Definition set_passes (f : list Pass -> list Pass) (s : InstanceImpl) : InstanceImpl :=
  {| permanentPool := permanentPool s; transientPool := transientPool s;
     passes := f (passes s); denoiserSettings := denoiserSettings s |}.

(** Modelled from the spec: the helpers of [InstanceImpl] that the builder
    calls ([AddTextureToPermanentPool], [AddTextureToTransientPool],
    [PushPass], [PushInput], [PushOutput], [AddDispatch]) are not in the
    sources.  By the specification a pool is a list of texture descriptions
    in declaration order, and a pass holds its name, its ordered inputs, its
    ordered outputs and its shader choices; every push goes to the pass
    pushed last.  [PushInput2] and [PushOutput2] are the two-argument calls,
    which name the slot and its ping-pong partner. *)
Fixpoint alter_last {A} (f : A -> A) (l : list A) : list A :=
  match l with
  | [] => []
  | [x] => [f x]
  | x :: l' => x :: alter_last f l'
  end.

Definition AddTextureToPermanentPool (d : TextureDesc) : Build unit :=
  modify (fun s =>
    {| permanentPool := permanentPool s ++ [d]; transientPool := transientPool s;
       passes := passes s; denoiserSettings := denoiserSettings s |}).

Definition AddTextureToTransientPool (d : TextureDesc) : Build unit :=
  modify (fun s =>
    {| permanentPool := permanentPool s; transientPool := transientPool s ++ [d];
       passes := passes s; denoiserSettings := denoiserSettings s |}).

Definition PushPass (n : string) : Build unit :=
  modify (set_passes (fun ps =>
    ps ++ [{| name := n; inputs := []; outputs := []; dispatches := [] |}])).

Definition push_input (r : Resource) (p : Pass) : Pass :=
  {| name := name p; inputs := inputs p ++ [r]; outputs := outputs p;
     dispatches := dispatches p |}.
Definition push_output (r : Resource) (p : Pass) : Pass :=
  {| name := name p; inputs := inputs p; outputs := outputs p ++ [r];
     dispatches := dispatches p |}.
Definition add_dispatch (d : Dispatch) (p : Pass) : Pass :=
  {| name := name p; inputs := inputs p; outputs := outputs p;
     dispatches := dispatches p ++ [d] |}.

Definition PushInput (i : Slot) : Build unit :=
  modify (set_passes (alter_last (push_input
    {| indexInPool := i; indexToSwapWith := None |}))).
Definition PushInput2 (i swap : Slot) : Build unit :=
  modify (set_passes (alter_last (push_input
    {| indexInPool := i; indexToSwapWith := Some swap |}))).
Definition PushOutput (i : Slot) : Build unit :=
  modify (set_passes (alter_last (push_output
    {| indexInPool := i; indexToSwapWith := None |}))).
Definition PushOutput2 (i swap : Slot) : Build unit :=
  modify (set_passes (alter_last (push_output
    {| indexInPool := i; indexToSwapWith := Some swap |}))).
Definition AddDispatch (sh cs : string) (ds : nat) : Build unit :=
  modify (set_passes (alter_last (add_dispatch
    {| shader := sh; constants := cs; dispatchDownsampleFactor := ds |}))).

(** [denoiserData.settings.reblur = ReblurSettings()]; [settingsSize], the
    size of that member, is not kept. *)
Definition set_reblur_settings : Build unit :=
  modify (fun s =>
    {| permanentPool := permanentPool s; transientPool := transientPool s;
       passes := passes s; denoiserSettings := ReblurSettings |}).

(** [( ( i >> k ) & 0x1 ) != 0] *)
Definition bit (i : Z) (k : Z) : bool := negb (Z.land (Z.shiftr i k) 1 =? 0)%Z.

(** Modelled from the spec: the macro [REBLUR_ADD_VALIDATION_DISPATCH] is not
    in the sources.  By the specification it declares the last pass,
    Validation, a diagnostic overlay over the internal-data buffer and the
    two signals handed to it; the builder hands it [Transient::DATA1] and
    the two raw hit-distance inputs.  The shader is named after the pattern
    of the other passes; whether the pass is dispatched is decided
    elsewhere. *)
Definition REBLUR_ADD_VALIDATION_DISPATCH (data diff spec : Slot) : Build unit :=
  PushPass "Validation" ;;
  PushInput data ;;
  PushInput diff ;;
  PushInput spec ;;
  AddDispatch "REBLUR_Validation" "REBLUR_Validation" 1.

Section Builder.

(** The two permutation counts are compile-time constants that the sources
    do not define: [REBLUR_OCCLUSION_HITDIST_RECONSTRUCTION_PERMUTATION_NUM]
    and [REBLUR_OCCLUSION_TEMPORAL_ACCUMULATION_PERMUTATION_NUM]. *)
Variable HITDIST_RECONSTRUCTION_PERMUTATION_NUM : nat.
Variable TEMPORAL_ACCUMULATION_PERMUTATION_NUM : nat.

Definition ClassifyTiles : Build unit :=
  PushPass "Classify tiles" ;;
  PushInput (AsUint IN_VIEWZ) ;;
  PushOutput (AsUint Transient.TILES) ;;
  AddDispatch "REBLUR_ClassifyTiles" "REBLUR_ClassifyTiles" 1.

Definition HitDistReconstruction (i : Z) : Build unit :=
  let is5x5 := bit i 0 in
  PushPass "Hit distance reconstruction" ;;
  PushInput (AsUint Transient.TILES) ;;
  PushInput (AsUint IN_NORMAL_ROUGHNESS) ;;
  PushInput (AsUint IN_VIEWZ) ;;
  PushInput (AsUint IN_DIFF_HITDIST) ;;
  PushInput (AsUint IN_SPEC_HITDIST) ;;
  PushOutput DIFF_TEMP1 ;;
  PushOutput SPEC_TEMP1 ;;
  if is5x5 then
    AddDispatch "REBLUR_DiffuseSpecularOcclusion_HitDistReconstruction_5x5"
                "REBLUR_HitDistReconstruction" 1 ;;
    AddDispatch "REBLUR_Perf_DiffuseSpecularOcclusion_HitDistReconstruction_5x5"
                "REBLUR_HitDistReconstruction" 1
  else
    AddDispatch "REBLUR_DiffuseSpecularOcclusion_HitDistReconstruction"
                "REBLUR_HitDistReconstruction" 1 ;;
    AddDispatch "REBLUR_Perf_DiffuseSpecularOcclusion_HitDistReconstruction"
                "REBLUR_HitDistReconstruction" 1.

Definition TemporalAccumulation (i : Z) : Build unit :=
  let hasDisocclusionThresholdMix := bit i 2 in
  let hasConfidenceInputs := bit i 1 in
  let isAfterReconstruction := bit i 0 in
  PushPass "Temporal accumulation" ;;
  PushInput (AsUint Transient.TILES) ;;
  PushInput (AsUint IN_NORMAL_ROUGHNESS) ;;
  PushInput (AsUint IN_VIEWZ) ;;
  PushInput (AsUint IN_MV) ;;
  PushInput (AsUint Permanent.PREV_VIEWZ) ;;
  PushInput (AsUint Permanent.PREV_NORMAL_ROUGHNESS) ;;
  PushInput (AsUint Permanent.PREV_INTERNAL_DATA) ;;
  PushInput (if hasDisocclusionThresholdMix
             then AsUint IN_DISOCCLUSION_THRESHOLD_MIX else REBLUR_DUMMY) ;;
  PushInput (if hasConfidenceInputs then AsUint IN_DIFF_CONFIDENCE else REBLUR_DUMMY) ;;
  PushInput (if hasConfidenceInputs then AsUint IN_SPEC_CONFIDENCE else REBLUR_DUMMY) ;;
  PushInput (if isAfterReconstruction then DIFF_TEMP1 else AsUint IN_DIFF_HITDIST) ;;
  PushInput (if isAfterReconstruction then SPEC_TEMP1 else AsUint IN_SPEC_HITDIST) ;;
  PushInput (AsUint OUT_DIFF_HITDIST) ;;
  PushInput (AsUint OUT_SPEC_HITDIST) ;;
  PushInput (AsUint Permanent.DIFF_FAST_HISTORY) ;;
  PushInput (AsUint Permanent.SPEC_FAST_HISTORY) ;;
  PushInput2 (AsUint Permanent.SPEC_HITDIST_FOR_TRACKING_PING)
             (AsUint Permanent.SPEC_HITDIST_FOR_TRACKING_PONG) ;;
  PushOutput DIFF_TEMP2 ;;
  PushOutput SPEC_TEMP2 ;;
  PushOutput (AsUint Transient.DIFF_FAST_HISTORY) ;;
  PushOutput (AsUint Transient.SPEC_FAST_HISTORY) ;;
  PushOutput2 (AsUint Permanent.SPEC_HITDIST_FOR_TRACKING_PONG)
              (AsUint Permanent.SPEC_HITDIST_FOR_TRACKING_PING) ;;
  PushOutput (AsUint Transient.DATA1) ;;
  AddDispatch "REBLUR_DiffuseSpecularOcclusion_TemporalAccumulation"
              "REBLUR_TemporalAccumulation" 1 ;;
  AddDispatch "REBLUR_Perf_DiffuseSpecularOcclusion_TemporalAccumulation"
              "REBLUR_TemporalAccumulation" 1.

Definition HistoryFix : Build unit :=
  PushPass "History fix" ;;
  PushInput (AsUint Transient.TILES) ;;
  PushInput (AsUint IN_NORMAL_ROUGHNESS) ;;
  PushInput (AsUint Transient.DATA1) ;;
  PushInput (AsUint IN_VIEWZ) ;;
  PushInput DIFF_TEMP2 ;;
  PushInput SPEC_TEMP2 ;;
  PushInput (AsUint Transient.DIFF_FAST_HISTORY) ;;
  PushInput (AsUint Transient.SPEC_FAST_HISTORY) ;;
  PushOutput DIFF_TEMP1 ;;
  PushOutput SPEC_TEMP1 ;;
  PushOutput (AsUint Permanent.DIFF_FAST_HISTORY) ;;
  PushOutput (AsUint Permanent.SPEC_FAST_HISTORY) ;;
  AddDispatch "REBLUR_DiffuseSpecularOcclusion_HistoryFix" "REBLUR_HistoryFix" 1 ;;
  AddDispatch "REBLUR_Perf_DiffuseSpecularOcclusion_HistoryFix" "REBLUR_HistoryFix" 1.

Definition Blur : Build unit :=
  PushPass "Blur" ;;
  PushInput (AsUint Transient.TILES) ;;
  PushInput (AsUint IN_NORMAL_ROUGHNESS) ;;
  PushInput (AsUint Transient.DATA1) ;;
  PushInput DIFF_TEMP1 ;;
  PushInput SPEC_TEMP1 ;;
  PushInput (AsUint IN_VIEWZ) ;;
  PushOutput DIFF_TEMP2 ;;
  PushOutput SPEC_TEMP2 ;;
  PushOutput (AsUint Permanent.PREV_VIEWZ) ;;
  AddDispatch "REBLUR_DiffuseSpecularOcclusion_Blur" "REBLUR_Blur" 1 ;;
  AddDispatch "REBLUR_Perf_DiffuseSpecularOcclusion_Blur" "REBLUR_Blur" 1.

Definition PostBlur : Build unit :=
  PushPass "Post-blur" ;;
  PushInput (AsUint Transient.TILES) ;;
  PushInput (AsUint IN_NORMAL_ROUGHNESS) ;;
  PushInput (AsUint Transient.DATA1) ;;
  PushInput DIFF_TEMP2 ;;
  PushInput SPEC_TEMP2 ;;
  PushInput (AsUint Permanent.PREV_VIEWZ) ;;
  PushOutput (AsUint Permanent.PREV_NORMAL_ROUGHNESS) ;;
  PushOutput (AsUint OUT_DIFF_HITDIST) ;;
  PushOutput (AsUint OUT_SPEC_HITDIST) ;;
  PushOutput (AsUint Permanent.PREV_INTERNAL_DATA) ;;
  AddDispatch "REBLUR_DiffuseSpecularOcclusion_PostBlur_NoTemporalStabilization"
              "REBLUR_PostBlur" 1 ;;
  AddDispatch "REBLUR_Perf_DiffuseSpecularOcclusion_PostBlur_NoTemporalStabilization"
              "REBLUR_PostBlur" 1.

Definition SplitScreen : Build unit :=
  PushPass "Split screen" ;;
  PushInput (AsUint IN_VIEWZ) ;;
  PushInput (AsUint IN_DIFF_HITDIST) ;;
  PushInput (AsUint IN_SPEC_HITDIST) ;;
  PushOutput (AsUint OUT_DIFF_HITDIST) ;;
  PushOutput (AsUint OUT_SPEC_HITDIST) ;;
  AddDispatch "REBLUR_DiffuseSpecular_SplitScreen" "REBLUR_SplitScreen" 1.

Definition Add_ReblurDiffuseSpecularOcclusion : Build unit :=
  set_reblur_settings ;;
  AddTextureToPermanentPool {| format := REBLUR_FORMAT_PREV_VIEWZ; downsampleFactor := 1 |} ;;
  AddTextureToPermanentPool {| format := REBLUR_FORMAT_PREV_NORMAL_ROUGHNESS; downsampleFactor := 1 |} ;;
  AddTextureToPermanentPool {| format := REBLUR_FORMAT_PREV_INTERNAL_DATA; downsampleFactor := 1 |} ;;
  AddTextureToPermanentPool {| format := REBLUR_FORMAT_OCCLUSION_FAST_HISTORY; downsampleFactor := 1 |} ;;
  AddTextureToPermanentPool {| format := REBLUR_FORMAT_OCCLUSION_FAST_HISTORY; downsampleFactor := 1 |} ;;
  AddTextureToPermanentPool {| format := REBLUR_FORMAT_HITDIST_FOR_TRACKING; downsampleFactor := 1 |} ;;
  AddTextureToPermanentPool {| format := REBLUR_FORMAT_HITDIST_FOR_TRACKING; downsampleFactor := 1 |} ;;
  AddTextureToTransientPool {| format := RG8_UNORM; downsampleFactor := 1 |} ;;
  AddTextureToTransientPool {| format := REBLUR_FORMAT_OCCLUSION; downsampleFactor := 1 |} ;;
  AddTextureToTransientPool {| format := REBLUR_FORMAT_OCCLUSION; downsampleFactor := 1 |} ;;
  AddTextureToTransientPool {| format := REBLUR_FORMAT_OCCLUSION_FAST_HISTORY; downsampleFactor := 1 |} ;;
  AddTextureToTransientPool {| format := REBLUR_FORMAT_OCCLUSION; downsampleFactor := 1 |} ;;
  AddTextureToTransientPool {| format := REBLUR_FORMAT_OCCLUSION; downsampleFactor := 1 |} ;;
  AddTextureToTransientPool {| format := REBLUR_FORMAT_OCCLUSION_FAST_HISTORY; downsampleFactor := 1 |} ;;
  AddTextureToTransientPool {| format := R8_UNORM; downsampleFactor := 16 |} ;;
  ClassifyTiles ;;
  for_ HITDIST_RECONSTRUCTION_PERMUTATION_NUM HitDistReconstruction ;;
  for_ TEMPORAL_ACCUMULATION_PERMUTATION_NUM TemporalAccumulation ;;
  HistoryFix ;;
  Blur ;;
  PostBlur ;;
  SplitScreen ;;
  REBLUR_ADD_VALIDATION_DISPATCH (AsUint Transient.DATA1)
    (AsUint IN_DIFF_HITDIST) (AsUint IN_SPEC_HITDIST).

(** The pass list the builder leaves in a fresh instance. *)
Definition declared_passes : list Pass :=
  passes (exec Add_ReblurDiffuseSpecularOcclusion empty_instance).

End Builder.

(** *** Reading the declared graph *)

Definition input_slots (p : Pass) : list Slot := map indexInPool (inputs p).
Definition output_slots (p : Pass) : list Slot := map indexInPool (outputs p).

(** The pass a pass-declaring block leaves in a fresh instance. *)
Definition pass_built (c : Build unit) : Pass :=
  match passes (exec c empty_instance) with
  | p :: _ => p
  | [] => {| name := ""; inputs := []; outputs := []; dispatches := [] |}
  end.

(** A block pushes one pass: whatever the instance, it appends that pass
    and changes nothing else. *)
Definition pushes (c : Build unit) : Prop :=
  forall s, c s = (tt, set_passes (fun ps => ps ++ [pass_built c]) s).

(** A block appends the passes [l] to those already declared. *)
Definition appends (c : Build unit) (l : list Pass) : Prop :=
  forall s, passes (exec c s) = passes s ++ l.

(** The shape of the declared pass list, by position. *)
Definition pass_sequence (r t : nat) : list Pass :=
  [pass_built ClassifyTiles]
  ++ map (fun k => pass_built (HitDistReconstruction (Z.of_nat k))) (seq 0 r)
  ++ map (fun k => pass_built (TemporalAccumulation (Z.of_nat k))) (seq 0 t)
  ++ [pass_built HistoryFix; pass_built Blur; pass_built PostBlur;
      pass_built SplitScreen;
      pass_built (REBLUR_ADD_VALIDATION_DISPATCH (AsUint Transient.DATA1)
                    (AsUint IN_DIFF_HITDIST) (AsUint IN_SPEC_HITDIST))].

(** The pass that first writes a transient slot, by position. *)
Definition first_writer (r : nat) (tr : Transient.t) : nat :=
  match tr with
  | Transient.TILES => 0
  | Transient.DIFF_TMP1 | Transient.SPEC_TMP1 => 1
  | _ => 1 + r
  end.

End Reblur.

(** ** Ping-pong slots across frames *)

Module PingPong.
Import Reblur.

(** Modelled from the spec: the code that resolves a ping-pong resource in
    each frame belongs to the orchestration core and is not in the sources.
    By the specification, ping-pong permanent slots swap read/write roles
    every frame: a resource pushed with a partner slot exchanges its slot
    with the partner at every frame boundary. *)
Definition swap_resource (r : Resource) : Resource :=
  match indexToSwapWith r with
  | None => r
  | Some partner =>
      {| indexInPool := partner; indexToSwapWith := Some (indexInPool r) |}
  end.

Definition swap_pass (p : Pass) : Pass :=
  {| name := name p;
     inputs := map swap_resource (inputs p);
     outputs := map swap_resource (outputs p);
     dispatches := dispatches p |}.

Definition UpdatePingPong (ps : list Pass) : list Pass := map swap_pass ps.

(** The pass list in force [n] frames after the builder ran. *)
Fixpoint at_frame (n : nat) (ps : list Pass) : list Pass :=
  match n with
  | O => ps
  | S n' => UpdatePingPong (at_frame n' ps)
  end.

Definition is_ping_pong (r : Resource) : bool :=
  match indexToSwapWith r with Some _ => true | None => false end.

(** The ping-pong slots a pass reads, and those it writes, as resolved. *)
Definition ping_pong_reads (p : Pass) : list Slot :=
  map indexInPool (filter (fun r => is_ping_pong r = true) (inputs p)).
Definition ping_pong_writes (p : Pass) : list Slot :=
  map indexInPool (filter (fun r => is_ping_pong r = true) (outputs p)).

End PingPong.

(** ** Per-method settings of a denoiser *)

Module Denoiser.

Inductive Result := SUCCESS | FAILURE.

Section Core.

Context {Method : Type} `{EqDecision Method}.
Context {Settings : Type}.

(** What the library knows without being told: the methods compiled into
    it and the built-in default settings of each. *)
Variable supported : Method -> bool.
Variable default_settings : Method -> Settings.

Record MethodDesc := { method : Method; fullResolutionWidth : Z; fullResolutionHeight : Z }.

Record MethodData := { desc : MethodDesc; settings : Settings }.

(** The denoiser instance, reduced to its per-method data. *)
Definition DenoiserImpl := list MethodData.

Definition valid_desc (d : MethodDesc) : bool :=
  supported (method d) && negb (fullResolutionWidth d =? 0)%Z
                       && negb (fullResolutionHeight d =? 0)%Z.

(** Modelled from the spec: [CreateDenoiser] is only declared in [NRD.h].
    It takes the requested methods, fails on an unsupported method or a
    zero width or height, and otherwise holds each method with its built-in
    default settings. *)
Definition CreateDenoiser (descs : list MethodDesc) : option DenoiserImpl :=
  if forallb valid_desc descs
  then Some (map (fun d => {| desc := d; settings := default_settings (method d) |}) descs)
  else None.

(** Modelled from the spec: [SetMethodSettings] is only declared in [NRD.h].
    It looks the method up among those of the denoiser, replaces the
    settings of that method and reports success; it reports failure when
    the method was not requested at creation. *)
Fixpoint SetMethodSettings (d : DenoiserImpl) (m : Method) (s : Settings)
    : Result * DenoiserImpl :=
  match d with
  | [] => (FAILURE, [])
  | md :: rest =>
      if decide (method (desc md) = m)
      then (SUCCESS, {| desc := desc md; settings := s |} :: rest)
      else let (r, rest') := SetMethodSettings rest m s in (r, md :: rest')
  end.

(** The settings a dispatch query uses for method [m]. *)
Fixpoint effective_settings (d : DenoiserImpl) (m : Method) : option Settings :=
  match d with
  | [] => None
  | md :: rest =>
      if decide (method (desc md) = m) then Some (settings md)
      else effective_settings rest m
  end.

Definition included (d : DenoiserImpl) (m : Method) : Prop :=
  In m (map (fun md => method (desc md)) d).

(** The states a denoiser created from [descs] can be in: the created one,
    and any reached by further calls of [SetMethodSettings]. *)
Inductive reachable (descs : list MethodDesc) : DenoiserImpl -> Prop :=
  | reach_created d :
      CreateDenoiser descs = Some d -> reachable descs d
  | reach_set d m s :
      reachable descs d -> reachable descs (snd (SetMethodSettings d m s)).

End Core.

(** A denoiser of two methods, numbered 0 and 1, with settings that are
    plain numbers. *)
Definition example_descs : list (MethodDesc (Method:=nat)) :=
  [ {| method := 0%nat; fullResolutionWidth := 1920; fullResolutionHeight := 1080 |};
    {| method := 1%nat; fullResolutionWidth := 1920; fullResolutionHeight := 1080 |} ].

Definition example_denoiser : DenoiserImpl (Method:=nat) (Settings:=nat) :=
  map (fun d => {| desc := d; settings := 0%nat |}) example_descs.

End Denoiser.

(** ** Incremental texture transitions of the sample *)

Module Transitions.

(** [enum class Texture]. *)
Inductive Texture :=
  | IntegrateBRDF
  | ViewZ
  | DirectLighting
  | TransparentLighting
  | ObjectMotion
  | Normal_Roughness
  | BaseColor_Metalness
  | Shadow
  | DiffHit
  | SpecHit
  | Unfiltered_Shadow
  | Unfiltered_DiffA
  | Unfiltered_DiffB
  | Unfiltered_SpecHit
  | Composition
  | CompositionHdr
  | TaaHistory
  | TaaHistoryPrev
  | Final
  | MaterialTextures.

(** [(uint32_t)index] *)
Definition index_of (t : Texture) : nat :=
  match t with
  | IntegrateBRDF => 0 | ViewZ => 1 | DirectLighting => 2
  | TransparentLighting => 3 | ObjectMotion => 4 | Normal_Roughness => 5
  | BaseColor_Metalness => 6 | Shadow => 7 | DiffHit => 8 | SpecHit => 9
  | Unfiltered_Shadow => 10 | Unfiltered_DiffA => 11 | Unfiltered_DiffB => 12
  | Unfiltered_SpecHit => 13 | Composition => 14 | CompositionHdr => 15
  | TaaHistory => 16 | TaaHistoryPrev => 17 | Final => 18
  | MaterialTextures => 19
  end.

(** The values of [nri::AccessBits] and [nri::TextureLayout] the sample names. *)
Inductive AccessBits :=
  | ACCESS_UNKNOWN
  | ACCESS_SHADER_RESOURCE
  | ACCESS_SHADER_RESOURCE_STORAGE
  | ACCESS_COPY_SOURCE
  | ACCESS_COPY_DESTINATION
  | ACCESS_COLOR_ATTACHMENT.

Inductive TextureLayout :=
  | LAYOUT_UNKNOWN
  | LAYOUT_GENERAL
  | LAYOUT_SHADER_RESOURCE
  | LAYOUT_COLOR_ATTACHMENT
  | LAYOUT_PRESENT.

#[global] Instance Texture_eq_dec : EqDecision Texture.
Proof. solve_decision. Defined.
#[global] Instance AccessBits_eq_dec : EqDecision AccessBits.
Proof. solve_decision. Defined.
#[global] Instance TextureLayout_eq_dec : EqDecision TextureLayout.
Proof. solve_decision. Defined.

Record TextureState := {
  texture : Texture;
  nextAccess : AccessBits;
  nextLayout : TextureLayout
}.

(** [nri::TextureTransitionBarrierDesc]: the texture it belongs to (here the
    index of the texture in [m_Textures]) and the previous and next state. *)
Record TextureTransitionBarrierDesc := {
  barrierTexture : nat;
  prevAccess : AccessBits;
  barrierNextAccess : AccessBits;
  prevLayout : TextureLayout;
  barrierNextLayout : TextureLayout
}.

(** Modelled from the spec: [nri::TextureTransition] belongs to the rendering
    interface and is not in the sources.  It is handed the recorded state of
    a texture by reference and the requested next state; the state that was
    next becomes the previous one, the requested state becomes the next one,
    and the updated record is both kept and returned. *)
Definition TextureTransition (d : TextureTransitionBarrierDesc)
    (access : AccessBits) (layout : TextureLayout) : TextureTransitionBarrierDesc :=
  {| barrierTexture := barrierTexture d;
     prevAccess := barrierNextAccess d;
     barrierNextAccess := access;
     prevLayout := barrierNextLayout d;
     barrierNextLayout := layout |}.

(** [GetState(index)]: [m_TextureStates[(uint32_t)index]]. *)
Definition GetState (m_TextureStates : list TextureTransitionBarrierDesc)
    (t : Texture) : option TextureTransitionBarrierDesc :=
  m_TextureStates !! index_of t.

(** The loop of [BuildOptimizedTransitions], from entry [i] on: the recorded
    states, and the transitions written so far ([n] is their number). *)
Fixpoint BuildOptimizedTransitions_from (states : list TextureState)
    (m_TextureStates transitions : list TextureTransitionBarrierDesc)
    (transitionMaxNum : nat)
    : Outcome (list TextureTransitionBarrierDesc * list TextureTransitionBarrierDesc) :=
  match states with
  | [] => Done (m_TextureStates, transitions)
  | state :: rest =>
      match GetState m_TextureStates (texture state) with
      | None => OutOfRange
      | Some transition =>
          if decide (barrierNextAccess transition <> nextAccess state
                     \/ barrierNextLayout transition <> nextLayout state)
          then
            if decide (length transitions < transitionMaxNum)%nat
            then
              let t := TextureTransition transition (nextAccess state) (nextLayout state) in
              BuildOptimizedTransitions_from rest
                (<[index_of (texture state) := t]> m_TextureStates)
                (transitions ++ [t]) transitionMaxNum
            else AssertionFailed
          else
            BuildOptimizedTransitions_from rest m_TextureStates transitions
              transitionMaxNum
      end
  end.

(** [BuildOptimizedTransitions(states, stateNum, transitions, transitionMaxNum)]:
    the recorded states afterwards and the [n] transitions written. *)
Definition BuildOptimizedTransitions (m_TextureStates : list TextureTransitionBarrierDesc)
    (states : list TextureState) (transitionMaxNum : nat) :=
  BuildOptimizedTransitions_from states m_TextureStates [] transitionMaxNum.

(** The two calls in [RenderFrame]; [optimizedTransitions] has 32 entries. *)
Definition optimizedTransitions_size : nat := 32.

Definition Composition_states : list TextureState :=
  [ {| texture := DirectLighting; nextAccess := ACCESS_SHADER_RESOURCE; nextLayout := LAYOUT_SHADER_RESOURCE |};
    {| texture := TransparentLighting; nextAccess := ACCESS_SHADER_RESOURCE; nextLayout := LAYOUT_SHADER_RESOURCE |};
    {| texture := Normal_Roughness; nextAccess := ACCESS_SHADER_RESOURCE; nextLayout := LAYOUT_SHADER_RESOURCE |};
    {| texture := BaseColor_Metalness; nextAccess := ACCESS_SHADER_RESOURCE; nextLayout := LAYOUT_SHADER_RESOURCE |};
    {| texture := Shadow; nextAccess := ACCESS_SHADER_RESOURCE; nextLayout := LAYOUT_SHADER_RESOURCE |};
    {| texture := DiffHit; nextAccess := ACCESS_SHADER_RESOURCE; nextLayout := LAYOUT_SHADER_RESOURCE |};
    {| texture := SpecHit; nextAccess := ACCESS_SHADER_RESOURCE; nextLayout := LAYOUT_SHADER_RESOURCE |};
    {| texture := Unfiltered_Shadow; nextAccess := ACCESS_SHADER_RESOURCE; nextLayout := LAYOUT_SHADER_RESOURCE |};
    {| texture := Unfiltered_DiffA; nextAccess := ACCESS_SHADER_RESOURCE; nextLayout := LAYOUT_SHADER_RESOURCE |};
    {| texture := Unfiltered_DiffB; nextAccess := ACCESS_SHADER_RESOURCE; nextLayout := LAYOUT_SHADER_RESOURCE |};
    {| texture := Unfiltered_SpecHit; nextAccess := ACCESS_SHADER_RESOURCE; nextLayout := LAYOUT_SHADER_RESOURCE |};
    {| texture := Composition; nextAccess := ACCESS_SHADER_RESOURCE_STORAGE; nextLayout := LAYOUT_GENERAL |};
    {| texture := CompositionHdr; nextAccess := ACCESS_SHADER_RESOURCE_STORAGE; nextLayout := LAYOUT_GENERAL |} ].

Definition Temporal_states (isEven : bool) : list TextureState :=
  [ {| texture := ViewZ; nextAccess := ACCESS_SHADER_RESOURCE; nextLayout := LAYOUT_SHADER_RESOURCE |};
    {| texture := ObjectMotion; nextAccess := ACCESS_SHADER_RESOURCE; nextLayout := LAYOUT_SHADER_RESOURCE |};
    {| texture := Composition; nextAccess := ACCESS_SHADER_RESOURCE; nextLayout := LAYOUT_SHADER_RESOURCE |};
    {| texture := if isEven then TaaHistoryPrev else TaaHistory;
       nextAccess := ACCESS_SHADER_RESOURCE; nextLayout := LAYOUT_SHADER_RESOURCE |};
    {| texture := if isEven then TaaHistory else TaaHistoryPrev;
       nextAccess := ACCESS_SHADER_RESOURCE_STORAGE; nextLayout := LAYOUT_GENERAL |};
    {| texture := Final; nextAccess := ACCESS_SHADER_RESOURCE_STORAGE; nextLayout := LAYOUT_GENERAL |} ].

Definition Composition_barrier (m_TextureStates : list TextureTransitionBarrierDesc) :=
  BuildOptimizedTransitions m_TextureStates Composition_states optimizedTransitions_size.

Definition Temporal_barrier (isEven : bool)
    (m_TextureStates : list TextureTransitionBarrierDesc) :=
  BuildOptimizedTransitions m_TextureStates (Temporal_states isEven) optimizedTransitions_size.

(** Recorded states for the twenty named textures, all in storage state. *)
Definition example_states : list TextureTransitionBarrierDesc :=
  map (fun i => {| barrierTexture := i;
                   prevAccess := ACCESS_UNKNOWN;
                   barrierNextAccess := ACCESS_SHADER_RESOURCE_STORAGE;
                   prevLayout := LAYOUT_UNKNOWN;
                   barrierNextLayout := LAYOUT_GENERAL |}) (seq 0 20).

Definition example_recorded : list TextureTransitionBarrierDesc :=
  match Composition_barrier example_states with
  | Done (s, _) => s
  | _ => []
  end.

Definition example_transitions : list TextureTransitionBarrierDesc :=
  match Composition_barrier example_states with
  | Done (_, o) => o
  | _ => []
  end.

End Transitions.

(** ** The instance loop of the top-level acceleration structure build *)

Module Tlas.

Definition FLAG_FIRST_BIT : Z := 20.
Definition INSTANCE_ID_MASK : Z := Z.shiftl 1 FLAG_FIRST_BIT - 1.
Definition FLAG_OPAQUE_OR_ALPHA_OPAQUE : Z := 0x01.
Definition FLAG_TRANSPARENT : Z := 0x02.
Definition FLAG_EMISSION : Z := 0x04.
Definition FLAG_FORCED_EMISSION : Z := 0x08.

(** [utils::Material], [utils::Mesh] and [utils::Instance] are not in the
    sources; a material is taken with the answers of the four predicates
    the loop asks of it.  Positions and rotations are floating-point
    matrices and are left out, with the transforms computed from them. *)
Record Material := {
  IsOff : bool;
  IsEmissive : bool;
  IsTransparent : bool;
  IsOpaque : bool;
  averageBaseColor : Z
}.

Record Mesh := { indexOffset : Z }.

Record Instance := { meshIndex : nat; materialIndex : nat }.

(** The fields of [m_Settings] the build reads. *)
Record Settings := {
  emission : bool;
  emissiveObjects : bool;
  animatedObjects : bool;
  blink : bool;
  animatedObjectNum : Z
}.

(** What one iteration writes to the two staging buffers. *)
Record GeometryObjectInstance := {
  instanceId : Z;
  mask : Z;
  FORCE_OPAQUE : bool;
  accelerationStructure : nat
}.

Record InstanceData := {
  basePrimitiveId : Z;
  baseTextureIndex : Z;
  instanceAverageBaseColor : Z
}.

Section Build.

(** The pseudo-random generator [Rand] is not in the sources: its state, the
    state after [Rand::Seed], and one draw compared with the threshold,
    [Rand::uf1() > 0.66f], which also advances the state. *)
Variable RandState : Type.
Variable Rand_Seed : Z -> RandState.
Variable Rand_uf1_above_066 : RandState -> bool * RandState.

Record LoopState := {
  instanceNum : Z;
  rand : RandState;
  m_HasTransparentObjects : bool;
  tlasData : list GeometryObjectInstance;
  instanceData : list InstanceData
}.

(** The classification of one instance: the flags, the generator state and
    whether a transparent object was seen.  The draw is evaluated only when
    the two tests before it in the condition hold. *)
Definition classify (m_Settings : Settings) (material : Material)
    (i staticInstanceCount : Z) (st : LoopState) : Z * RandState * bool :=
  if IsEmissive material then
    (if emission m_Settings then FLAG_EMISSION else FLAG_OPAQUE_OR_ALPHA_OPAQUE,
     rand st, m_HasTransparentObjects st)
  else
    let '(forced, rand') :=
      if emissiveObjects m_Settings && (staticInstanceCount <? i)%Z
      then Rand_uf1_above_066 (rand st)
      else (false, rand st) in
    if forced then
      (if emission m_Settings then FLAG_FORCED_EMISSION else FLAG_OPAQUE_OR_ALPHA_OPAQUE,
       rand', m_HasTransparentObjects st)
    else if IsTransparent material then
      (FLAG_TRANSPARENT, rand', true)
    else
      (FLAG_OPAQUE_OR_ALPHA_OPAQUE, rand', m_HasTransparentObjects st).

(** The body of the loop for index [i]. *)
Definition iteration (m_Settings : Settings)
    (instances : list Instance) (meshes : list Mesh) (materials : list Material)
    (staticInstanceCount : Z) (i : nat) (st : LoopState) : Outcome LoopState :=
  match instances !! i with
  | None => OutOfRange
  | Some instance =>
    match meshes !! meshIndex instance, materials !! materialIndex instance with
    | Some mesh, Some material =>
        if IsOff material then Done st
        else if (instanceNum st <=? INSTANCE_ID_MASK)%Z then
          let '(flags, rand', transparent) :=
            classify m_Settings material (Z.of_nat i) staticInstanceCount st in
          let basePrimitiveId := (indexOffset mesh / 3)%Z in
          let instanceIdAndFlags :=
            Z.lor (instanceNum st) (u32 (Z.shiftl flags FLAG_FIRST_BIT)) in
          let averageBaseColor := Z.land (averageBaseColor material) 0x00FFFFFF in
          Done {|
            instanceNum := u32 (instanceNum st + 1);
            rand := rand';
            m_HasTransparentObjects := transparent;
            tlasData := tlasData st ++
              [{| instanceId := instanceIdAndFlags;
                  mask := flags;
                  FORCE_OPAQUE := IsOpaque material;
                  accelerationStructure := meshIndex instance |}];
            instanceData := instanceData st ++
              [{| basePrimitiveId := basePrimitiveId;
                  baseTextureIndex := Z.of_nat (materialIndex instance);
                  instanceAverageBaseColor := averageBaseColor |}]
          |}
        else AssertionFailed
    | _, _ => OutOfRange
    end
  end.

(** [for (uint64_t i = first; i < instanceCount; i++)], over the indices
    still to visit. *)
Fixpoint loop (m_Settings : Settings)
    (instances : list Instance) (meshes : list Mesh) (materials : list Material)
    (staticInstanceCount : Z) (indices : list nat) (st : LoopState)
    : Outcome LoopState :=
  match indices with
  | [] => Done st
  | i :: rest =>
      match iteration m_Settings instances meshes materials staticInstanceCount i st with
      | Done st' =>
          loop m_Settings instances meshes materials staticInstanceCount rest st'
      | AssertionFailed => AssertionFailed
      | OutOfRange => OutOfRange
      end
  end.

(** [BuildTopLevelAccelerationStructure], up to the end of the instance
    loop.  [blinkOn] is the outcome of the time-dependent test
    [WaveTriangle(period) > 0.5], which is read only under [blink]. *)
Definition BuildTopLevelAccelerationStructure (m_Settings : Settings)
    (blinkOn : bool)
    (instances : list Instance) (meshes : list Mesh) (materials : list Material)
    (m_DefaultInstancesOffset : nat) (animatedInstancesSize : nat)
    : Outcome LoopState :=
  let isAnimatedObjects :=
    if blink m_Settings then animatedObjects m_Settings && blinkOn
    else animatedObjects m_Settings in
  let size := Z.of_nat (length instances) in
  let animated := Z.of_nat animatedInstancesSize in
  let instanceCount :=
    u64 (size - u64 (animated - u64 (animatedObjectNum m_Settings
                                     * (if isAnimatedObjects then 1 else 0)))) in
  let staticInstanceCount := u64 (size - animated) in
  loop m_Settings instances meshes materials staticInstanceCount
    (seq m_DefaultInstancesOffset (Z.to_nat instanceCount - m_DefaultInstancesOffset))
    {| instanceNum := 0;
       rand := Rand_Seed 105361;
       m_HasTransparentObjects := false;
       tlasData := [];
       instanceData := [] |}.

(** What holds of the [k]-th instance written: its flags are one of the
    four classification values, the instance id carries them above bit 20
    and the running instance number below, and an emissive material is
    classified by the emission toggle alone. *)
Definition emitted_ok (m_Settings : Settings) (materials : list Material)
    (k : nat) (g : GeometryObjectInstance) (d : InstanceData) : Prop :=
  In (mask g) [FLAG_OPAQUE_OR_ALPHA_OPAQUE; FLAG_TRANSPARENT; FLAG_EMISSION;
               FLAG_FORCED_EMISSION]
  /\ Z.shiftr (instanceId g) FLAG_FIRST_BIT = mask g
  /\ Z.land (instanceId g) INSTANCE_ID_MASK = Z.of_nat k
  /\ exists material,
       materials !! Z.to_nat (baseTextureIndex d) = Some material
       /\ (IsEmissive material = true ->
           mask g = if emission m_Settings then FLAG_EMISSION
                    else FLAG_OPAQUE_OR_ALPHA_OPAQUE).

Definition invariant (m_Settings : Settings) (materials : list Material)
    (st : LoopState) : Prop :=
  instanceNum st = Z.of_nat (length (tlasData st))
  /\ length (tlasData st) = length (instanceData st)
  /\ forall k g d,
       tlasData st !! k = Some g -> instanceData st !! k = Some d ->
       emitted_ok m_Settings materials k g d.

End Build.

(** A scene of five instances over four materials, the last two instances
    animated; the generator is a counter whose draws alternate. *)
Definition example_materials : list Material :=
  [ {| IsOff := false; IsEmissive := true; IsTransparent := false; IsOpaque := true;
       averageBaseColor := 0x00FFFFFF |};
    {| IsOff := false; IsEmissive := false; IsTransparent := true; IsOpaque := false;
       averageBaseColor := 0x00808080 |};
    {| IsOff := true; IsEmissive := false; IsTransparent := false; IsOpaque := false;
       averageBaseColor := 0 |};
    {| IsOff := false; IsEmissive := false; IsTransparent := false; IsOpaque := true;
       averageBaseColor := 0x00102030 |} ].

Definition example_meshes : list Mesh := [ {| indexOffset := 0 |}; {| indexOffset := 36 |} ].

Definition example_instances : list Instance :=
  [ {| meshIndex := 0; materialIndex := 1 |};
    {| meshIndex := 1; materialIndex := 0 |};
    {| meshIndex := 0; materialIndex := 2 |};
    {| meshIndex := 1; materialIndex := 3 |};
    {| meshIndex := 1; materialIndex := 3 |} ].

Definition example_settings (emissionOn : bool) : Settings :=
  {| emission := emissionOn; emissiveObjects := true; animatedObjects := true;
     blink := false; animatedObjectNum := 2 |}.

Definition example_build (emissionOn : bool) : Outcome (LoopState nat) :=
  BuildTopLevelAccelerationStructure nat (fun _ => 0%nat)
    (fun s => (Nat.even s, S s))
    (example_settings emissionOn) false
    example_instances example_meshes example_materials 0 2.

Definition example_tlasData (emissionOn : bool) : list GeometryObjectInstance :=
  match example_build emissionOn with
  | Done st => tlasData nat st
  | _ => []
  end.

End Tlas.

(** ** Test-mode snapshots of settings and camera *)

Module Tests.

(** *** The object representation of [struct Settings] *)

Inductive CType := t_uint32 | t_double | t_float | t_int32 | t_bool.

Definition size_of (t : CType) : nat :=
  match t with
  | t_uint32 => 4 | t_double => 8 | t_float => 4 | t_int32 => 4 | t_bool => 1
  end.

(** Every scalar is aligned to its size. *)
Definition align_of (t : CType) : nat := size_of t.

Definition Settings_fields : list (string * CType) :=
  [ ("version", t_uint32);
    ("motionStartTime", t_double);
    ("camFov", t_float); ("diffDenoisingRadius", t_float);
    ("diffAdaptiveRadiusScale", t_float); ("diffHitDistScale", t_float);
    ("specDenoisingRadius", t_float); ("specAdaptiveRadiusScale", t_float);
    ("specHitDistScale", t_float); ("antilagIntensityThreshold", t_float);
    ("sunAzimuth", t_float); ("sunElevation", t_float);
    ("sunAngularDiameter", t_float); ("exposure", t_float);
    ("roughnessOverride", t_float); ("metalnessOverride", t_float);
    ("emissionIntensity", t_float); ("skyAmbient", t_float);
    ("disocclusionThreshold", t_float); ("debug", t_float);
    ("unitsToMetersMultiplier", t_float); ("emulateMotionSpeed", t_float);
    ("animatedObjectScale", t_float); ("separator", t_float);
    ("animationProgress", t_float); ("animationSpeed", t_float);
    ("sharpness", t_float);
    ("onScreen", t_int32); ("diffMaxHistoryFrameNum", t_int32);
    ("specMaxHistoryFrameNum", t_int32); ("forcedMaterial", t_int32);
    ("animatedObjectNum", t_int32); ("activeAnimation", t_int32);
    ("motionMode", t_int32);
    ("primaryFullBrdf", t_bool); ("indirectFullBrdf", t_bool);
    ("indirectDiffuse", t_bool); ("indirectSpecular", t_bool);
    ("normalMap", t_bool); ("mip", t_bool); ("blueNoise", t_bool);
    ("metalAmbient", t_bool); ("temporal", t_bool); ("reference", t_bool);
    ("syncHistoryFrames", t_bool); ("checkerboard", t_bool);
    ("specSecondBounce", t_bool); ("diffSecondBounce", t_bool);
    ("animatedObjects", t_bool); ("animateCamera", t_bool);
    ("animateSun", t_bool); ("nineBrothers", t_bool); ("blink", t_bool);
    ("pauseAnimation", t_bool); ("emission", t_bool);
    ("specularAnisotropicFiltering", t_bool); ("worldSpaceMotion", t_bool);
    ("linear", t_bool); ("emissiveObjects", t_bool); ("antilag", t_bool) ].

Definition align_up (off a : nat) : nat := (off + a - 1) / a * a.

(** Offsets of the fields laid out in order from [off], and the offset
    after the last one. *)
Fixpoint layout (off : nat) (fields : list (string * CType))
    : list (string * nat) * nat :=
  match fields with
  | [] => ([], off)
  | (f, t) :: rest =>
      let o := align_up off (align_of t) in
      let (offs, fin) := layout (o + size_of t) rest in
      ((f, o) :: offs, fin)
  end.

Definition struct_align (fields : list (string * CType)) : nat :=
  fold_right (fun ft a => Nat.max (align_of (snd ft)) a) 1%nat fields.

Definition sizeof_struct (fields : list (string * CType)) : nat :=
  align_up (snd (layout 0 fields)) (struct_align fields).

Fixpoint offset_in (offs : list (string * nat)) (f : string) : nat :=
  match offs with
  | [] => 0
  | (g, o) :: rest => if String.eqb f g then o else offset_in rest f
  end.

(** [sizeof(m_Settings)] and [offsetof(Settings, motionStartTime)]. *)
Definition sizeof_Settings : nat := Eval vm_compute in sizeof_struct Settings_fields.
Definition offsetof_motionStartTime : nat :=
  Eval vm_compute in offset_in (fst (layout 0 Settings_fields)) "motionStartTime".

(** *** Doubles in memory *)

(** The integer whose base-256 digits are the bytes, least significant first. *)
Fixpoint le_to_Z (bs : list byte) : Z :=
  match bs with
  | [] => 0
  | b :: rest => (Z.of_N (Byte.to_N b) + 256 * le_to_Z rest)%Z
  end.

Definition byte_of_Z (z : Z) : byte :=
  match Byte.of_N (Z.to_N (z mod 256)%Z) with
  | Some b => b
  | None => x00
  end.

Fixpoint Z_to_le (n : nat) (z : Z) : list byte :=
  match n with
  | O => []
  | S n' => byte_of_Z z :: Z_to_le n' (z / 256)%Z
  end.

(** The value of a binary64 bit pattern: sign, 11 exponent bits, 52
    fraction bits. *)
Definition double_of_bits (bits : Z) : spec_float :=
  let sign := Z.testbit bits 63 in
  let e := ((bits / 2 ^ 52) mod 2 ^ 11)%Z in
  let m := (bits mod 2 ^ 52)%Z in
  if (e =? 0)%Z then
    if (m =? 0)%Z then S754_zero sign else S754_finite sign (Z.to_pos m) (-1074)
  else if (e =? 2047)%Z then
    if (m =? 0)%Z then S754_infinity sign else S754_nan
  else S754_finite sign (Z.to_pos (m + 2 ^ 52)) (e - 1075).

(** The literals [0.0] and [-1.0]. *)
Definition bits_zero : Z := 0.
Definition bits_minus_one : Z := 0xBFF0000000000000.

(** [x > 0.0] on doubles. *)
Definition gt_zero (x : spec_float) : bool := SFltb (S754_zero false) x.

Definition read_at (off n : nat) (mem : list byte) : list byte :=
  take n (drop off mem).

Definition write_at (off : nat) (data mem : list byte) : list byte :=
  take off mem ++ data ++ drop (off + length data) mem.

Definition motionStartTime (settings : list byte) : spec_float :=
  double_of_bits (le_to_Z (read_at offsetof_motionStartTime 8 settings)).

Definition set_motionStartTime (bits : Z) (settings : list byte) : list byte :=
  write_at offsetof_motionStartTime (Z_to_le 8 bits) settings.

(** *** The panel *)

(** [m_Settings] and the camera data as the bytes they occupy, the file
    [tests.bin] ([None] when it does not exist), and the three statics of
    the panel. *)
Record State := {
  m_Settings : list byte;
  m_Camera : list byte;
  tests_bin : option (list byte);
  reloadNeeded : bool;
  itemNum : Z;
  lastSelected : Z
}.

(** [fread(buf, 1, n, fp)] on what is left of the file: the bytes read
    replace the head of the buffer; the rest of the file follows. *)
Definition fread (buf : list byte) (n : nat) (stream : list byte)
    : list byte * list byte :=
  let got := take n stream in
  (got ++ drop (length got) buf, drop n stream).

(** [fwrite(buf, 1, n, fp)] *)
Definition fwrite (buf : list byte) (n : nat) : list byte := take n buf.

(** The button that reports a click in this frame; for [Add], whether
    [fopen_s] in append mode gave a file. *)
Inductive Button :=
  | NoButton
  | ItemButton (i : Z)
  | AddButton (fp : bool).

Section Panel.

(** [m_Camera.GetDataSize()]; the camera class is not in the sources. *)
Variable cameraDataSize : nat.

Definition itemSize : Z := u32 (Z.of_nat sizeof_Settings + Z.of_nat cameraDataSize)%Z.

(** [if (reloadNeeded) { ... }] *)
Definition reload (st : State) : State :=
  if reloadNeeded st then
    {| m_Settings := m_Settings st;
       m_Camera := m_Camera st;
       tests_bin := tests_bin st;
       reloadNeeded := false;
       itemNum := match tests_bin st with
                  | Some content => (u32 (Z.of_nat (length content)) / itemSize)%Z
                  | None => itemNum st
                  end;
       lastSelected := lastSelected st |}
  else st.

(** The body of a numbered button: read record [i] into the settings and
    the camera. *)
Definition load (i : Z) (st : State) : State :=
  match tests_bin st with
  | None => st
  | Some content =>
      let stream := drop (Z.to_nat (u32 (i * itemSize)%Z)) content in
      let (settings', stream') := fread (m_Settings st) sizeof_Settings stream in
      let (camera', _) := fread (m_Camera st) cameraDataSize stream' in
      {| m_Settings := settings';
         m_Camera := camera';
         tests_bin := tests_bin st;
         reloadNeeded := reloadNeeded st;
         itemNum := itemNum st;
         lastSelected := u32 (i + 1)%Z |}
  end.

(** The body of the [Add] button. *)
Definition Add (fp : bool) (st : State) : State :=
  if fp then
    let settings' :=
      set_motionStartTime
        (if gt_zero (motionStartTime (m_Settings st)) then bits_minus_one else bits_zero)
        (m_Settings st) in
    let old := match tests_bin st with Some content => content | None => [] end in
    {| m_Settings := settings';
       m_Camera := m_Camera st;
       tests_bin := Some (old ++ fwrite settings' sizeof_Settings
                              ++ fwrite (m_Camera st) cameraDataSize);
       reloadNeeded := true;
       itemNum := itemNum st;
       lastSelected := lastSelected st |}
  else st.

(** One frame of the panel, up to and including [Add]; the [Del] button
    that follows takes no part in what is proved here. *)
Definition TestsPanel (b : Button) (st : State) : State :=
  let st1 := reload st in
  match b with
  | NoButton => st1
  | ItemButton i =>
      if (0 <=? i)%Z && (i <? itemNum st1)%Z then load i st1 else st1
  | AddButton fp => Add fp st1
  end.

(** Between two frames the rest of the program may rewrite the live
    settings and camera; the file and the statics are the panel's own. *)
Definition between_frames (settings camera : list byte) (st : State) : State :=
  {| m_Settings := settings;
     m_Camera := camera;
     tests_bin := tests_bin st;
     reloadNeeded := reloadNeeded st;
     itemNum := itemNum st;
     lastSelected := lastSelected st |}.

(** The length of [tests.bin]; a missing file counts as empty. *)
Definition file_content (st : State) : list byte :=
  match tests_bin st with Some content => content | None => [] end.

(** The settings part of record [i] of a file. *)
Definition record_settings (content : list byte) (i : nat) : list byte :=
  read_at (i * (sizeof_Settings + cameraDataSize)) sizeof_Settings content.

(** No whole record of the file holds a [motionStartTime] above 0.0. *)
Definition records_not_positive (content : list byte) : Prop :=
  forall i,
    ((i + 1) * (sizeof_Settings + cameraDataSize) <= length content)%nat ->
    gt_zero (motionStartTime (record_settings content i)) = false.

End Panel.

(** A session with 16 bytes of camera data and no [tests.bin] yet;
    [motionStartTime] holds the given bit pattern, [version] is 1. *)
Definition bits_five : Z := 0x4014000000000000.

Definition example_settings_bytes (bits : Z) : list byte :=
  Z_to_le 4 1 ++ repeat x00 4 ++ Z_to_le 8 bits ++ repeat x00 160.

Definition example_camera : list byte := repeat x2a 16.

Definition example_state (bits : Z) : State :=
  {| m_Settings := example_settings_bytes bits;
     m_Camera := example_camera;
     tests_bin := None;
     reloadNeeded := true;
     itemNum := 0;
     lastSelected := 0 |}.

(** Press [Add], then in the next frame the button of the new record. *)
Definition add_then_load (bits : Z) : State :=
  TestsPanel 16 (ItemButton 0)
    (TestsPanel 16 (AddButton true) (example_state bits)).

End Tests.

(** ** The barriers of the composition stage of a frame *)

Module Frame.
Import Transitions.

(** [const bool isEven = !(frameIndex & 0x1);] *)
Definition isEven (frameIndex : Z) : bool := (Z.land frameIndex 1 =? 0)%Z.

(** The history texture the temporal pass reads in a frame, and the one it
    writes: the fourth and fifth entries of its request list. *)
Definition history_read (frameIndex : Z) : option TextureState :=
  Temporal_states (isEven frameIndex) !! 3%nat.
Definition history_written (frameIndex : Z) : option TextureState :=
  Temporal_states (isEven frameIndex) !! 4%nat.

(** [Get(isEven ? DescriptorSet::Temporal1a : DescriptorSet::Temporal1b)] *)
Inductive DescriptorSet :=
  | IntegrateBRDF0
  | Raytracing2
  | Raytracing1
  | Composition1
  | Temporal1a
  | Temporal1b.

Definition Temporal_descriptorSet (frameIndex : Z) : DescriptorSet :=
  if isEven frameIndex then Temporal1a else Temporal1b.


(** A request agrees with a recorded state. *)
Definition agrees (d : TextureTransitionBarrierDesc) (state : TextureState) : Prop :=
  barrierNextAccess d = nextAccess state /\ barrierNextLayout d = nextLayout state.

(** A transition that changes something. *)
Definition changes (t : TextureTransitionBarrierDesc) : Prop :=
  prevAccess t <> barrierNextAccess t \/ prevLayout t <> barrierNextLayout t.

End Frame.

(** ** Textures, buffers and their views *)

Module Resources.
Import Transitions.

Local Open Scope Z_scope.
Local Open Scope string_scope.
Local Open Scope list_scope.

(** [enum class Buffer]; [UploadHeapBufferNum = 3] shares its value with
    [ShaderTable]. *)
Inductive Buffer :=
  | GlobalConstants
  | TlasDataStaging
  | InstanceDataStaging
  | ShaderTable
  | PrimitiveData
  | InstanceData
  | Scratch.

Definition Buffer_index (b : Buffer) : nat :=
  match b with
  | GlobalConstants => 0 | TlasDataStaging => 1 | InstanceDataStaging => 2
  | ShaderTable => 3 | PrimitiveData => 4 | InstanceData => 5 | Scratch => 6
  end.

Definition UploadHeapBufferNum : nat := 3.

(** The enumerators by name, as [enum class Buffer] and [enum class Texture]
    spell them. *)
Definition Buffer_name (b : Buffer) : string :=
  match b with
  | GlobalConstants => "GlobalConstants"
  | TlasDataStaging => "TlasDataStaging"
  | InstanceDataStaging => "InstanceDataStaging"
  | ShaderTable => "ShaderTable"
  | PrimitiveData => "PrimitiveData"
  | InstanceData => "InstanceData"
  | Scratch => "Scratch"
  end.

Definition Texture_name (t : Texture) : string :=
  match t with
  | IntegrateBRDF => "IntegrateBRDF"
  | ViewZ => "ViewZ"
  | DirectLighting => "DirectLighting"
  | TransparentLighting => "TransparentLighting"
  | ObjectMotion => "ObjectMotion"
  | Normal_Roughness => "Normal_Roughness"
  | BaseColor_Metalness => "BaseColor_Metalness"
  | Shadow => "Shadow"
  | DiffHit => "DiffHit"
  | SpecHit => "SpecHit"
  | Unfiltered_Shadow => "Unfiltered_Shadow"
  | Unfiltered_DiffA => "Unfiltered_DiffA"
  | Unfiltered_DiffB => "Unfiltered_DiffB"
  | Unfiltered_SpecHit => "Unfiltered_SpecHit"
  | Composition => "Composition"
  | CompositionHdr => "CompositionHdr"
  | TaaHistory => "TaaHistory"
  | TaaHistoryPrev => "TaaHistoryPrev"
  | Final => "Final"
  | MaterialTextures => "MaterialTextures"
  end.

(** [enum class Descriptor]. *)
Module Descriptor.
Inductive t :=
  | Opaque_AccelerationStructure
  | PrimitiveData_Buffer
  | InstanceData_Buffer
  | IntegrateBRDF_Texture
  | IntegrateBRDF_StorageTexture
  | ViewZ_Texture
  | ViewZ_StorageTexture
  | DirectLighting_Texture
  | DirectLighting_StorageTexture
  | TransparentLighting_Texture
  | TransparentLighting_StorageTexture
  | ObjectMotion_Texture
  | ObjectMotion_StorageTexture
  | Normal_Roughness_Texture
  | Normal_Roughness_StorageTexture
  | BaseColor_Metalness_Texture
  | BaseColor_Metalness_StorageTexture
  | Shadow_Texture
  | Shadow_StorageTexture
  | DiffHit_Texture
  | DiffHit_StorageTexture
  | SpecHit_Texture
  | SpecHit_StorageTexture
  | Unfiltered_Shadow_Texture
  | Unfiltered_Shadow_StorageTexture
  | Unfiltered_DiffA_Texture
  | Unfiltered_DiffA_StorageTexture
  | Unfiltered_DiffB_Texture
  | Unfiltered_DiffB_StorageTexture
  | Unfiltered_SpecHit_Texture
  | Unfiltered_SpecHit_StorageTexture
  | Composition_Texture
  | Composition_StorageTexture
  | CompositionHdr_Texture
  | CompositionHdr_StorageTexture
  | TaaHistory_Texture
  | TaaHistory_StorageTexture
  | TaaHistoryPrev_Texture
  | TaaHistoryPrev_StorageTexture
  | Final_Texture
  | Final_StorageTexture
  | MaterialTextures.

(** [(uint32_t)index] *)
Definition index (d : t) : nat :=
  match d with
  | Opaque_AccelerationStructure => 0
  | PrimitiveData_Buffer => 1
  | InstanceData_Buffer => 2
  | IntegrateBRDF_Texture => 3
  | IntegrateBRDF_StorageTexture => 4
  | ViewZ_Texture => 5
  | ViewZ_StorageTexture => 6
  | DirectLighting_Texture => 7
  | DirectLighting_StorageTexture => 8
  | TransparentLighting_Texture => 9
  | TransparentLighting_StorageTexture => 10
  | ObjectMotion_Texture => 11
  | ObjectMotion_StorageTexture => 12
  | Normal_Roughness_Texture => 13
  | Normal_Roughness_StorageTexture => 14
  | BaseColor_Metalness_Texture => 15
  | BaseColor_Metalness_StorageTexture => 16
  | Shadow_Texture => 17
  | Shadow_StorageTexture => 18
  | DiffHit_Texture => 19
  | DiffHit_StorageTexture => 20
  | SpecHit_Texture => 21
  | SpecHit_StorageTexture => 22
  | Unfiltered_Shadow_Texture => 23
  | Unfiltered_Shadow_StorageTexture => 24
  | Unfiltered_DiffA_Texture => 25
  | Unfiltered_DiffA_StorageTexture => 26
  | Unfiltered_DiffB_Texture => 27
  | Unfiltered_DiffB_StorageTexture => 28
  | Unfiltered_SpecHit_Texture => 29
  | Unfiltered_SpecHit_StorageTexture => 30
  | Composition_Texture => 31
  | Composition_StorageTexture => 32
  | CompositionHdr_Texture => 33
  | CompositionHdr_StorageTexture => 34
  | TaaHistory_Texture => 35
  | TaaHistory_StorageTexture => 36
  | TaaHistoryPrev_Texture => 37
  | TaaHistoryPrev_StorageTexture => 38
  | Final_Texture => 39
  | Final_StorageTexture => 40
  | MaterialTextures => 41
  end.
End Descriptor.

(** The descriptor named after a texture for reading it, and the one for
    writing it ([Descriptor::X_Texture], [Descriptor::X_StorageTexture]);
    [Texture::MaterialTextures] has the one descriptor of that name. *)
Definition Texture_descriptor (x : Texture) : Descriptor.t :=
  match x with
  | IntegrateBRDF => Descriptor.IntegrateBRDF_Texture
  | ViewZ => Descriptor.ViewZ_Texture
  | DirectLighting => Descriptor.DirectLighting_Texture
  | TransparentLighting => Descriptor.TransparentLighting_Texture
  | ObjectMotion => Descriptor.ObjectMotion_Texture
  | Normal_Roughness => Descriptor.Normal_Roughness_Texture
  | BaseColor_Metalness => Descriptor.BaseColor_Metalness_Texture
  | Shadow => Descriptor.Shadow_Texture
  | DiffHit => Descriptor.DiffHit_Texture
  | SpecHit => Descriptor.SpecHit_Texture
  | Unfiltered_Shadow => Descriptor.Unfiltered_Shadow_Texture
  | Unfiltered_DiffA => Descriptor.Unfiltered_DiffA_Texture
  | Unfiltered_DiffB => Descriptor.Unfiltered_DiffB_Texture
  | Unfiltered_SpecHit => Descriptor.Unfiltered_SpecHit_Texture
  | Composition => Descriptor.Composition_Texture
  | CompositionHdr => Descriptor.CompositionHdr_Texture
  | TaaHistory => Descriptor.TaaHistory_Texture
  | TaaHistoryPrev => Descriptor.TaaHistoryPrev_Texture
  | Final => Descriptor.Final_Texture
  | MaterialTextures => Descriptor.MaterialTextures
  end.

Definition StorageTexture_descriptor (x : Texture) : Descriptor.t :=
  match x with
  | IntegrateBRDF => Descriptor.IntegrateBRDF_StorageTexture
  | ViewZ => Descriptor.ViewZ_StorageTexture
  | DirectLighting => Descriptor.DirectLighting_StorageTexture
  | TransparentLighting => Descriptor.TransparentLighting_StorageTexture
  | ObjectMotion => Descriptor.ObjectMotion_StorageTexture
  | Normal_Roughness => Descriptor.Normal_Roughness_StorageTexture
  | BaseColor_Metalness => Descriptor.BaseColor_Metalness_StorageTexture
  | Shadow => Descriptor.Shadow_StorageTexture
  | DiffHit => Descriptor.DiffHit_StorageTexture
  | SpecHit => Descriptor.SpecHit_StorageTexture
  | Unfiltered_Shadow => Descriptor.Unfiltered_Shadow_StorageTexture
  | Unfiltered_DiffA => Descriptor.Unfiltered_DiffA_StorageTexture
  | Unfiltered_DiffB => Descriptor.Unfiltered_DiffB_StorageTexture
  | Unfiltered_SpecHit => Descriptor.Unfiltered_SpecHit_StorageTexture
  | Composition => Descriptor.Composition_StorageTexture
  | CompositionHdr => Descriptor.CompositionHdr_StorageTexture
  | TaaHistory => Descriptor.TaaHistory_StorageTexture
  | TaaHistoryPrev => Descriptor.TaaHistoryPrev_StorageTexture
  | Final => Descriptor.Final_StorageTexture
  | MaterialTextures => Descriptor.MaterialTextures
  end.

(** The values of [nri::Format] the sample names; any other value of the
    enumeration is [OtherFormat]. *)
Inductive Format :=
  | UNKNOWN
  | R8_UNORM
  | R16_UNORM
  | RG16_SFLOAT
  | RGBA8_UNORM
  | RGBA16_SFLOAT
  | R32_SFLOAT
  | RGBA32_UINT
  | RGBA32_SFLOAT
  | R10_G10_B10_A2_UNORM
  | R11_G11_B10_UFLOAT
  | D16_UNORM
  | D24_UNORM_S8_UINT
  | D32_SFLOAT
  | D32_SFLOAT_S8_UINT_X24
  | R24_UNORM_X8
  | R32_SFLOAT_X8_X24
  | OtherFormat (n : nat).

#[global] Instance Format_eq_dec : EqDecision Format.
Proof. solve_decision. Defined.

(** The formats with a depth component. *)
Definition is_depth (f : Format) : bool :=
  match f with
  | D16_UNORM | D24_UNORM_S8_UINT | D32_SFLOAT | D32_SFLOAT_S8_UINT_X24 => true
  | _ => false
  end.

(** [nri::TextureUsageBits] and [nri::BufferUsageBits], one flag per bit the
    sample uses; all flags off is [NONE]. *)
Record TextureUsageBits := {
  tex_SHADER_RESOURCE : bool;
  tex_SHADER_RESOURCE_STORAGE : bool
}.

Record BufferUsageBits := {
  buf_SHADER_RESOURCE : bool;
  buf_CONSTANT_BUFFER : bool;
  buf_RAY_TRACING_SCRATCH_BUFFER : bool
}.

Definition TextureUsage_NONE : TextureUsageBits :=
  {| tex_SHADER_RESOURCE := false; tex_SHADER_RESOURCE_STORAGE := false |}.
Definition TextureUsage_SHADER_RESOURCE : TextureUsageBits :=
  {| tex_SHADER_RESOURCE := true; tex_SHADER_RESOURCE_STORAGE := false |}.
(** [SHADER_RESOURCE | SHADER_RESOURCE_STORAGE] *)
Definition SHADER_RESOURCE_or_STORAGE : TextureUsageBits :=
  {| tex_SHADER_RESOURCE := true; tex_SHADER_RESOURCE_STORAGE := true |}.

Definition BufferUsage_NONE : BufferUsageBits :=
  {| buf_SHADER_RESOURCE := false; buf_CONSTANT_BUFFER := false;
     buf_RAY_TRACING_SCRATCH_BUFFER := false |}.
Definition BufferUsage_SHADER_RESOURCE : BufferUsageBits :=
  {| buf_SHADER_RESOURCE := true; buf_CONSTANT_BUFFER := false;
     buf_RAY_TRACING_SCRATCH_BUFFER := false |}.
Definition BufferUsage_CONSTANT_BUFFER : BufferUsageBits :=
  {| buf_SHADER_RESOURCE := false; buf_CONSTANT_BUFFER := true;
     buf_RAY_TRACING_SCRATCH_BUFFER := false |}.
Definition BufferUsage_RAY_TRACING_SCRATCH_BUFFER : BufferUsageBits :=
  {| buf_SHADER_RESOURCE := false; buf_CONSTANT_BUFFER := false;
     buf_RAY_TRACING_SCRATCH_BUFFER := true |}.

#[global] Instance TextureUsageBits_eq_dec : EqDecision TextureUsageBits.
Proof. solve_decision. Defined.
#[global] Instance BufferUsageBits_eq_dec : EqDecision BufferUsageBits.
Proof. solve_decision. Defined.

(** [nri::CTextureDesc::Texture2D(...)] and [nri::BufferDesc], as the sample
    fills them. *)
Record CTextureDesc := {
  textureFormat : Format;
  width : Z;
  height : Z;
  mipNum : Z;
  arraySize : Z;
  textureUsageMask : TextureUsageBits
}.

Record BufferDesc := {
  size : Z;
  structureStride : Z;
  usageMask : BufferUsageBits
}.

(** A created resource is known by its place in [m_Buffers] or [m_Textures];
    [DescriptorDesc::resource] is an untyped pointer to either. *)
Inductive ResourceHandle :=
  | BufferHandle (i : nat)
  | TextureHandle (i : nat).

Record DescriptorDesc := {
  debugName : string;
  resource : ResourceHandle;
  format : Format;
  textureUsage : TextureUsageBits;
  bufferUsage : BufferUsageBits;
  isArray : bool
}.

Inductive BufferViewType := CONSTANT | BUFFER_SHADER_RESOURCE.

Inductive Texture2DViewType :=
  | SHADER_RESOURCE_2D
  | SHADER_RESOURCE_2D_ARRAY
  | SHADER_RESOURCE_STORAGE_2D
  | SHADER_RESOURCE_STORAGE_2D_ARRAY.

(** What an [nri::Descriptor] of the sample stands for: the top-level
    acceleration structure, a view of a buffer, or a view of a texture.  Of
    an [nri::BufferViewDesc] the sample sets either the format or the range
    (offset and size); what it does not set is left to the rendering
    interface and is [None] here. *)
Inductive DescriptorObject :=
  | AccelerationStructureDescriptor
  | BufferView (buffer : ResourceHandle) (viewType : BufferViewType)
      (viewFormat : option Format) (range : option (Z * Z))
  | Texture2DView (viewed : ResourceHandle) (viewType : Texture2DViewType)
      (viewFormat : Format).

(** The two fields of [struct Frame] that [CreateDescriptors] sets. *)
Record Frame := {
  globalConstantBufferDescriptor : option DescriptorObject;
  globalConstantBufferOffset : Z
}.

(** The members of [Sample] that resource creation touches; the debug names
    given to buffers and textures are collected in [names]. *)
Record Sample := {
  m_Frames : list Frame;
  m_Textures : list CTextureDesc;
  m_TextureStates : list TextureTransitionBarrierDesc;
  m_Buffers : list BufferDesc;
  m_Descriptors : list DescriptorObject;
  names : list (ResourceHandle * string)
}.

(** Modelled from the spec: the three-argument [nri::TextureTransition] of
    the rendering interface, used when a texture is created, is not in the
    sources.  It names the texture and its last-known state; nothing is
    known of an earlier one. *)
Definition TextureTransition_created (texture : nat) (access : AccessBits)
    (layout : TextureLayout) : TextureTransitionBarrierDesc :=
  {| barrierTexture := texture;
     prevAccess := ACCESS_UNKNOWN;
     barrierNextAccess := access;
     prevLayout := LAYOUT_UNKNOWN;
     barrierNextLayout := layout |}.

(** [CreateTexture]: the sample and the descriptor descriptions collected so
    far are passed along. *)
Definition CreateTexture (c : Sample * list DescriptorDesc) (debugName : string)
    (format : Format) (width height mipNum arraySize : Z)
    (usage : TextureUsageBits) (state : AccessBits)
    : Sample * list DescriptorDesc :=
  let '(s, descriptorDescs) := c in
  let texture := length (m_Textures s) in
  let textureDesc :=
    {| textureFormat := format; width := width; height := height;
       mipNum := mipNum; arraySize := arraySize; textureUsageMask := usage |} in
  let states :=
    if decide (state <> ACCESS_UNKNOWN)
    then m_TextureStates s ++
           [TextureTransition_created texture state
              (if decide (state = ACCESS_SHADER_RESOURCE)
               then LAYOUT_SHADER_RESOURCE else LAYOUT_GENERAL)]
    else m_TextureStates s in
  ({| m_Frames := m_Frames s;
      m_Textures := m_Textures s ++ [textureDesc];
      m_TextureStates := states;
      m_Buffers := m_Buffers s;
      m_Descriptors := m_Descriptors s;
      names := names s |},
   descriptorDescs ++
     [{| debugName := debugName; resource := TextureHandle texture;
         format := format; textureUsage := usage;
         bufferUsage := BufferUsage_NONE; isArray := (1 <? arraySize)%Z |}]).

(** [CreateBuffer]; [elements * stride] is a 64-bit product. *)
Definition CreateBuffer (c : Sample * list DescriptorDesc) (debugName : string)
    (elements stride : Z) (usage : BufferUsageBits) (format : Format)
    : Sample * list DescriptorDesc :=
  let '(s, descriptorDescs) := c in
  let buffer := length (m_Buffers s) in
  let bufferDesc :=
    {| size := u64 (elements * stride);
       structureStride :=
         if decide (format = UNKNOWN /\ stride <> 1) then stride else 0;
       usageMask := usage |} in
  ({| m_Frames := m_Frames s;
      m_Textures := m_Textures s;
      m_TextureStates := m_TextureStates s;
      m_Buffers := m_Buffers s ++ [bufferDesc];
      m_Descriptors := m_Descriptors s;
      names := names s |},
   descriptorDescs ++
     [{| debugName := debugName; resource := BufferHandle buffer;
         format := format; textureUsage := TextureUsage_NONE;
         bufferUsage := usage; isArray := false |}]).

Definition GetCorrectFormatForDepth (format : Format) : Format :=
  match format with
  | D16_UNORM => R16_UNORM
  | D24_UNORM_S8_UINT => R24_UNORM_X8
  | D32_SFLOAT => R32_SFLOAT
  | D32_SFLOAT_S8_UINT_X24 => R32_SFLOAT_X8_X24
  | _ => format
  end.

Section Creation.

(** [BUFFERED_FRAME_MAX_NUM] comes from the sample framework. *)
Variable BUFFERED_FRAME_MAX_NUM : nat.
Variable m_ConstantBufferSize : Z.

(** The body of the loop of [CreateDescriptors] for one description. *)
Definition CreateDescriptors_step (s : Sample) (desc : DescriptorDesc) : Sample :=
  if decide (textureUsage desc = TextureUsage_NONE) then
    let s1 :=
      if decide (bufferUsage desc = BufferUsage_CONSTANT_BUFFER) then
        {| m_Frames :=
             map (fun i : nat =>
                    let offset := u64 (Z.of_nat i * m_ConstantBufferSize) in
                    {| globalConstantBufferDescriptor :=
                         Some (BufferView (BufferHandle (Buffer_index GlobalConstants))
                                 CONSTANT None (Some (offset, m_ConstantBufferSize)));
                       globalConstantBufferOffset := offset |})
                 (seq 0 BUFFERED_FRAME_MAX_NUM);
           m_Textures := m_Textures s;
           m_TextureStates := m_TextureStates s;
           m_Buffers := m_Buffers s;
           m_Descriptors := m_Descriptors s;
           names := names s |}
      else if buf_SHADER_RESOURCE (bufferUsage desc) then
        {| m_Frames := m_Frames s;
           m_Textures := m_Textures s;
           m_TextureStates := m_TextureStates s;
           m_Buffers := m_Buffers s;
           m_Descriptors :=
             m_Descriptors s ++
               [BufferView (resource desc) BUFFER_SHADER_RESOURCE
                  (Some (format desc)) None];
           names := names s |}
      else s in
    {| m_Frames := m_Frames s1;
       m_Textures := m_Textures s1;
       m_TextureStates := m_TextureStates s1;
       m_Buffers := m_Buffers s1;
       m_Descriptors := m_Descriptors s1;
       names := names s1 ++ [(resource desc, debugName desc)] |}
  else
    let sanitizedFormat := GetCorrectFormatForDepth (format desc) in
    let view :=
      Texture2DView (resource desc)
        (if isArray desc then SHADER_RESOURCE_2D_ARRAY else SHADER_RESOURCE_2D)
        sanitizedFormat in
    let storage :=
      if tex_SHADER_RESOURCE_STORAGE (textureUsage desc) then
        [Texture2DView (resource desc)
           (if isArray desc then SHADER_RESOURCE_STORAGE_2D_ARRAY
            else SHADER_RESOURCE_STORAGE_2D)
           sanitizedFormat]
      else [] in
    {| m_Frames := m_Frames s;
       m_Textures := m_Textures s;
       m_TextureStates := m_TextureStates s;
       m_Buffers := m_Buffers s;
       m_Descriptors := m_Descriptors s ++ [view] ++ storage;
       names := names s ++ [(resource desc, debugName desc)] |}.

Definition CreateDescriptors (descriptorDescs : list DescriptorDesc) (s : Sample)
    : Sample :=
  fold_left CreateDescriptors_step descriptorDescs s.

(** What [CreateResources] reads from the scene, the device and the sample. *)
Record Scene := {
  instances_size : Z;
  primitives_size : Z;
  textures : list CTextureDesc
}.

Record Params := {
  m_Scene : Scene;
  m_RenderResolution_x : Z;
  m_RenderResolution_y : Z;
  m_OutputResolution_x : Z;
  m_OutputResolution_y : Z;
  m_ShaderEntries_back : Z;
  scratchBufferSize : Z;
  sizeof_GeometryObjectInstance : Z
}.

Definition FG_TEX_SIZE : Z := 256.
Definition ANIMATED_INSTANCE_MAX_NUM : Z := 512.
(** [sizeof(InstanceData)]: six [float4]; [sizeof(PrimitiveData)]: sixteen
    [uint32_t]; [sizeof(float)]. *)
Definition sizeof_InstanceData : Z := 96.
Definition sizeof_PrimitiveData : Z := 64.
Definition sizeof_float : Z := 4.

Definition instanceDataSize (p : Params) : Z :=
  u64 ((instances_size (m_Scene p) + ANIMATED_INSTANCE_MAX_NUM) * sizeof_InstanceData).

(** The buffers of [CreateResources]. *)
Definition CreateResources_buffers (p : Params) (c : Sample * list DescriptorDesc)
    : Sample * list DescriptorDesc :=
  let c := CreateBuffer c "Buffer::GlobalConstants"
             (u64 (m_ConstantBufferSize * Z.of_nat BUFFERED_FRAME_MAX_NUM)) 1
             BufferUsage_CONSTANT_BUFFER UNKNOWN in
  let c := CreateBuffer c "Buffer::TlasDataStaging"
             (u64 (u64 ((instances_size (m_Scene p) + ANIMATED_INSTANCE_MAX_NUM)
                        * sizeof_GeometryObjectInstance p)
                   * Z.of_nat BUFFERED_FRAME_MAX_NUM)) 1
             BufferUsage_NONE UNKNOWN in
  let c := CreateBuffer c "Buffer::InstanceDataStaging"
             (u64 (instanceDataSize p * Z.of_nat BUFFERED_FRAME_MAX_NUM)) 1
             BufferUsage_NONE UNKNOWN in
  let c := CreateBuffer c "Buffer::ShaderTable" (m_ShaderEntries_back p) 1
             BufferUsage_NONE UNKNOWN in
  let c := CreateBuffer c "Buffer::PrimitiveData" (primitives_size (m_Scene p))
             sizeof_PrimitiveData BufferUsage_SHADER_RESOURCE RGBA32_UINT in
  let c := CreateBuffer c "Buffer::InstanceData"
             (instanceDataSize p / (4 * sizeof_float)) (4 * sizeof_float)
             BufferUsage_SHADER_RESOURCE RGBA32_SFLOAT in
  CreateBuffer c "Buffer::Scratch" (scratchBufferSize p) 1
    BufferUsage_RAY_TRACING_SCRATCH_BUFFER UNKNOWN.

(** The named textures of [CreateResources]. *)
Definition CreateResources_textures (p : Params) (swapChainFormat : Format)
    (c : Sample * list DescriptorDesc) : Sample * list DescriptorDesc :=
  let w := m_RenderResolution_x p in
  let h := m_RenderResolution_y p in
  let c := CreateTexture c "Texture::IntegrateBRDF" RG16_SFLOAT FG_TEX_SIZE FG_TEX_SIZE 1 1
             SHADER_RESOURCE_or_STORAGE ACCESS_SHADER_RESOURCE_STORAGE in
  let c := CreateTexture c "Texture::ViewZ" R32_SFLOAT w h 1 1
             SHADER_RESOURCE_or_STORAGE ACCESS_SHADER_RESOURCE in
  let c := CreateTexture c "Texture::DirectLighting" R11_G11_B10_UFLOAT w h 1 1
             SHADER_RESOURCE_or_STORAGE ACCESS_SHADER_RESOURCE in
  let c := CreateTexture c "Texture::TransparentLighting" RGBA16_SFLOAT w h 1 1
             SHADER_RESOURCE_or_STORAGE ACCESS_SHADER_RESOURCE in
  let c := CreateTexture c "Texture::ObjectMotion" RGBA16_SFLOAT w h 1 1
             SHADER_RESOURCE_or_STORAGE ACCESS_SHADER_RESOURCE in
  let c := CreateTexture c "Texture::Normal_Roughness" RGBA8_UNORM w h 1 1
             SHADER_RESOURCE_or_STORAGE ACCESS_SHADER_RESOURCE in
  let c := CreateTexture c "Texture::BaseColor_Metalness" RGBA8_UNORM w h 1 1
             SHADER_RESOURCE_or_STORAGE ACCESS_SHADER_RESOURCE in
  let c := CreateTexture c "Texture::Shadow" R8_UNORM w h 1 1
             SHADER_RESOURCE_or_STORAGE ACCESS_SHADER_RESOURCE in
  let c := CreateTexture c "Texture::DiffHit" RGBA16_SFLOAT w h 1 1
             SHADER_RESOURCE_or_STORAGE ACCESS_SHADER_RESOURCE in
  let c := CreateTexture c "Texture::SpecHit" RGBA16_SFLOAT w h 1 1
             SHADER_RESOURCE_or_STORAGE ACCESS_SHADER_RESOURCE in
  let c := CreateTexture c "Texture::Unfiltered_Shadow" RG16_SFLOAT w h 1 1
             SHADER_RESOURCE_or_STORAGE ACCESS_SHADER_RESOURCE in
  let c := CreateTexture c "Texture::Unfiltered_DiffA" RGBA16_SFLOAT w h 1 1
             SHADER_RESOURCE_or_STORAGE ACCESS_SHADER_RESOURCE in
  let c := CreateTexture c "Texture::Unfiltered_DiffB" RGBA16_SFLOAT w h 1 1
             SHADER_RESOURCE_or_STORAGE ACCESS_SHADER_RESOURCE in
  let c := CreateTexture c "Texture::Unfiltered_SpecHit" RGBA16_SFLOAT w h 1 1
             SHADER_RESOURCE_or_STORAGE ACCESS_SHADER_RESOURCE in
  let c := CreateTexture c "Texture::Composition" R10_G10_B10_A2_UNORM w h 1 1
             SHADER_RESOURCE_or_STORAGE ACCESS_SHADER_RESOURCE in
  let c := CreateTexture c "Texture::CompositionHdr" RGBA16_SFLOAT w h 1 1
             SHADER_RESOURCE_or_STORAGE ACCESS_SHADER_RESOURCE_STORAGE in
  let c := CreateTexture c "Texture::TaaHistory" R10_G10_B10_A2_UNORM w h 1 1
             SHADER_RESOURCE_or_STORAGE ACCESS_SHADER_RESOURCE in
  let c := CreateTexture c "Texture::TaaHistoryPrev" R10_G10_B10_A2_UNORM w h 1 1
             SHADER_RESOURCE_or_STORAGE ACCESS_SHADER_RESOURCE_STORAGE in
  CreateTexture c "Texture::Final" swapChainFormat (m_OutputResolution_x p) (m_OutputResolution_y p) 1 1
             SHADER_RESOURCE_or_STORAGE ACCESS_COPY_SOURCE.

(** The loop over [m_Scene.textures]. *)
Definition CreateResources_materials (p : Params)
    (c : Sample * list DescriptorDesc) : Sample * list DescriptorDesc :=
  fold_left
    (fun c textureData =>
       CreateTexture c "" (textureFormat textureData) (width textureData)
         (height textureData) (mipNum textureData) (arraySize textureData)
         TextureUsage_SHADER_RESOURCE ACCESS_UNKNOWN)
    (textures (m_Scene p)) c.

Definition CreateResources (p : Params) (swapChainFormat : Format) (s : Sample)
    : Sample :=
  let c := CreateResources_buffers p (s, []) in
  let c := CreateResources_textures p swapChainFormat c in
  let '(s, descriptorDescs) := CreateResources_materials p c in
  CreateDescriptors descriptorDescs s.

(** The buffers bound to upload memory, and the ones bound to device memory
    with all the textures: [m_Buffers.data()] up to [offset], and from it. *)
Definition upload_heap_buffers (s : Sample) : list BufferDesc :=
  take UploadHeapBufferNum (m_Buffers s).
Definition device_buffers (s : Sample) : list BufferDesc :=
  drop UploadHeapBufferNum (m_Buffers s).

(** [CreateTopLevelAccelerationStructure] pushes the first descriptor. *)
Definition CreateTopLevelAccelerationStructure (s : Sample) : Sample :=
  {| m_Frames := m_Frames s;
     m_Textures := m_Textures s;
     m_TextureStates := m_TextureStates s;
     m_Buffers := m_Buffers s;
     m_Descriptors := m_Descriptors s ++ [AccelerationStructureDescriptor];
     names := names s |}.

(** The sample as [Initialize] finds it, and after the two steps of
    [Initialize] that create acceleration structure and resources. *)
Definition Sample_new : Sample :=
  {| m_Frames :=
       repeat {| globalConstantBufferDescriptor := None;
                 globalConstantBufferOffset := 0 |} BUFFERED_FRAME_MAX_NUM;
     m_Textures := [];
     m_TextureStates := [];
     m_Buffers := [];
     m_Descriptors := [];
     names := [] |}.

Definition Initialize_resources (p : Params) (swapChainFormat : Format) : Sample :=
  CreateResources p swapChainFormat (CreateTopLevelAccelerationStructure Sample_new).

End Creation.

(** The texture, the description and the view that one pass of the loop
    over the scene's textures gives rise to, for the texture data
    [textureData] created as the [texture]-th texture. *)
Definition material_texture (textureData : CTextureDesc) : CTextureDesc :=
  {| textureFormat := textureFormat textureData; width := width textureData;
     height := height textureData; mipNum := mipNum textureData;
     arraySize := arraySize textureData;
     textureUsageMask := TextureUsage_SHADER_RESOURCE |}.

Definition material_desc (texture : nat) (textureData : CTextureDesc)
    : DescriptorDesc :=
  {| debugName := ""; resource := TextureHandle texture;
     format := textureFormat textureData;
     textureUsage := TextureUsage_SHADER_RESOURCE;
     bufferUsage := BufferUsage_NONE;
     isArray := (1 <? arraySize textureData)%Z |}.

Definition material_view (texture : nat) (textureData : CTextureDesc)
    : DescriptorObject :=
  Texture2DView (TextureHandle texture)
    (if (1 <? arraySize textureData)%Z
     then SHADER_RESOURCE_2D_ARRAY else SHADER_RESOURCE_2D)
    (GetCorrectFormatForDepth (textureFormat textureData)).

(** A sample with other textures in [m_Textures]. *)
Definition set_textures (s : Sample) (t : list CTextureDesc) : Sample :=
  {| m_Frames := m_Frames s;
     m_Textures := t;
     m_TextureStates := m_TextureStates s;
     m_Buffers := m_Buffers s;
     m_Descriptors := m_Descriptors s;
     names := names s |}.

(** A sample with the textures of a scene added after those it has. *)
Definition with_materials (s : Sample) (l : list CTextureDesc) : Sample :=
  let n := length (m_Textures s) in
  {| m_Frames := m_Frames s;
     m_Textures := m_Textures s ++ map material_texture l;
     m_TextureStates := m_TextureStates s;
     m_Buffers := m_Buffers s;
     m_Descriptors :=
       m_Descriptors s ++ imap (fun k => material_view (n + k)) l;
     names := names s ++ imap (fun k _ => (TextureHandle (n + k), "")) l |}.

(** [Initialize_resources] for a scene without textures. *)
Definition named_resources (BUFFERED_FRAME_MAX_NUM : nat)
    (m_ConstantBufferSize : Z) (p : Params) (swapChainFormat : Format) : Sample :=
  let c := CreateResources_textures p swapChainFormat
             (CreateResources_buffers BUFFERED_FRAME_MAX_NUM m_ConstantBufferSize p
                (CreateTopLevelAccelerationStructure
                   (Sample_new BUFFERED_FRAME_MAX_NUM), [])) in
  CreateDescriptors BUFFERED_FRAME_MAX_NUM m_ConstantBufferSize (snd c) (fst c).

(** The texture a view shows and whether it is a storage view. *)
Definition view_texture (d : DescriptorObject) : option nat :=
  match d with
  | Texture2DView (TextureHandle i) _ _ => Some i
  | _ => None
  end.

Definition is_storage_view (d : DescriptorObject) : bool :=
  match d with
  | Texture2DView _ SHADER_RESOURCE_STORAGE_2D _
  | Texture2DView _ SHADER_RESOURCE_STORAGE_2D_ARRAY _ => true
  | _ => false
  end.

Definition depth_view (d : DescriptorObject) : bool :=
  match d with
  | Texture2DView _ _ f => is_depth f
  | _ => false
  end.

(** [Get(Descriptor index)]: [m_Descriptors[(uint32_t)index]]. *)
Definition Get_Descriptor (s : Sample) (index : nat) : option DescriptorObject :=
  m_Descriptors s !! index.

(** An example scene with two material textures, one of them an array. *)
Definition example_params : Params :=
  {| m_Scene :=
       {| instances_size := 10; primitives_size := 1000;
          textures :=
            [ {| textureFormat := RGBA8_UNORM; width := 64; height := 64;
                 mipNum := 7; arraySize := 1;
                 textureUsageMask := TextureUsage_SHADER_RESOURCE |};
              {| textureFormat := D32_SFLOAT; width := 128; height := 128;
                 mipNum := 1; arraySize := 4;
                 textureUsageMask := TextureUsage_SHADER_RESOURCE |} ] |};
     m_RenderResolution_x := 1920; m_RenderResolution_y := 1080;
     m_OutputResolution_x := 1920; m_OutputResolution_y := 1080;
     m_ShaderEntries_back := 448;
     scratchBufferSize := 65536;
     sizeof_GeometryObjectInstance := 64 |}.

Definition example_sample : Sample :=
  Initialize_resources 2 256 example_params RGBA8_UNORM.

End Resources.

(** ** Pipeline layouts, descriptor sets and the descriptor pool *)

Module Pipelines.
Import Transitions Resources.

Local Open Scope Z_scope.
Local Open Scope list_scope.

Inductive DescriptorType :=
  | CONSTANT_BUFFER
  | TEXTURE
  | STORAGE_TEXTURE
  | BUFFER
  | ACCELERATION_STRUCTURE.

#[global] Instance DescriptorType_eq_dec : EqDecision DescriptorType.
Proof. solve_decision. Defined.

(** [nri::DescriptorRangeDesc]: first register, number of descriptors and
    their type; the last range of a set may be of variable size. *)
Record DescriptorRangeDesc := {
  baseRegisterIndex : Z;
  descriptorNum : Z;
  descriptorType : DescriptorType;
  isVariable : bool
}.

(** [nri::DescriptorSetDesc]: the ranges and the number of static
    samplers. *)
Record DescriptorSetDesc := {
  ranges : list DescriptorRangeDesc;
  staticSamplerNum : Z
}.

Definition range (base num : Z) (type : DescriptorType) : DescriptorRangeDesc :=
  {| baseRegisterIndex := base; descriptorNum := num; descriptorType := type;
     isVariable := false |}.

Definition TEXTURES_PER_MATERIAL : Z := 4.

(** [enum class Pipeline]. *)
Module Pipeline.
Inductive t :=
  | IntegrateBRDF
  | Raytracing
  | Composition
  | Temporal.
End Pipeline.

Definition globalDescriptorRanges : DescriptorSetDesc :=
  {| ranges := [ range 0 1 CONSTANT_BUFFER ]; staticSamplerNum := 3 |}.

(** The descriptor sets of the layout that [CreatePipelines] creates for a
    pipeline; [materials_size] is [m_Scene.materials.size()]. *)
Definition GetPipelineLayout (materials_size : Z) (index : Pipeline.t)
    : list DescriptorSetDesc :=
  match index with
  | Pipeline.IntegrateBRDF =>
      [ {| ranges := [ range 0 1 STORAGE_TEXTURE ]; staticSamplerNum := 0 |} ]
  | Pipeline.Raytracing =>
      let textureNum := u32 (u32 materials_size * TEXTURES_PER_MATERIAL) in
      [ globalDescriptorRanges;
        {| ranges := [ range 0 5 TEXTURE; range 5 10 STORAGE_TEXTURE ];
           staticSamplerNum := 0 |};
        {| ranges := [ range 0 1 ACCELERATION_STRUCTURE;
                       range 1 2 BUFFER;
                       {| baseRegisterIndex := 3; descriptorNum := textureNum;
                          descriptorType := TEXTURE; isVariable := true |} ];
           staticSamplerNum := 0 |} ]
  | Pipeline.Composition =>
      [ globalDescriptorRanges;
        {| ranges := [ range 0 12 TEXTURE; range 12 2 STORAGE_TEXTURE ];
           staticSamplerNum := 0 |} ]
  | Pipeline.Temporal =>
      [ globalDescriptorRanges;
        {| ranges := [ range 0 4 TEXTURE; range 4 2 STORAGE_TEXTURE ];
           staticSamplerNum := 0 |} ]
  end.

(** The four texture indices of a [utils::Material]. *)
Record Material := {
  diffuseMapIndex : nat;
  specularMapIndex : nat;
  normalMapIndex : nat;
  emissiveMapIndex : nat
}.

(** What is bound to a descriptor: one of [m_Descriptors], by index, or the
    constant buffer view of a frame. *)
Inductive Bound :=
  | Get (index : nat)
  | globalConstantBufferDescriptor_of (frame : nat).

(** A descriptor set as [CreateDescriptorSets] allocates and fills it: the
    layout and the set of the layout it is allocated for, the number passed
    for the range of variable size, and the ranges of the update. *)
Record DescriptorSetUpdate := {
  pipelineLayout : Pipeline.t;
  setIndex : nat;
  variableDescriptorNum : Z;
  updated : list (list Bound)
}.

Definition Get_all (l : list Descriptor.t) : list Bound :=
  map (fun d => Get (Descriptor.index d)) l.

Section Sets.

Variable BUFFERED_FRAME_MAX_NUM : nat.
Variable materials : list Material.
(** [utils::StaticTexture] belongs to the sample framework. *)
Variables ScramblingRanking1spp ScramblingRanking32spp SobolSequence : nat.

(** The set of each frame, [frame.globalConstantBufferDescriptorSet]. *)
Definition globalConstantBufferDescriptorSet (frame : nat) : DescriptorSetUpdate :=
  {| pipelineLayout := Pipeline.Raytracing; setIndex := 0;
     variableDescriptorNum := 0;
     updated := [ [ globalConstantBufferDescriptor_of frame ] ] |}.

Definition IntegrateBRDF0 : DescriptorSetUpdate :=
  {| pipelineLayout := Pipeline.IntegrateBRDF; setIndex := 0;
     variableDescriptorNum := 0;
     updated := [ Get_all [ Descriptor.IntegrateBRDF_StorageTexture ] ] |}.

Definition material_textures (material : Material) : list Bound :=
  [ Get (Descriptor.index Descriptor.MaterialTextures + diffuseMapIndex material);
    Get (Descriptor.index Descriptor.MaterialTextures + specularMapIndex material);
    Get (Descriptor.index Descriptor.MaterialTextures + normalMapIndex material);
    Get (Descriptor.index Descriptor.MaterialTextures + emissiveMapIndex material) ].

Definition Raytracing2 : DescriptorSetUpdate :=
  let textures := flat_map material_textures materials in
  {| pipelineLayout := Pipeline.Raytracing; setIndex := 2;
     variableDescriptorNum := u32 (Z.of_nat (length textures));
     updated :=
       [ Get_all [ Descriptor.Opaque_AccelerationStructure ];
         Get_all [ Descriptor.PrimitiveData_Buffer; Descriptor.InstanceData_Buffer ];
         textures ] |}.

Definition Raytracing1 : DescriptorSetUpdate :=
  {| pipelineLayout := Pipeline.Raytracing; setIndex := 1;
     variableDescriptorNum := 0;
     updated :=
       [ [ Get (Descriptor.index Descriptor.MaterialTextures + ScramblingRanking1spp);
           Get (Descriptor.index Descriptor.MaterialTextures + ScramblingRanking32spp);
           Get (Descriptor.index Descriptor.MaterialTextures + SobolSequence);
           Get (Descriptor.index Descriptor.IntegrateBRDF_Texture);
           Get (Descriptor.index Descriptor.CompositionHdr_Texture) ];
         Get_all
           [ Descriptor.DirectLighting_StorageTexture;
             Descriptor.TransparentLighting_StorageTexture;
             Descriptor.ObjectMotion_StorageTexture;
             Descriptor.ViewZ_StorageTexture;
             Descriptor.Normal_Roughness_StorageTexture;
             Descriptor.BaseColor_Metalness_StorageTexture;
             Descriptor.Unfiltered_Shadow_StorageTexture;
             Descriptor.Unfiltered_DiffA_StorageTexture;
             Descriptor.Unfiltered_DiffB_StorageTexture;
             Descriptor.Unfiltered_SpecHit_StorageTexture ] ] |}.

Definition Composition1 : DescriptorSetUpdate :=
  {| pipelineLayout := Pipeline.Composition; setIndex := 1;
     variableDescriptorNum := 0;
     updated :=
       [ Get_all
           [ Descriptor.DirectLighting_Texture;
             Descriptor.TransparentLighting_Texture;
             Descriptor.Normal_Roughness_Texture;
             Descriptor.BaseColor_Metalness_Texture;
             Descriptor.Shadow_Texture;
             Descriptor.DiffHit_Texture;
             Descriptor.SpecHit_Texture;
             Descriptor.Unfiltered_Shadow_Texture;
             Descriptor.Unfiltered_DiffA_Texture;
             Descriptor.Unfiltered_DiffB_Texture;
             Descriptor.Unfiltered_SpecHit_Texture;
             Descriptor.IntegrateBRDF_Texture ];
         Get_all
           [ Descriptor.Composition_StorageTexture;
             Descriptor.CompositionHdr_StorageTexture ] ] |}.

Definition Temporal1a : DescriptorSetUpdate :=
  {| pipelineLayout := Pipeline.Temporal; setIndex := 1;
     variableDescriptorNum := 0;
     updated :=
       [ Get_all
           [ Descriptor.ViewZ_Texture;
             Descriptor.ObjectMotion_Texture;
             Descriptor.Composition_Texture;
             Descriptor.TaaHistoryPrev_Texture ];
         Get_all
           [ Descriptor.TaaHistory_StorageTexture;
             Descriptor.Final_StorageTexture ] ] |}.

Definition Temporal1b : DescriptorSetUpdate :=
  {| pipelineLayout := Pipeline.Temporal; setIndex := 1;
     variableDescriptorNum := 0;
     updated :=
       [ Get_all
           [ Descriptor.ViewZ_Texture;
             Descriptor.ObjectMotion_Texture;
             Descriptor.Composition_Texture;
             Descriptor.TaaHistory_Texture ];
         Get_all
           [ Descriptor.TaaHistoryPrev_StorageTexture;
             Descriptor.Final_StorageTexture ] ] |}.

(** [m_DescriptorSets] after [CreateDescriptorSets], in the order of
    [enum class DescriptorSet]. *)
Definition m_DescriptorSets : list DescriptorSetUpdate :=
  [ IntegrateBRDF0; Raytracing2; Raytracing1; Composition1; Temporal1a; Temporal1b ].

(** Every set allocated from the pool: one per frame, then the six. *)
Definition allocated_sets : list DescriptorSetUpdate :=
  map globalConstantBufferDescriptorSet (seq 0 BUFFERED_FRAME_MAX_NUM)
  ++ m_DescriptorSets.

(** [nri::DescriptorPoolDesc] as [CreateDescriptorSets] fills it. *)
Record DescriptorPoolDesc := {
  descriptorSetMaxNum : Z;
  staticSamplerMaxNum : Z;
  storageTextureMaxNum : Z;
  textureMaxNum : Z;
  accelerationStructureMaxNum : Z;
  bufferMaxNum : Z;
  constantBufferMaxNum : Z
}.

Definition descriptorPoolDesc : DescriptorPoolDesc :=
  {| descriptorSetMaxNum := 128;
     staticSamplerMaxNum := u32 (3 * Z.of_nat BUFFERED_FRAME_MAX_NUM);
     storageTextureMaxNum := 128;
     textureMaxNum :=
       u32 (128 + u32 (u32 (Z.of_nat (length materials)) * TEXTURES_PER_MATERIAL));
     accelerationStructureMaxNum := u32 (1 * Z.of_nat BUFFERED_FRAME_MAX_NUM);
     bufferMaxNum := 16;
     constantBufferMaxNum := u32 (1 * Z.of_nat BUFFERED_FRAME_MAX_NUM) |}.

(** The layout set a descriptor set was allocated for. *)
Definition declared (set : DescriptorSetUpdate) : option DescriptorSetDesc :=
  GetPipelineLayout (Z.of_nat (length materials)) (pipelineLayout set) !! setIndex set.

(** The number of descriptors of a type that a set takes from the pool: the
    sizes of the ranges of that type in its layout, the variable one with
    the number passed at allocation. *)
Definition range_size (set : DescriptorSetUpdate) (r : DescriptorRangeDesc) : Z :=
  if isVariable r then variableDescriptorNum set else descriptorNum r.

Definition descriptors_of (type : DescriptorType) (set : DescriptorSetUpdate) : Z :=
  match declared set with
  | Some d =>
      fold_right Z.add 0
        (map (range_size set)
           (filter (fun r => descriptorType r = type) (ranges d)))
  | None => 0
  end.

Definition samplers_of (set : DescriptorSetUpdate) : Z :=
  match declared set with
  | Some d => staticSamplerNum d
  | None => 0
  end.

Definition total (f : DescriptorSetUpdate -> Z) : Z :=
  fold_right Z.add 0 (map f allocated_sets).

End Sets.

(** Whether what is bound is of a descriptor type, in a sample with its
    resources created. *)
Definition has_type (s : Sample) (type : DescriptorType) (b : Bound) : bool :=
  match b with
  | Get index =>
      match Get_Descriptor s index, type with
      | Some AccelerationStructureDescriptor, ACCELERATION_STRUCTURE => true
      | Some (BufferView _ BUFFER_SHADER_RESOURCE _ _), BUFFER => true
      | Some (Texture2DView _ SHADER_RESOURCE_2D _), TEXTURE => true
      | Some (Texture2DView _ SHADER_RESOURCE_2D_ARRAY _), TEXTURE => true
      | Some (Texture2DView _ SHADER_RESOURCE_STORAGE_2D _), STORAGE_TEXTURE => true
      | Some (Texture2DView _ SHADER_RESOURCE_STORAGE_2D_ARRAY _), STORAGE_TEXTURE => true
      | _, _ => false
      end
  | globalConstantBufferDescriptor_of frame =>
      match m_Frames s !! frame, type with
      | Some {| globalConstantBufferDescriptor := Some (BufferView _ CONSTANT _ _) |},
        CONSTANT_BUFFER => true
      | _, _ => false
      end
  end.

(** What the sets need of the descriptors of a sample with [n] scene
    textures and [B] frames: shader-resource views at the odd indices from
    3 and from 41 on, storage views at the even ones in between, the
    acceleration structure, the two buffer views, and the constant buffer
    view of each frame. *)
Definition typed (B : nat) (s : Sample) (n : nat) : Prop :=
  (forall k, (k < n)%nat -> has_type s TEXTURE (Get (41 + k)) = true)
  /\ (forall i, In i [4; 6; 8; 10; 12; 14; 16; 18; 20; 22; 24; 26; 28; 30;
                      32; 34; 36; 38; 40]%nat ->
                has_type s STORAGE_TEXTURE (Get i) = true)
  /\ (forall i, In i [3; 5; 7; 9; 11; 13; 15; 17; 19; 21; 23; 25; 27; 29;
                      31; 33; 35; 37; 39]%nat ->
                has_type s TEXTURE (Get i) = true)
  /\ (forall i, (i < B)%nat ->
                has_type s CONSTANT_BUFFER (globalConstantBufferDescriptor_of i) = true)
  /\ has_type s ACCELERATION_STRUCTURE (Get 0) = true
  /\ has_type s BUFFER (Get 1) = true
  /\ has_type s BUFFER (Get 2) = true.

(** An update fits a declared range: as many descriptors as declared (for
    the variable range, as passed at allocation), each of the declared
    type. *)
Definition range_fits (s : Sample) (set : DescriptorSetUpdate)
    (r : DescriptorRangeDesc) (bound : list Bound) : Prop :=
  Z.of_nat (length bound) = range_size set r
  /\ Forall (fun b => has_type s (descriptorType r) b = true) bound.

(** Ranges that follow each other from a register on. *)
Fixpoint laid_out (set : DescriptorSetUpdate) (base : Z)
    (l : list DescriptorRangeDesc) : Prop :=
  match l with
  | [] => True
  | r :: rest =>
      baseRegisterIndex r = base /\ laid_out set (base + range_size set r) rest
  end.

Definition update_fits (s : Sample) (materials_size : nat)
    (set : DescriptorSetUpdate) : Prop :=
  exists d,
    GetPipelineLayout (Z.of_nat materials_size) (pipelineLayout set) !! setIndex set
      = Some d
    /\ Forall2 (range_fits s set) (ranges d) (updated set).

(** Two materials over two scene textures. *)
Definition example_materials : list Material :=
  [ {| diffuseMapIndex := 0; specularMapIndex := 1; normalMapIndex := 0;
       emissiveMapIndex := 1 |};
    {| diffuseMapIndex := 1; specularMapIndex := 1; normalMapIndex := 0;
       emissiveMapIndex := 0 |} ].

End Pipelines.

(** * Properties *)

(** ** The declared pass graph *)

Module ReblurProofs.
Import Reblur.
Local Open Scope build_scope.

Lemma alter_last_snoc {A} (f : A -> A) (l : list A) (x : A) :
  alter_last f (l ++ [x]) = l ++ [f x].
Proof.
  induction l as [|y l IH]; [reflexivity|].
  cbn [app alter_last]. rewrite IH.
  destruct l; reflexivity.
Qed.

Ltac run_block :=
  intros [pp tp ps st];
  match goal with
  | |- _ = (tt, set_passes (fun _ => _ ++ [?p]) _) =>
      let v := eval vm_compute in p in change p with v
  end;
  cbv beta iota delta [bind modify PushPass PushInput PushInput2 PushOutput
    PushOutput2 AddDispatch set_passes passes permanentPool transientPool
    denoiserSettings];
  repeat rewrite alter_last_snoc;
  reflexivity.

Lemma ClassifyTiles_pushes : pushes ClassifyTiles.
Proof. unfold pushes, ClassifyTiles. run_block. Qed.

Lemma HitDistReconstruction_pushes i : pushes (HitDistReconstruction i).
Proof.
  unfold pushes, HitDistReconstruction.
  generalize (bit i 0); intros []; run_block.
Qed.

Lemma TemporalAccumulation_pushes i : pushes (TemporalAccumulation i).
Proof.
  unfold pushes, TemporalAccumulation.
  generalize (bit i 0), (bit i 1), (bit i 2); intros [] [] []; run_block.
Qed.

Lemma HistoryFix_pushes : pushes HistoryFix.
Proof. unfold pushes, HistoryFix. run_block. Qed.

Lemma Blur_pushes : pushes Blur.
Proof. unfold pushes, Blur. run_block. Qed.

Lemma PostBlur_pushes : pushes PostBlur.
Proof. unfold pushes, PostBlur. run_block. Qed.

Lemma SplitScreen_pushes : pushes SplitScreen.
Proof. unfold pushes, SplitScreen. run_block. Qed.

Lemma Validation_pushes a b c : pushes (REBLUR_ADD_VALIDATION_DISPATCH a b c).
Proof. unfold pushes, REBLUR_ADD_VALIDATION_DISPATCH. run_block. Qed.

Lemma pushes_appends c : pushes c -> appends c [pass_built c].
Proof. intros H s. unfold exec. rewrite H. reflexivity. Qed.

Lemma appends_bind (c1 c2 : Build unit) l1 l2 :
  appends c1 l1 -> appends c2 l2 -> appends (c1 ;; c2) (l1 ++ l2).
Proof.
  intros H1 H2 s. unfold exec, bind.
  specialize (H1 s). unfold exec in H1.
  destruct (c1 s) as [[] s1]. cbn [snd] in H1.
  specialize (H2 s1). unfold exec in H2.
  rewrite H2, H1. now rewrite app_assoc.
Qed.

Lemma appends_permanent d : appends (AddTextureToPermanentPool d) [].
Proof. intros s. cbn. now rewrite app_nil_r. Qed.

Lemma appends_transient d : appends (AddTextureToTransientPool d) [].
Proof. intros s. cbn. now rewrite app_nil_r. Qed.

Lemma appends_settings : appends set_reblur_settings [].
Proof. intros s. cbn. now rewrite app_nil_r. Qed.

Lemma appends_for (body : Z -> Build unit) (n : nat) :
  (forall j, pushes (body j)) ->
  forall i,
    appends (for_from i n body)
      (map (fun k => pass_built (body (i + Z.of_nat k)%Z)) (seq 0 n)).
Proof.
  intros Hbody. induction n as [|n IH]; intros i.
  - intros s. cbn. now rewrite app_nil_r.
  - cbn [for_from seq map]. rewrite Z.add_0_r.
    change (?x :: ?l) with ([x] ++ l).
    apply appends_bind; [apply pushes_appends, Hbody|].
    rewrite <- seq_shift, map_map.
    erewrite map_ext; [apply (IH (i + 1)%Z)|].
    intros k. cbn beta. do 2 f_equal. lia.
Qed.

Lemma appends_for_0 (body : Z -> Build unit) (n : nat) :
  (forall j, pushes (body j)) ->
  appends (for_ n body) (map (fun k => pass_built (body (Z.of_nat k))) (seq 0 n)).
Proof. intros H. exact (appends_for body n H 0%Z). Qed.

Create HintDb passes_db.
#[local] Hint Resolve appends_permanent appends_transient appends_settings : passes_db.
#[local] Hint Resolve ClassifyTiles_pushes HitDistReconstruction_pushes
  TemporalAccumulation_pushes HistoryFix_pushes Blur_pushes PostBlur_pushes
  SplitScreen_pushes Validation_pushes : passes_db.
#[local] Hint Resolve pushes_appends appends_for_0 : passes_db.

Lemma builder_appends r t :
  appends (Add_ReblurDiffuseSpecularOcclusion r t) (pass_sequence r t).
Proof.
  assert (H : forall l c, appends c l -> forall l', l = l' -> appends c l')
    by (intros; subst; assumption).
  eapply H.
  - unfold Add_ReblurDiffuseSpecularOcclusion.
    repeat (eapply appends_bind; [solve [auto with passes_db]|]).
    auto with passes_db.
  - reflexivity.
Qed.

Lemma declared_passes_eq r t : declared_passes r t = pass_sequence r t.
Proof. unfold declared_passes. now rewrite builder_appends. Qed.


Lemma lookup_classify r t :
  pass_sequence r t !! 0%nat = Some (pass_built ClassifyTiles).
Proof. reflexivity. Qed.

Lemma lookup_reconstruction r t i :
  (i < r)%nat ->
  pass_sequence r t !! (1 + i)%nat
  = Some (pass_built (HitDistReconstruction (Z.of_nat i))).
Proof.
  intros Hi. unfold pass_sequence. cbn [app Nat.add].
  change (?x :: ?l) with ([x] ++ l) at 1.
  rewrite lookup_app_r by (cbn; lia). cbn [length].
  replace (S i - 1)%nat with i by lia.
  rewrite lookup_app_l by (rewrite length_map, length_seq; lia).
  rewrite list_lookup_fmap, lookup_seq_lt by lia. reflexivity.
Qed.

Lemma lookup_accumulation r t i :
  (i < t)%nat ->
  pass_sequence r t !! (1 + r + i)%nat
  = Some (pass_built (TemporalAccumulation (Z.of_nat i))).
Proof.
  intros Hi. unfold pass_sequence.
  rewrite lookup_app_r by (cbn; lia). cbn [length].
  rewrite lookup_app_r by (rewrite length_map, length_seq; lia).
  rewrite length_map, length_seq.
  replace (1 + r + i - 1 - r)%nat with i by lia.
  rewrite lookup_app_l by (rewrite length_map, length_seq; lia).
  rewrite list_lookup_fmap, lookup_seq_lt by lia. reflexivity.
Qed.

Lemma lookup_tail r t j :
  pass_sequence r t !! (1 + r + t + j)%nat
  = [pass_built HistoryFix; pass_built Blur; pass_built PostBlur;
     pass_built SplitScreen;
     pass_built (REBLUR_ADD_VALIDATION_DISPATCH (AsUint Transient.DATA1)
                   (AsUint IN_DIFF_HITDIST) (AsUint IN_SPEC_HITDIST))] !! j.
Proof.
  unfold pass_sequence.
  rewrite lookup_app_r by (cbn; lia). cbn [length].
  rewrite lookup_app_r by (rewrite length_map, length_seq; lia).
  rewrite length_map, length_seq.
  rewrite lookup_app_r by (rewrite length_map, length_seq; lia).
  rewrite length_map, length_seq.
  f_equal. lia.
Qed.

(** Every position of the sequence falls in one of the four regions. *)
Lemma lookup_regions r t k p :
  pass_sequence r t !! k = Some p ->
  (k = 0%nat /\ p = pass_built ClassifyTiles)
  \/ (exists i, (i < r)%nat /\ k = (1 + i)%nat
                /\ p = pass_built (HitDistReconstruction (Z.of_nat i)))
  \/ (exists i, (i < t)%nat /\ k = (1 + r + i)%nat
                /\ p = pass_built (TemporalAccumulation (Z.of_nat i)))
  \/ (exists j, k = (1 + r + t + j)%nat
                /\ [pass_built HistoryFix; pass_built Blur; pass_built PostBlur;
                    pass_built SplitScreen;
                    pass_built (REBLUR_ADD_VALIDATION_DISPATCH (AsUint Transient.DATA1)
                      (AsUint IN_DIFF_HITDIST) (AsUint IN_SPEC_HITDIST))] !! j = Some p).
Proof.
  intros H.
  destruct (decide (k = 0%nat)) as [->|Hk0].
  { left. split; [reflexivity|]. rewrite lookup_classify in H. congruence. }
  right.
  destruct (decide (k < 1 + r)%nat) as [Hr|Hr].
  { left. exists (k - 1)%nat. split; [lia|]. split; [lia|].
    replace k with (1 + (k - 1))%nat in H by lia.
    rewrite lookup_reconstruction in H by lia. congruence. }
  right.
  destruct (decide (k < 1 + r + t)%nat) as [Ht|Ht].
  { left. exists (k - 1 - r)%nat. split; [lia|]. split; [lia|].
    replace k with (1 + r + (k - 1 - r))%nat in H by lia.
    rewrite lookup_accumulation in H by lia. congruence. }
  right. exists (k - 1 - r - t)%nat. split; [lia|].
  replace k with (1 + r + t + (k - 1 - r - t))%nat in H by lia.
  now rewrite lookup_tail in H.
Qed.

Ltac by_bits i :=
  unfold TemporalAccumulation, HitDistReconstruction;
  generalize (bit i 0), (bit i 1), (bit i 2); intros [] [] [].




Lemma first_writer_writes r t tr :
  (0 < r)%nat -> (0 < t)%nat ->
  exists q, pass_sequence r t !! first_writer r tr = Some q
            /\ In (TransientSlot tr) (output_slots q).
Proof.
  intros Hr Ht.
  destruct tr; cbn [first_writer];
    first
      [ exists (pass_built ClassifyTiles);
        split; [reflexivity | vm_compute; intuition congruence]
      | exists (pass_built (HitDistReconstruction (Z.of_nat 0)));
        split; [apply (lookup_reconstruction r t 0); lia
               | vm_compute; intuition congruence]
      | exists (pass_built (TemporalAccumulation (Z.of_nat 0)));
        split; [replace (1 + r)%nat with (1 + r + 0)%nat by lia;
                apply lookup_accumulation; lia
               | vm_compute; intuition congruence] ].
Qed.

(** C3. With at least one permutation of the reconstruction pass and of the
    temporal-accumulation pass declared, every transient slot among the
    inputs of a declared pass is among the outputs of a pass declared
    earlier in the sequence. *)
Theorem transient_inputs_written_earlier (r t : nat) :
  (0 < r)%nat -> (0 < t)%nat ->
  forall k p tr,
    declared_passes r t !! k = Some p ->
    In (TransientSlot tr) (input_slots p) ->
    exists j q,
      (j < k)%nat
      /\ declared_passes r t !! j = Some q
      /\ In (TransientSlot tr) (output_slots q).
Proof.
  intros Hr Ht k p tr Hk Hin. rewrite declared_passes_eq in *.
  destruct (first_writer_writes r t tr Hr Ht) as (q & Hq & Hout).
  exists (first_writer r tr), q. split; [|split; assumption].
  clear q Hq Hout.
  destruct (lookup_regions r t k p Hk)
    as [(-> & ->) | [(i & Hi & -> & ->) | [(i & Hi & -> & ->) | (j & -> & Hj)]]].
  - exfalso. vm_compute in Hin. intuition discriminate.
  - revert Hin. by_bits (Z.of_nat i); intros Hin;
      destruct tr; vm_compute in Hin;
      try (exfalso; intuition discriminate); cbn [first_writer]; lia.
  - revert Hin. by_bits (Z.of_nat i); intros Hin;
      destruct tr; vm_compute in Hin;
      try (exfalso; intuition discriminate); cbn [first_writer]; lia.
  - do 5 (destruct j as [|j];
          [ injection Hj as <-; destruct tr; vm_compute in Hin;
            try (exfalso; intuition discriminate); cbn [first_writer]; lia |]).
    discriminate Hj.
Qed.

Lemma transient_inputs_written_earlier_witness :
  exists j q,
    (j < 11)%nat
    /\ declared_passes 2 8 !! j = Some q
    /\ In (TransientSlot Transient.DATA1) (output_slots q).
Proof.
  refine (transient_inputs_written_earlier 2 8 ltac:(lia) ltac:(lia) 11%nat
            (pass_built HistoryFix) Transient.DATA1 _ _).
  - vm_compute. reflexivity.
  - vm_compute. intuition congruence.
Defined.

Lemma map_constant {A B} (f : A -> B) (c : B) (l : list A) :
  (forall x, f x = c) -> map f l = repeat c (length l).
Proof.
  intros Hf. induction l as [|x l IH]; [reflexivity|].
  cbn. now rewrite Hf, IH.
Qed.

(** C6. The passes are declared in the order: classify tiles, every
    permutation of hit-distance reconstruction, every permutation of
    temporal accumulation, history fix, blur, post-blur, split screen,
    validation.  Split screen reads the view-space depth and the caller's
    raw diffuse and specular hit distances and writes the two denoised
    outputs; it is declared right after post-blur, which is the one pass
    before it that writes those outputs. *)
Theorem pass_order_and_split_screen (r t : nat) :
  map name (declared_passes r t)
  = ["Classify tiles"] ++ repeat "Hit distance reconstruction" r
    ++ repeat "Temporal accumulation" t
    ++ ["History fix"; "Blur"; "Post-blur"; "Split screen"; "Validation"]
  /\ exists postBlur splitScreen,
      declared_passes r t !! (1 + r + t + 2)%nat = Some postBlur
      /\ declared_passes r t !! (1 + r + t + 3)%nat = Some splitScreen
      /\ name postBlur = "Post-blur"
      /\ name splitScreen = "Split screen"
      /\ input_slots splitScreen
         = [Caller IN_VIEWZ; Caller IN_DIFF_HITDIST; Caller IN_SPEC_HITDIST]
      /\ output_slots splitScreen
         = [Caller OUT_DIFF_HITDIST; Caller OUT_SPEC_HITDIST]
      /\ In (Caller OUT_DIFF_HITDIST) (output_slots postBlur)
      /\ In (Caller OUT_SPEC_HITDIST) (output_slots postBlur)
      /\ forall k p,
           (k < 1 + r + t + 3)%nat ->
           declared_passes r t !! k = Some p ->
           In (Caller OUT_DIFF_HITDIST) (output_slots p)
           \/ In (Caller OUT_SPEC_HITDIST) (output_slots p) ->
           k = (1 + r + t + 2)%nat.
Proof.
  rewrite declared_passes_eq. split.
  - unfold pass_sequence. rewrite !map_app, !map_map.
    rewrite (map_constant
               (fun k => name (pass_built (HitDistReconstruction (Z.of_nat k))))
               "Hit distance reconstruction" (seq 0 r))
      by (intros k; by_bits (Z.of_nat k); reflexivity).
    rewrite (map_constant
               (fun k => name (pass_built (TemporalAccumulation (Z.of_nat k))))
               "Temporal accumulation" (seq 0 t))
      by (intros k; by_bits (Z.of_nat k); reflexivity).
    rewrite !length_seq. reflexivity.
  - exists (pass_built PostBlur), (pass_built SplitScreen).
    rewrite !lookup_tail.
    repeat (split; [first [reflexivity | vm_compute; intuition congruence]|]).
    intros k p Hk Hp Hout.
    destruct (lookup_regions r t k p Hp)
      as [(-> & ->) | [(i & Hi & -> & ->) | [(i & Hi & -> & ->) | (j & -> & Hj)]]].
    + exfalso. vm_compute in Hout. intuition discriminate.
    + exfalso. revert Hout. by_bits (Z.of_nat i); intros Hout;
        vm_compute in Hout; intuition discriminate.
    + exfalso. revert Hout. by_bits (Z.of_nat i); intros Hout;
        vm_compute in Hout; intuition discriminate.
    + destruct j as [|[|[|j]]].
      * exfalso. injection Hj as <-. vm_compute in Hout. intuition discriminate.
      * exfalso. injection Hj as <-. vm_compute in Hout. intuition discriminate.
      * lia.
      * lia.
Qed.

Lemma pass_order_and_split_screen_witness :
  map name (declared_passes 2 8)
  = ["Classify tiles"; "Hit distance reconstruction"; "Hit distance reconstruction";
     "Temporal accumulation"; "Temporal accumulation"; "Temporal accumulation";
     "Temporal accumulation"; "Temporal accumulation"; "Temporal accumulation";
     "Temporal accumulation"; "Temporal accumulation";
     "History fix"; "Blur"; "Post-blur"; "Split screen"; "Validation"].
Proof. exact (proj1 (pass_order_and_split_screen 2 8)). Defined.

End ReblurProofs.

(** ** Ping-pong slots across frames *)

Module PingPongProofs.
Import Reblur PingPong.

Lemma swap_resource_involutive r : swap_resource (swap_resource r) = r.
Proof. destruct r as [i [s|]]; reflexivity. Qed.

Lemma swap_pass_involutive p : swap_pass (swap_pass p) = p.
Proof.
  destruct p as [n ins outs ds]. unfold swap_pass. cbn [name inputs outputs dispatches].
  rewrite !map_map.
  rewrite (map_ext _ id) by apply swap_resource_involutive.
  rewrite (map_ext (fun x => swap_resource (swap_resource x)) id)
    by apply swap_resource_involutive.
  now rewrite !map_id.
Qed.

Lemma UpdatePingPong_involutive ps : UpdatePingPong (UpdatePingPong ps) = ps.
Proof.
  unfold UpdatePingPong. rewrite map_map.
  rewrite (map_ext _ id) by apply swap_pass_involutive.
  apply map_id.
Qed.

Lemma at_frame_even k ps : at_frame (2 * k) ps = ps.
Proof.
  induction k as [|k IH]; [reflexivity|].
  replace (2 * S k)%nat with (S (S (2 * k))) by lia.
  cbn [at_frame]. now rewrite UpdatePingPong_involutive.
Qed.

Lemma at_frame_lookup n ps k p :
  ps !! k = Some p ->
  at_frame n ps !! k = Some (if Nat.even n then p else swap_pass p).
Proof.
  intros Hp. induction n as [|n IH]; [exact Hp|].
  cbn [at_frame]. unfold UpdatePingPong.
  change (map swap_pass ?l) with (swap_pass <$> l).
  rewrite list_lookup_fmap, IH. cbn [fmap option_fmap option_map].
  rewrite Nat.even_succ, <- Nat.negb_even.
  destruct (Nat.even n); cbn [negb]; [reflexivity|].
  now rewrite swap_pass_involutive.
Qed.

(** C2. In every frame the temporal-accumulation pass reads one half of
    the specular hit-distance-for-tracking pair and writes the other half;
    the halves exchange roles from each frame to the next; and after an
    even number of frames every declared pass is bound as at the start. *)
Theorem ping_pong_alternates (r t : nat) :
  (forall k, at_frame (2 * k) (declared_passes r t) = declared_passes r t)
  /\ forall n i, (i < t)%nat ->
     exists p q,
       at_frame n (declared_passes r t) !! (1 + r + i)%nat = Some p
       /\ at_frame (S n) (declared_passes r t) !! (1 + r + i)%nat = Some q
       /\ name p = "Temporal accumulation"
       /\ ping_pong_reads p
          = [PermanentSlot (if Nat.even n
                            then Permanent.SPEC_HITDIST_FOR_TRACKING_PING
                            else Permanent.SPEC_HITDIST_FOR_TRACKING_PONG)]
       /\ ping_pong_writes p
          = [PermanentSlot (if Nat.even n
                            then Permanent.SPEC_HITDIST_FOR_TRACKING_PONG
                            else Permanent.SPEC_HITDIST_FOR_TRACKING_PING)]
       /\ (forall s, In s (ping_pong_reads p) -> ~ In s (ping_pong_writes p))
       /\ ping_pong_reads q = ping_pong_writes p
       /\ ping_pong_writes q = ping_pong_reads p.
Proof.
  split; [intros k; apply at_frame_even|].
  intros n i Hi.
  pose proof (ReblurProofs.lookup_accumulation r t i Hi) as Hp.
  rewrite <- ReblurProofs.declared_passes_eq in Hp.
  rewrite (at_frame_lookup n _ _ _ Hp), (at_frame_lookup (S n) _ _ _ Hp).
  eexists _, _. split; [reflexivity|]. split; [reflexivity|].
  rewrite Nat.even_succ, <- Nat.negb_even.
  destruct (Nat.even n); cbn [negb];
    ReblurProofs.by_bits (Z.of_nat i); vm_compute;
    repeat split; try reflexivity;
    intros s [<-|[]] [H|[]]; discriminate H.
Qed.

Lemma ping_pong_alternates_witness :
  exists p q,
    at_frame 3 (declared_passes 2 8) !! 4%nat = Some p
    /\ at_frame 4 (declared_passes 2 8) !! 4%nat = Some q
    /\ ping_pong_reads p = [PermanentSlot Permanent.SPEC_HITDIST_FOR_TRACKING_PONG]
    /\ ping_pong_reads q = ping_pong_writes p.
Proof.
  destruct (proj2 (ping_pong_alternates 2 8) 3%nat 1%nat ltac:(lia))
    as (p & q & Hp & Hq & _ & Hr & _ & _ & Hrq & _).
  exists p, q. repeat split; assumption.
Defined.

End PingPongProofs.

(** ** Per-method settings *)

Module DenoiserProofs.
Import Denoiser.

Section CoreFacts.

Context {Method : Type} `{EqDecision Method}.
Context {Settings : Type}.
Variable supported : Method -> bool.
Variable default_settings : Method -> Settings.

Lemma SetMethodSettings_absent (d : DenoiserImpl) (m : Method) (s : Settings) :
  ~ included d m -> SetMethodSettings d m s = (FAILURE, d).
Proof.
  unfold included. induction d as [|md rest IH]; intros Hm; [reflexivity|].
  cbn [SetMethodSettings]. cbn [map In] in Hm.
  destruct (decide (method (desc md) = m)) as [Heq|Hne]; [tauto|].
  rewrite IH by tauto. reflexivity.
Qed.

Lemma SetMethodSettings_methods (d : DenoiserImpl) (m : Method) (s : Settings) :
  map (fun md => method (desc md)) (snd (SetMethodSettings d m s))
  = map (fun md => method (desc md)) d.
Proof.
  induction d as [|md rest IH]; [reflexivity|].
  cbn [SetMethodSettings].
  destruct (decide (method (desc md) = m)); [reflexivity|].
  destruct (SetMethodSettings rest m s) as [res rest'] eqn:E.
  cbn [snd map] in *. now rewrite IH.
Qed.

Lemma reachable_methods descs (d : DenoiserImpl) :
  reachable supported default_settings descs d ->
  map (fun md => method (desc md)) d = map method descs.
Proof.
  induction 1 as [d Hc|d m s Hr IH].
  - unfold CreateDenoiser in Hc.
    destruct (forallb _ descs); [|discriminate].
    injection Hc as <-. rewrite map_map. reflexivity.
  - now rewrite SetMethodSettings_methods.
Qed.

(** C8. On a denoiser in any state it can reach after creation, setting the
    settings of a method that was not requested at creation reports
    failure and leaves the denoiser as it was: the settings a dispatch
    query uses are the same for every method. *)
Theorem SetMethodSettings_not_requested descs (d : DenoiserImpl)
    (m : Method) (s : Settings) :
  reachable supported default_settings descs d ->
  ~ In m (map method descs) ->
  fst (SetMethodSettings d m s) = FAILURE
  /\ snd (SetMethodSettings d m s) = d
  /\ forall m', effective_settings (snd (SetMethodSettings d m s)) m'
                = effective_settings d m'.
Proof.
  intros Hr Hm.
  rewrite SetMethodSettings_absent.
  - repeat split; reflexivity.
  - unfold included. now rewrite (reachable_methods descs d Hr).
Qed.

End CoreFacts.

Lemma SetMethodSettings_not_requested_witness :
  fst (SetMethodSettings (snd (SetMethodSettings example_denoiser 0%nat 7%nat)) 2%nat 9%nat)
  = FAILURE
  /\ effective_settings
       (snd (SetMethodSettings (snd (SetMethodSettings example_denoiser 0%nat 7%nat))
               2%nat 9%nat)) 0%nat
     = Some 7%nat.
Proof.
  pose proof (SetMethodSettings_not_requested (fun _ => true) (fun _ => 0%nat)
                example_descs
                (snd (SetMethodSettings example_denoiser 0%nat 7%nat)) 2%nat 9%nat)
    as H.
  destruct H as (Hf & _ & He).
  - apply reach_set. apply reach_created. reflexivity.
  - cbn. intros [H|[H|[]]]; discriminate H.
  - split; [exact Hf|]. rewrite He. reflexivity.
Defined.

End DenoiserProofs.

(** ** Incremental texture transitions *)

Module TransitionsProofs.
Import Transitions.

Lemma from_app l1 l2 store out max :
  BuildOptimizedTransitions_from (l1 ++ l2) store out max
  = match BuildOptimizedTransitions_from l1 store out max with
    | Done (s, o) => BuildOptimizedTransitions_from l2 s o max
    | AssertionFailed => AssertionFailed
    | OutOfRange => OutOfRange
    end.
Proof.
  revert store out. induction l1 as [|st l1 IH]; intros store out; [reflexivity|].
  cbn [app BuildOptimizedTransitions_from].
  destruct (GetState store (texture st)) as [tr|]; [|reflexivity].
  destruct (decide _); [|apply IH].
  destruct (decide _); [apply IH|reflexivity].
Qed.

(** A finished run only adds to the transitions written, at most one per
    entry, and stays within the maximum. *)
Lemma from_bounds states store out max store' out' :
  BuildOptimizedTransitions_from states store out max = Done (store', out') ->
  (length out <= max)%nat ->
  (length out' <= max)%nat
  /\ (length out' <= length out + length states)%nat
  /\ exists more, out' = out ++ more.
Proof.
  revert store out. induction states as [|st states IH]; intros store out H Hlen.
  - injection H as <- <-. cbn. repeat split; [lia..|]. exists []. now rewrite app_nil_r.
  - cbn [BuildOptimizedTransitions_from] in H.
    destruct (GetState store (texture st)) as [tr|]; [|discriminate].
    destruct (decide _).
    + destruct (decide _) as [Hlt|]; [|discriminate].
      apply IH in H; [|rewrite length_app; cbn; lia].
      destruct H as (H1 & H2 & more & Hmore).
      rewrite length_app in H2. cbn [length] in *.
      repeat split; [lia..|].
      exists ([TextureTransition tr (nextAccess st) (nextLayout st)] ++ more).
      now rewrite app_assoc.
    + apply IH in H; [|lia]. destruct H as (H1 & H2 & more & Hmore).
      cbn [length]. repeat split; [lia..|]. now exists more.
Qed.

(** With every named texture recorded and room for one transition per
    entry, the run finishes. *)
Lemma from_total states store out max :
  Forall (fun st => (index_of (texture st) < length store)%nat) states ->
  (length out + length states <= max)%nat ->
  exists r, BuildOptimizedTransitions_from states store out max = Done r.
Proof.
  revert store out. induction states as [|st states IH]; intros store out Hin Hlen.
  - eexists. reflexivity.
  - inversion Hin as [|? ? Hst Hrest]; subst.
    cbn [BuildOptimizedTransitions_from]. unfold GetState.
    destruct (lookup_lt_is_Some_2 store _ Hst) as [tr ->].
    cbn [length] in Hlen.
    destruct (decide _).
    + destruct (decide _) as [|Hn]; [|lia].
      apply IH.
      * rewrite length_insert. exact Hrest.
      * rewrite length_app. cbn. lia.
    + apply IH; [exact Hrest | lia].
Qed.

(** C5. In a call that returns, each entry of the request list is handled
    against the state recorded for its texture when the entry is reached:
    nothing is written when the requested access and layout equal the
    recorded ones, exactly one transition otherwise; the transitions written
    stay in the result, whose length is within the maximum passed.  The two
    callers pass 32 as maximum and lists that always fit. *)
Theorem BuildOptimizedTransitions_emits :
  (forall store states max store' out,
     BuildOptimizedTransitions store states max = Done (store', out) ->
     (length out <= max)%nat
     /\ (length out <= length states)%nat
     /\ forall i state,
          states !! i = Some state ->
          exists store_i out_i recorded,
            BuildOptimizedTransitions store (take i states) max = Done (store_i, out_i)
            /\ GetState store_i (texture state) = Some recorded
            /\ (exists more, out = out_i ++ more)
            /\ let t := TextureTransition recorded (nextAccess state) (nextLayout state) in
               (barrierNextAccess recorded = nextAccess state
                /\ barrierNextLayout recorded = nextLayout state ->
                BuildOptimizedTransitions store (take (S i) states) max
                = Done (store_i, out_i))
               /\ (~ (barrierNextAccess recorded = nextAccess state
                      /\ barrierNextLayout recorded = nextLayout state) ->
                   BuildOptimizedTransitions store (take (S i) states) max
                   = Done (<[index_of (texture state) := t]> store_i, out_i ++ [t])
                   /\ exists more, out = out_i ++ [t] ++ more))
  /\ (forall store isEven,
        (index_of MaterialTextures <= length store)%nat ->
        (exists s o, Composition_barrier store = Done (s, o)
                     /\ (length o <= 32)%nat)
        /\ (exists s o, Temporal_barrier isEven store = Done (s, o)
                        /\ (length o <= 32)%nat)).
Proof.
  split.
  - intros store states max store' out H.
    unfold BuildOptimizedTransitions in *.
    destruct (from_bounds _ _ _ _ _ _ H ltac:(cbn; lia)) as (Hmax & Hlen & _).
    cbn [length] in Hlen.
    split; [exact Hmax|]. split; [lia|].
    intros i state Hi.
    pose proof (take_drop_middle states i state Hi) as Hsplit.
    rewrite <- Hsplit in H.
    rewrite from_app in H.
    destruct (BuildOptimizedTransitions_from (take i states) store [] max)
      as [[store_i out_i]| |] eqn:Hpre; [|discriminate..].
    rewrite (take_S_r _ _ _ Hi), from_app, Hpre.
    cbn [BuildOptimizedTransitions_from] in H |- *.
    destruct (GetState store_i (texture state)) as [recorded|] eqn:Hrec;
      [|discriminate].
    exists store_i, out_i, recorded.
    split; [reflexivity|]. split; [exact Hrec|].
    destruct (decide _) as [Hdiff|Hsame].
    + destruct (decide _) as [Hroom|]; [|discriminate].
      apply from_bounds in H; [|rewrite length_app; cbn; lia].
      destruct H as (_ & _ & more & ->).
      split; [exists ([TextureTransition recorded (nextAccess state) (nextLayout state)] ++ more);
              now rewrite app_assoc|].
      cbv zeta. split; [intros [Ha Hl]; tauto|].
      intros _. split; [reflexivity|]. exists more. now rewrite app_assoc.
    + assert (Hso : (length out_i <= max)%nat)
        by (apply from_bounds in Hpre; [tauto | cbn; lia]).
      apply from_bounds in H; [|exact Hso].
      destruct H as (_ & _ & more & ->).
      split; [now exists more|].
      cbv zeta. split; [reflexivity|].
      intros Hn. exfalso. apply Hn.
      split.
      * destruct (decide (barrierNextAccess recorded = nextAccess state)); tauto.
      * destruct (decide (barrierNextLayout recorded = nextLayout state)); tauto.
  - intros store isEven Hstore. cbn in Hstore. split.
    + unfold Composition_barrier, BuildOptimizedTransitions.
      destruct (from_total Composition_states store [] optimizedTransitions_size)
        as [[s o] Hr].
      * unfold Composition_states. repeat constructor; cbn; lia.
      * vm_compute. lia.
      * exists s, o. split; [exact Hr|].
        apply from_bounds in Hr; [|vm_compute; lia].
        unfold optimizedTransitions_size in Hr. lia.
    + unfold Temporal_barrier, BuildOptimizedTransitions.
      destruct (from_total (Temporal_states isEven) store [] optimizedTransitions_size)
        as [[s o] Hr].
      * unfold Temporal_states. destruct isEven; repeat constructor; cbn; lia.
      * vm_compute. lia.
      * exists s, o. split; [exact Hr|].
        apply from_bounds in Hr; [|vm_compute; lia].
        unfold optimizedTransitions_size in Hr. lia.
Qed.

Lemma BuildOptimizedTransitions_emits_witness :
  (length example_transitions <= 32)%nat /\ length example_transitions = 11%nat.
Proof.
  split; [|reflexivity].
  exact (proj1 (proj1 BuildOptimizedTransitions_emits example_states
                  Composition_states 32%nat example_recorded example_transitions
                  eq_refl)).
Defined.

End TransitionsProofs.

(** ** The instance loop of the acceleration structure build *)

Module TlasProofs.
Import Tlas.

Lemma flag_packing (n flags : Z) :
  (0 <= n <= INSTANCE_ID_MASK)%Z ->
  In flags [FLAG_OPAQUE_OR_ALPHA_OPAQUE; FLAG_TRANSPARENT; FLAG_EMISSION;
            FLAG_FORCED_EMISSION] ->
  let id := Z.lor n (u32 (Z.shiftl flags FLAG_FIRST_BIT)) in
  Z.shiftr id FLAG_FIRST_BIT = flags /\ Z.land id INSTANCE_ID_MASK = n.
Proof.
  intros Hn Hf. cbv zeta.
  assert (Hflags : Z.shiftr (u32 (Z.shiftl flags FLAG_FIRST_BIT)) FLAG_FIRST_BIT = flags
                   /\ Z.land (u32 (Z.shiftl flags FLAG_FIRST_BIT)) INSTANCE_ID_MASK = 0%Z).
  { cbn [In] in Hf.
    destruct Hf as [<-|[<-|[<-|[<-|[]]]]]; vm_compute; split; reflexivity. }
  destruct Hflags as (Hshift & Hland).
  rewrite Z.shiftr_lor, Z.land_lor_distr_l, Hshift, Hland.
  change INSTANCE_ID_MASK with (Z.ones 20) in *.
  assert (Hlt : (0 <= n < 2 ^ 20)%Z) by (rewrite Z.ones_equiv in Hn; lia).
  rewrite (Z.shiftr_div_pow2 n) by (unfold FLAG_FIRST_BIT; lia).
  rewrite (Z.land_ones n) by lia.
  unfold FLAG_FIRST_BIT. rewrite Z.div_small, Z.mod_small by lia.
  rewrite Z.lor_0_l, Z.lor_0_r. split; reflexivity.
Qed.

Section BuildFacts.

Variable RandState : Type.
Variable Rand_uf1_above_066 : RandState -> bool * RandState.
Variable m_Settings : Settings.
Variable instances : list Instance.
Variable meshes : list Mesh.
Variable materials : list Material.
Variable staticInstanceCount : Z.

Lemma classify_flags material i (st : LoopState RandState) :
  let flags := fst (fst (classify RandState Rand_uf1_above_066 m_Settings material
                           i staticInstanceCount st)) in
  In flags [FLAG_OPAQUE_OR_ALPHA_OPAQUE; FLAG_TRANSPARENT; FLAG_EMISSION;
            FLAG_FORCED_EMISSION]
  /\ (IsEmissive material = true ->
      flags = if emission m_Settings then FLAG_EMISSION
              else FLAG_OPAQUE_OR_ALPHA_OPAQUE).
Proof.
  cbv zeta. unfold classify.
  destruct (IsEmissive material).
  - destruct (emission m_Settings); cbn; tauto.
  - destruct (if emissiveObjects m_Settings && (staticInstanceCount <? i)%Z
              then Rand_uf1_above_066 (rand RandState st)
              else (false, rand RandState st)) as [forced rand'].
    destruct forced, (emission m_Settings), (IsTransparent material);
      cbn; split; try tauto; discriminate.
Qed.

Lemma iteration_invariant i (st st' : LoopState RandState) :
  invariant RandState m_Settings materials st ->
  iteration RandState Rand_uf1_above_066 m_Settings instances meshes materials
    staticInstanceCount i st = Done st' ->
  invariant RandState m_Settings materials st'.
Proof.
  intros (Hnum & Hlen & Hall) H. unfold iteration in H.
  destruct (instances !! i) as [instance|]; [|discriminate].
  destruct (meshes !! meshIndex instance) as [mesh|]; [|discriminate].
  destruct (materials !! materialIndex instance) as [material|] eqn:Hmat;
    [|discriminate].
  destruct (IsOff material).
  { injection H as <-. exact (conj Hnum (conj Hlen Hall)). }
  destruct (instanceNum RandState st <=? INSTANCE_ID_MASK)%Z eqn:Hmask;
    [|discriminate].
  apply Z.leb_le in Hmask.
  pose proof (classify_flags material (Z.of_nat i) st) as Hc. cbv zeta in Hc.
  destruct (classify RandState Rand_uf1_above_066 m_Settings material
              (Z.of_nat i) staticInstanceCount st) as [[flags rand'] transparent].
  cbn [fst] in Hc. destruct Hc as (Hflags & Hemissive).
  injection H as <-. unfold invariant.
  cbn [instanceNum tlasData instanceData].
  rewrite !length_app. cbn [length].
  assert (Hrange : (0 <= instanceNum RandState st <= INSTANCE_ID_MASK)%Z) by lia.
  split.
  { unfold u32. rewrite Z.mod_small; [lia|].
    change INSTANCE_ID_MASK with 1048575%Z in Hrange. lia. }
  split; [lia|].
  intros k g d Hg Hd.
  apply lookup_snoc_Some in Hg. apply lookup_snoc_Some in Hd.
  destruct Hg as [[Hk Hg]|[Hk <-]], Hd as [[Hk' Hd]|[Hk' <-]]; try lia.
  - exact (Hall k g d Hg Hd).
  - unfold emitted_ok. cbn [mask instanceId baseTextureIndex].
    destruct (flag_packing _ _ Hrange Hflags) as (Hshift & Hland).
    split; [exact Hflags|]. split; [exact Hshift|].
    split; [rewrite Hland; lia|].
    exists material. rewrite Nat2Z.id. split; [exact Hmat | exact Hemissive].
Qed.

Lemma loop_invariant indices (st st' : LoopState RandState) :
  invariant RandState m_Settings materials st ->
  loop RandState Rand_uf1_above_066 m_Settings instances meshes materials
    staticInstanceCount indices st = Done st' ->
  invariant RandState m_Settings materials st'.
Proof.
  revert st. induction indices as [|i rest IH]; intros st Hinv H.
  - injection H as <-. exact Hinv.
  - cbn [loop] in H.
    destruct (iteration RandState Rand_uf1_above_066 m_Settings instances meshes
                materials staticInstanceCount i st) as [st1| |] eqn:Hit;
      [|discriminate..].
    apply (IH st1); [|exact H].
    exact (iteration_invariant i st st1 Hinv Hit).
Qed.

(** The loop finishes when every index it visits names an instance whose
    mesh and material exist, and the instance numbers stay below the mask. *)
Lemma loop_total indices (st : LoopState RandState) :
  Forall (fun i => exists instance mesh material,
            instances !! i = Some instance
            /\ meshes !! meshIndex instance = Some mesh
            /\ materials !! materialIndex instance = Some material) indices ->
  (0 <= instanceNum RandState st)%Z ->
  (instanceNum RandState st + Z.of_nat (length indices) <= INSTANCE_ID_MASK + 1)%Z ->
  exists st',
    loop RandState Rand_uf1_above_066 m_Settings instances meshes materials
      staticInstanceCount indices st = Done st'.
Proof.
  revert st. induction indices as [|i rest IH]; intros st Hall H0 Hn.
  - eexists. reflexivity.
  - inversion Hall as [|? ? (instance & mesh & material & Hi & Hme & Hma) Hrest]; subst.
    cbn [loop]. unfold iteration. rewrite Hi, Hme, Hma.
    cbn [length] in Hn.
    destruct (IsOff material).
    + apply IH; [exact Hrest | exact H0 | lia].
    + destruct (instanceNum RandState st <=? INSTANCE_ID_MASK)%Z eqn:Hmask.
      2:{ apply Z.leb_gt in Hmask. lia. }
      destruct (classify RandState Rand_uf1_above_066 m_Settings material
                  (Z.of_nat i) staticInstanceCount st) as [[flags rand'] transparent].
      apply IH; [exact Hrest| |]; cbn [instanceNum]; unfold u32;
        change INSTANCE_ID_MASK with 1048575%Z in *;
        rewrite Z.mod_small by lia; lia.
Qed.

End BuildFacts.

Lemma build_invariant RandState Rand_Seed Rand_uf1_above_066 m_Settings blinkOn
    instances meshes materials offset animatedSize (st : LoopState RandState) :
  BuildTopLevelAccelerationStructure RandState Rand_Seed Rand_uf1_above_066
    m_Settings blinkOn instances meshes materials offset animatedSize = Done st ->
  invariant RandState m_Settings materials st.
Proof.
  unfold BuildTopLevelAccelerationStructure. intros H.
  eapply loop_invariant; try exact H.
  unfold invariant. cbn [instanceNum tlasData instanceData length].
  split; [reflexivity|]. split; [reflexivity|].
  intros k g d Hg. discriminate Hg.
Qed.

(** C7. An instance written by the build whose material is emissive has the
    emission flag 0x04, as ray mask and above bit 20 of its instance id,
    when the emission toggle is on, and the opaque-or-alpha-opaque flag 0x01
    when the toggle is off. *)
Theorem emissive_material_flags RandState Rand_Seed Rand_uf1_above_066
    m_Settings blinkOn instances meshes materials offset animatedSize
    (st : LoopState RandState) k g d material :
  BuildTopLevelAccelerationStructure RandState Rand_Seed Rand_uf1_above_066
    m_Settings blinkOn instances meshes materials offset animatedSize = Done st ->
  tlasData RandState st !! k = Some g ->
  instanceData RandState st !! k = Some d ->
  materials !! Z.to_nat (baseTextureIndex d) = Some material ->
  IsEmissive material = true ->
  (emission m_Settings = true ->
     mask g = 0x04%Z /\ Z.shiftr (instanceId g) 20 = 0x04%Z)
  /\ (emission m_Settings = false ->
        mask g = 0x01%Z /\ Z.shiftr (instanceId g) 20 = 0x01%Z
        /\ mask g <> FLAG_EMISSION).
Proof.
  intros H Hg Hd Hm He.
  destruct (build_invariant _ _ _ _ _ _ _ _ _ _ _ H) as (_ & _ & Hall).
  destruct (Hall k g d Hg Hd) as (_ & Hshift & _ & material' & Hm' & Hflag).
  rewrite Hm in Hm'. injection Hm' as <-.
  specialize (Hflag He). change FLAG_FIRST_BIT with 20%Z in Hshift.
  rewrite Hshift, Hflag.
  split; intros ->; repeat split; discriminate.
Qed.

Lemma emissive_material_flags_witness :
  (exists g, example_tlasData true !! 1%nat = Some g /\ mask g = 4%Z)
  /\ (exists g, example_tlasData false !! 1%nat = Some g /\ mask g = 1%Z).
Proof.
  split.
  - eexists. split; [reflexivity|].
    refine (proj1 (proj1 (emissive_material_flags nat (fun _ => 0%nat)
              (fun s => (Nat.even s, S s)) (example_settings true) false
              example_instances example_meshes example_materials 0 2
              _ 1%nat _ _ _ _ _ _ _ _) _)); reflexivity.
  - eexists. split; [reflexivity|].
    refine (proj1 (proj2 (emissive_material_flags nat (fun _ => 0%nat)
              (fun s => (Nat.even s, S s)) (example_settings false) false
              example_instances example_meshes example_materials 0 2
              _ 1%nat _ _ _ _ _ _ _ _) _)); reflexivity.
Defined.

(** C10. Every instance written by the build carries as ray mask exactly
    one of the four flag values 0x01, 0x02, 0x04, 0x08 (so never zero and
    never two flags at once), and the same value sits above bit 20 of its
    instance id, the low twenty bits being the number of the instance. *)
Theorem instance_flags_one_of_four RandState Rand_Seed Rand_uf1_above_066
    m_Settings blinkOn instances meshes materials offset animatedSize
    (st : LoopState RandState) k g :
  BuildTopLevelAccelerationStructure RandState Rand_Seed Rand_uf1_above_066
    m_Settings blinkOn instances meshes materials offset animatedSize = Done st ->
  tlasData RandState st !! k = Some g ->
  (mask g = 0x01 \/ mask g = 0x02 \/ mask g = 0x04 \/ mask g = 0x08)%Z
  /\ mask g <> 0%Z
  /\ Z.shiftr (instanceId g) 20 = mask g
  /\ Z.land (instanceId g) 0xFFFFF = Z.of_nat k.
Proof.
  intros H Hg.
  destruct (build_invariant _ _ _ _ _ _ _ _ _ _ _ H) as (_ & Hlen & Hall).
  assert (Hd : exists d, instanceData RandState st !! k = Some d).
  { apply lookup_lt_is_Some_2. rewrite <- Hlen.
    apply lookup_lt_is_Some_1. eauto. }
  destruct Hd as [d Hd].
  destruct (Hall k g d Hg Hd) as (Hflags & Hshift & Hland & _).
  change FLAG_FIRST_BIT with 20%Z in Hshift.
  change INSTANCE_ID_MASK with 0xFFFFF%Z in Hland.
  cbn [In] in Hflags.
  change FLAG_OPAQUE_OR_ALPHA_OPAQUE with 1%Z in Hflags.
  change FLAG_TRANSPARENT with 2%Z in Hflags.
  change FLAG_EMISSION with 4%Z in Hflags.
  change FLAG_FORCED_EMISSION with 8%Z in Hflags.
  repeat split; try assumption; lia.
Qed.

Lemma instance_flags_one_of_four_witness :
  exists g, example_tlasData true !! 3%nat = Some g
            /\ mask g = 8%Z /\ Z.shiftr (instanceId g) 20 = mask g.
Proof.
  eexists. split; [reflexivity|]. split; [reflexivity|].
  refine (proj1 (proj2 (proj2 (instance_flags_one_of_four nat (fun _ => 0%nat)
            (fun s => (Nat.even s, S s)) (example_settings true) false
            example_instances example_meshes example_materials 0 2
            _ 3%nat _ _ _)))); reflexivity.
Defined.

End TlasProofs.

(** ** Test-mode snapshots *)

Module TestsProofs.
Import Tests.

Lemma length_Z_to_le n z : length (Z_to_le n z) = n.
Proof.
  revert z. induction n as [|n IH]; intros z; [reflexivity|].
  cbn [Z_to_le length]. now rewrite IH.
Qed.

Lemma read_write off n data mem :
  length data = n -> (off + n <= length mem)%nat ->
  read_at off n (write_at off data mem) = data.
Proof.
  intros <- Hlen. unfold read_at, write_at.
  rewrite drop_app_length' by (rewrite length_take; lia).
  apply take_app_length.
Qed.

Lemma length_write_at off data mem :
  (off + length data <= length mem)%nat ->
  length (write_at off data mem) = length mem.
Proof.
  intros Hlen. unfold write_at.
  rewrite !length_app, length_take, length_drop. lia.
Qed.

Lemma write_at_outside off data mem k :
  (off + length data <= length mem)%nat ->
  (k < off \/ off + length data <= k)%nat ->
  write_at off data mem !! k = mem !! k.
Proof.
  intros Hlen Hk. unfold write_at.
  assert (Htake : length (take off mem) = off) by (rewrite length_take; lia).
  destruct Hk as [Hk|Hk].
  - rewrite lookup_app_l by lia. now apply lookup_take_lt.
  - rewrite lookup_app_r by lia. rewrite Htake.
    rewrite lookup_app_r by lia. rewrite lookup_drop. f_equal. lia.
Qed.

Lemma length_set_motionStartTime bits settings :
  length settings = sizeof_Settings ->
  length (set_motionStartTime bits settings) = sizeof_Settings.
Proof.
  intros Hlen. unfold set_motionStartTime.
  rewrite length_write_at; [exact Hlen|].
  rewrite length_Z_to_le, Hlen. vm_compute. lia.
Qed.

Lemma motionStartTime_set bits settings :
  length settings = sizeof_Settings ->
  bits = bits_zero \/ bits = bits_minus_one ->
  motionStartTime (set_motionStartTime bits settings) = double_of_bits bits.
Proof.
  intros Hlen Hbits. unfold motionStartTime, set_motionStartTime.
  rewrite read_write.
  - destruct Hbits as [->| ->]; vm_compute; reflexivity.
  - apply length_Z_to_le.
  - rewrite Hlen. vm_compute. lia.
Qed.

Lemma overwritten_not_positive bits :
  bits = bits_zero \/ bits = bits_minus_one ->
  gt_zero (double_of_bits bits) = false.
Proof. intros [->| ->]; reflexivity. Qed.

Example sizeof_Settings_176 : sizeof_Settings = 176%nat.
Proof. reflexivity. Qed.

Example offsetof_motionStartTime_8 : offsetof_motionStartTime = 8%nat.
Proof. reflexivity. Qed.

Example minus_one_is_minus_one :
  double_of_bits bits_minus_one = S754_finite true (2 ^ 52) (-52).
Proof. reflexivity. Qed.

Example five_is_positive : gt_zero (double_of_bits bits_five) = true.
Proof. reflexivity. Qed.

Example nan_is_not_positive : gt_zero (double_of_bits 0x7FF8000000000000) = false.
Proof. reflexivity. Qed.

Section PanelFacts.

Variable cameraDataSize : nat.

(** Writing back the bytes read from a place changes nothing. *)
Lemma write_read off n mem :
  (off + n <= length mem)%nat ->
  write_at off (read_at off n mem) mem = mem.
Proof.
  intros Hlen. unfold write_at, read_at.
  rewrite length_take, length_drop.
  replace (off + n `min` (length mem - off))%nat with (off + n)%nat by lia.
  rewrite <- (drop_drop mem n off), (take_drop n (drop off mem)).
  apply take_drop.
Qed.

(** Storing a bit pattern in [motionStartTime] leaves the settings as they
    were exactly when the field already holds that pattern. *)
Lemma set_motionStartTime_same bits settings :
  length settings = sizeof_Settings ->
  set_motionStartTime bits settings = settings
  <-> read_at offsetof_motionStartTime 8 settings = Z_to_le 8 bits.
Proof.
  intros Hlen. unfold set_motionStartTime.
  assert (Hfit : (offsetof_motionStartTime + 8 <= length settings)%nat)
    by (rewrite Hlen; vm_compute; lia).
  split.
  - intros Heq. rewrite <- Heq at 1.
    apply read_write; [apply length_Z_to_le|exact Hfit].
  - intros <-. now apply write_read.
Qed.

(** C9. [Add] first stores -1.0 in the live [motionStartTime] when it was
    above 0.0 and 0.0 otherwise, and then writes the settings so changed:
    the live settings carry the new value, the record appended to the file
    is these settings followed by the camera data, what was in the file
    stays in front of it, and the [motionStartTime] of the record is not
    above 0.0.  Not every append changes the live settings: they stay as
    they were exactly when the field already held the bytes of 0.0, and
    they change in every other case, so whenever the value was above 0.0. *)
Theorem Add_overwrites_motionStartTime (st : State) :
  length (m_Settings st) = sizeof_Settings ->
  let st' := Add cameraDataSize true st in
  let bits := if gt_zero (motionStartTime (m_Settings st))
              then bits_minus_one else bits_zero in
  m_Settings st' = set_motionStartTime bits (m_Settings st)
  /\ motionStartTime (m_Settings st') = double_of_bits bits
  /\ tests_bin st'
     = Some (file_content st ++ m_Settings st' ++ take cameraDataSize (m_Camera st))
  /\ gt_zero (motionStartTime
               (read_at (length (file_content st)) sizeof_Settings (file_content st')))
     = false
  /\ (m_Settings st' = m_Settings st
      <-> read_at offsetof_motionStartTime 8 (m_Settings st) = Z_to_le 8 bits_zero)
  /\ (gt_zero (motionStartTime (m_Settings st)) = true ->
      m_Settings st' <> m_Settings st).
Proof.
  intros Hlen. cbv zeta. unfold Add. cbn [m_Settings tests_bin].
  set (bits := if gt_zero (motionStartTime (m_Settings st))
               then bits_minus_one else bits_zero).
  assert (Hbits : bits = bits_zero \/ bits = bits_minus_one)
    by (subst bits; destruct (gt_zero _); tauto).
  pose proof (length_set_motionStartTime bits _ Hlen) as Hlen'.
  pose proof (motionStartTime_set bits _ Hlen Hbits) as Hset.
  unfold fwrite. rewrite (take_ge (set_motionStartTime bits (m_Settings st))) by lia.
  split; [reflexivity|]. split; [exact Hset|].
  split; [reflexivity|]. split.
  - unfold file_content at 2. cbn [tests_bin]. unfold read_at.
    rewrite drop_app_length. rewrite take_app_length' by (symmetry; exact Hlen').
    rewrite Hset. now apply overwritten_not_positive.
  - split.
    + rewrite (set_motionStartTime_same bits _ Hlen). subst bits.
      destruct (gt_zero (motionStartTime (m_Settings st))) eqn:Hpos; [|tauto].
      unfold motionStartTime in Hpos.
      split; intros Heq; exfalso; rewrite Heq in Hpos; discriminate Hpos.
    + intros Hpos Heq. rewrite Heq in Hset.
      rewrite Hset, overwritten_not_positive in Hpos by exact Hbits.
      discriminate Hpos.
Qed.

(** What [Add] leaves, in the form used below. *)
Lemma Add_overwrites_motionStartTime_parts (st : State) :
  length (m_Settings st) = sizeof_Settings ->
  length (m_Settings (Add cameraDataSize true st)) = sizeof_Settings
  /\ gt_zero (motionStartTime (m_Settings (Add cameraDataSize true st))) = false
  /\ file_content (Add cameraDataSize true st)
     = file_content st ++ m_Settings (Add cameraDataSize true st)
       ++ take cameraDataSize (m_Camera st).
Proof.
  intros Hs. unfold Add. cbn [m_Settings tests_bin file_content].
  set (bits := if gt_zero (motionStartTime (m_Settings st))
               then bits_minus_one else bits_zero).
  assert (Hbits : bits = bits_zero \/ bits = bits_minus_one)
    by (subst bits; destruct (gt_zero _); tauto).
  pose proof (length_set_motionStartTime bits _ Hs) as Hlen'.
  split; [exact Hlen'|]. split.
  - rewrite motionStartTime_set by assumption.
    now apply overwritten_not_positive.
  - unfold fwrite.
    now rewrite (take_ge (set_motionStartTime bits (m_Settings st))) by lia.
Qed.

Lemma itemSize_small :
  (Z.of_nat (sizeof_Settings + cameraDataSize) < 2 ^ 32)%Z ->
  itemSize cameraDataSize = Z.of_nat (sizeof_Settings + cameraDataSize).
Proof.
  intros H. unfold itemSize, u32. rewrite Z.mod_small by lia. lia.
Qed.

(** Appending with [Add] keeps a file of whole records free of records
    with a [motionStartTime] above 0.0. *)
Lemma Add_keeps_records_not_positive (st : State) (n : nat) :
  length (m_Settings st) = sizeof_Settings ->
  length (m_Camera st) = cameraDataSize ->
  length (file_content st) = (n * (sizeof_Settings + cameraDataSize))%nat ->
  records_not_positive cameraDataSize (file_content st) ->
  records_not_positive cameraDataSize (file_content (Add cameraDataSize true st)).
Proof.
  intros Hs Hc Hfile Hold i Hi.
  destruct (Add_overwrites_motionStartTime_parts st Hs) as (Hlen' & Hpos & Hfile').
  rewrite Hfile' in *. clear Hfile'.
  set (settings' := m_Settings (Add cameraDataSize true st)) in *.
  set (S := (sizeof_Settings + cameraDataSize)%nat) in *.
  rewrite (take_ge (m_Camera st)) in * by lia.
  rewrite !length_app, Hfile, Hlen', Hc in Hi. fold S in Hi.
  assert (HS : (sizeof_Settings <= S)%nat) by (subst S; lia).
  assert (HSpos : (0 < S)%nat) by (subst S; unfold sizeof_Settings; lia).
  replace (n * S + (sizeof_Settings + cameraDataSize))%nat
    with ((n + 1) * S)%nat in Hi by (subst S; lia).
  assert (Hin : (i <= n)%nat) by nia.
  unfold record_settings, read_at. fold S.
  destruct (decide (i = n)) as [->|Hne].
  - rewrite drop_app_length' by (symmetry; exact Hfile).
    rewrite take_app_length' by (symmetry; exact Hlen'). exact Hpos.
  - assert (Hlt : ((i + 1) * S <= n * S)%nat) by nia.
    rewrite drop_app_le by lia.
    rewrite take_app_le by (rewrite length_drop; lia).
    apply (Hold i). rewrite Hfile. fold S. exact Hlt.
Qed.

(** C4, as the code has it.  After [Add] and, in a later frame, the button
    of the new record, the settings are those [Add] left and wrote: the
    settings at the press of [Add] with [motionStartTime] replaced (by -1.0
    when it was above 0.0, by 0.0 otherwise) and every byte outside that
    field unchanged.  The camera data are those at the press of [Add],
    byte for byte, whatever the program did to settings and camera in
    between. *)
Theorem snapshot_roundtrip (st : State) (n : nat)
    (settings_between camera_between : list byte) :
  length (m_Settings st) = sizeof_Settings ->
  length (m_Camera st) = cameraDataSize ->
  length (file_content st) = (n * (sizeof_Settings + cameraDataSize))%nat ->
  (Z.of_nat ((n + 1) * (sizeof_Settings + cameraDataSize)) < 2 ^ 31)%Z ->
  length settings_between = sizeof_Settings ->
  length camera_between = cameraDataSize ->
  let st1 := TestsPanel cameraDataSize (AddButton true) st in
  let st2 := TestsPanel cameraDataSize (ItemButton (Z.of_nat n))
               (between_frames settings_between camera_between st1) in
  m_Settings st2 = m_Settings st1
  /\ m_Settings st2
     = set_motionStartTime
         (if gt_zero (motionStartTime (m_Settings st))
          then bits_minus_one else bits_zero) (m_Settings st)
  /\ (forall k, (k < offsetof_motionStartTime
                 \/ offsetof_motionStartTime + 8 <= k)%nat ->
                m_Settings st2 !! k = m_Settings st !! k)
  /\ m_Camera st2 = m_Camera st
  /\ record_settings cameraDataSize (file_content st2) n = m_Settings st2
  /\ lastSelected st2 = Z.of_nat (n + 1).
Proof.
  intros Hs Hc Hfile Hsmall Hsb Hcb. cbv zeta.
  set (S := (sizeof_Settings + cameraDataSize)%nat) in *.
  assert (HSpos : (0 < S)%nat) by (subst S; unfold sizeof_Settings; lia).
  assert (Hitem : itemSize cameraDataSize = Z.of_nat S)
    by (apply itemSize_small; fold S; nia).
  (* the frame of Add *)
  assert (Hreload : forall s, m_Settings (reload cameraDataSize s) = m_Settings s
                              /\ m_Camera (reload cameraDataSize s) = m_Camera s
                              /\ tests_bin (reload cameraDataSize s) = tests_bin s).
  { intros s. unfold reload. destruct (reloadNeeded s); repeat split. }
  set (bits := if gt_zero (motionStartTime (m_Settings st))
               then bits_minus_one else bits_zero).
  set (settings' := set_motionStartTime bits (m_Settings st)).
  assert (Hlen' : length settings' = sizeof_Settings)
    by (apply length_set_motionStartTime; exact Hs).
  assert (Hst1 : TestsPanel cameraDataSize (AddButton true) st
                 = {| m_Settings := settings';
                      m_Camera := m_Camera st;
                      tests_bin := Some (file_content st ++ settings' ++ m_Camera st);
                      reloadNeeded := true;
                      itemNum := itemNum (reload cameraDataSize st);
                      lastSelected := lastSelected (reload cameraDataSize st) |}).
  { unfold TestsPanel, Add.
    destruct (Hreload st) as (-> & -> & ->).
    unfold fwrite. fold bits. fold settings'.
    rewrite (take_ge settings') by lia.
    rewrite (take_ge (m_Camera st)) by lia.
    reflexivity. }
  rewrite Hst1. cbn [m_Settings].
  (* the frame of the numbered button *)
  set (content := file_content st ++ settings' ++ m_Camera st).
  assert (Hcontent : length content = ((n + 1) * S)%nat).
  { subst content. rewrite !length_app, Hfile, Hlen', Hc. subst S. lia. }
  unfold TestsPanel, between_frames, reload.
  cbn [reloadNeeded tests_bin m_Settings m_Camera itemNum lastSelected].
  assert (Hnum : (u32 (Z.of_nat (length content)) / itemSize cameraDataSize)%Z
                 = Z.of_nat (n + 1)).
  { rewrite Hitem, Hcontent. unfold u32. rewrite Z.mod_small by lia.
    rewrite Nat2Z.inj_mul. apply Z.div_mul. lia. }
  rewrite Hnum.
  replace ((0 <=? Z.of_nat n)%Z && (Z.of_nat n <? Z.of_nat (n + 1))%Z) with true
    by (symmetry; apply andb_true_iff; split; [apply Z.leb_le|apply Z.ltb_lt]; lia).
  unfold load. cbn [tests_bin m_Settings m_Camera].
  assert (Hoff : Z.to_nat (u32 (Z.of_nat n * itemSize cameraDataSize)) = (n * S)%nat).
  { rewrite Hitem. unfold u32. rewrite Z.mod_small by nia. lia. }
  rewrite Hoff. subst content.
  rewrite drop_app_length' by (symmetry; exact Hfile).
  unfold fread.
  rewrite take_app_length' by (symmetry; exact Hlen').
  rewrite drop_app_length' by (symmetry; exact Hlen').
  rewrite (drop_ge settings_between) by lia.
  rewrite (take_ge (m_Camera st)) by lia.
  rewrite (drop_ge camera_between) by lia.
  rewrite !app_nil_r.
  cbn [m_Settings m_Camera lastSelected tests_bin].
  split; [reflexivity|]. split; [reflexivity|]. split.
  { intros k Hk. subst settings'. unfold set_motionStartTime.
    apply write_at_outside; rewrite length_Z_to_le; [|exact Hk].
    rewrite Hs. vm_compute. lia. }
  split; [reflexivity|]. split.
  - unfold record_settings, file_content, read_at. cbn [tests_bin]. fold S.
    rewrite drop_app_length' by (symmetry; exact Hfile).
    now rewrite take_app_length' by (symmetry; exact Hlen').
  - unfold u32. rewrite Z.mod_small by nia. lia.
Qed.

End PanelFacts.

(** C4 as stated fails: with a motion emulation running
    ([motionStartTime] = 5.0) at the press of [Add], the settings loaded
    back from the new record hold -1.0 there and so are not the settings
    that were live at the press. *)
Lemma snapshot_not_byte_exact :
  motionStartTime (m_Settings (example_state bits_five)) = double_of_bits bits_five
  /\ motionStartTime (m_Settings (add_then_load bits_five))
     = double_of_bits bits_minus_one
  /\ m_Settings (add_then_load bits_five) <> m_Settings (example_state bits_five).
Proof.
  split; [reflexivity|]. split; [reflexivity|].
  intros H. apply (f_equal motionStartTime) in H. vm_compute in H. discriminate H.
Qed.

(** C9 as stated fails: with the [motionStartTime] of a fresh session, 0.0,
    [Add] appends a record and the live settings are what they were. *)
Lemma Add_leaves_settings_at_zero :
  motionStartTime (m_Settings (example_state bits_zero)) = double_of_bits bits_zero
  /\ tests_bin (example_state bits_zero) = None
  /\ tests_bin (Add 16 true (example_state bits_zero))
     = Some (m_Settings (example_state bits_zero) ++ m_Camera (example_state bits_zero))
  /\ m_Settings (Add 16 true (example_state bits_zero))
     = m_Settings (example_state bits_zero).
Proof. repeat split; vm_compute; reflexivity. Qed.

Lemma Add_overwrites_motionStartTime_witness :
  motionStartTime (m_Settings (Add 16 true (example_state bits_five)))
  = double_of_bits bits_minus_one.
Proof.
  exact (proj1 (proj2 (Add_overwrites_motionStartTime 16 (example_state bits_five)
                         eq_refl))).
Defined.

Lemma snapshot_roundtrip_witness :
  m_Camera (add_then_load bits_five) = example_camera
  /\ lastSelected (add_then_load bits_five) = 1%Z.
Proof.
  pose proof (snapshot_roundtrip 16 (example_state bits_five) 0
                (m_Settings (TestsPanel 16 (AddButton true) (example_state bits_five)))
                example_camera
                eq_refl eq_refl eq_refl ltac:(vm_compute; reflexivity)
                eq_refl eq_refl) as H.
  cbv zeta in H. destruct H as (_ & _ & _ & Hcam & _ & Hlast).
  split; [exact Hcam | exact Hlast].
Defined.

End TestsProofs.

(** ** More on the incremental transitions *)

Module FrameProofs.
Import Transitions Frame.

Lemma index_of_inj a b : index_of a = index_of b -> a = b.
Proof. destruct a, b; intros H; try reflexivity; discriminate H. Qed.

Lemma from_length states store out max store' out' :
  BuildOptimizedTransitions_from states store out max = Done (store', out') ->
  length store' = length store.
Proof.
  revert store out. induction states as [|st states IH]; intros store out H.
  - now injection H as <- <-.
  - cbn [BuildOptimizedTransitions_from] in H.
    destruct (GetState store (texture st)) as [tr|]; [|discriminate].
    destruct (decide _).
    + destruct (decide _); [|discriminate].
      apply IH in H. now rewrite length_insert in H.
    + now apply IH in H.
Qed.

Lemma from_untouched states store out max store' out' k :
  BuildOptimizedTransitions_from states store out max = Done (store', out') ->
  Forall (fun st => index_of (texture st) <> k) states ->
  store' !! k = store !! k.
Proof.
  revert store out. induction states as [|st states IH]; intros store out H Hk.
  - now injection H as <- <-.
  - inversion Hk as [|? ? Hst Hrest]; subst.
    cbn [BuildOptimizedTransitions_from] in H.
    destruct (GetState store (texture st)) as [tr|]; [|discriminate].
    destruct (decide _).
    + destruct (decide _); [|discriminate].
      rewrite (IH _ _ H Hrest). now apply list_lookup_insert_ne.
    + exact (IH _ _ H Hrest).
Qed.

(** Where every request agrees with what is recorded, nothing happens. *)
Lemma from_all_agree states store out max :
  Forall (fun st => exists d, GetState store (texture st) = Some d /\ agrees d st)
         states ->
  BuildOptimizedTransitions_from states store out max = Done (store, out).
Proof.
  induction 1 as [|st states (d & Hd & Ha & Hl) _ IH]; [reflexivity|].
  cbn [BuildOptimizedTransitions_from]. rewrite Hd.
  destruct (decide _) as [[Hn|Hn]|_]; [congruence..|exact IH].
Qed.

(** The state recorded for the texture of an entry that no later entry
    names again is the state that entry requested. *)
Lemma from_last_request l1 st l2 store out max store' out' :
  BuildOptimizedTransitions_from (l1 ++ st :: l2) store out max = Done (store', out') ->
  Forall (fun s => texture s <> texture st) l2 ->
  exists d, GetState store' (texture st) = Some d /\ agrees d st.
Proof.
  intros H Hl2. rewrite TransitionsProofs.from_app in H.
  destruct (BuildOptimizedTransitions_from l1 store out max) as [[s1 o1]| |];
    [|discriminate..].
  cbn [BuildOptimizedTransitions_from] in H.
  assert (Hidx : Forall (fun s => index_of (texture s) <> index_of (texture st)) l2).
  { eapply Forall_impl; [exact Hl2|]. intros s Hs Heq. now apply Hs, index_of_inj. }
  destruct (GetState s1 (texture st)) as [tr|] eqn:Htr; [|discriminate].
  unfold GetState in *.
  destruct (decide _) as [Hdiff|Hsame].
  - destruct (decide _); [|discriminate].
    rewrite (from_untouched _ _ _ _ _ _ _ H Hidx).
    rewrite list_lookup_insert_eq by (now apply lookup_lt_Some in Htr).
    eexists. split; [reflexivity|]. split; reflexivity.
  - rewrite (from_untouched _ _ _ _ _ _ _ H Hidx), Htr.
    exists tr. split; [reflexivity|]. split.
    + destruct (decide (barrierNextAccess tr = nextAccess st)); tauto.
    + destruct (decide (barrierNextLayout tr = nextLayout st)); tauto.
Qed.

Lemma BuildOptimizedTransitions_records_parts store states max store' out :
  BuildOptimizedTransitions store states max = Done (store', out) ->
  length store' = length store
  /\ (forall t, Forall (fun st => texture st <> t) states ->
                GetState store' t = GetState store t)
  /\ (forall i state,
        states !! i = Some state ->
        Forall (fun s => texture s <> texture state) (drop (S i) states) ->
        exists d, GetState store' (texture state) = Some d
                  /\ barrierNextAccess d = nextAccess state
                  /\ barrierNextLayout d = nextLayout state).
Proof.
  unfold BuildOptimizedTransitions. intros H. split; [|split].
  - exact (from_length _ _ _ _ _ _ H).
  - intros t Ht. unfold GetState. apply (from_untouched _ _ _ _ _ _ _ H).
    eapply Forall_impl; [exact Ht|]. intros s Hs Heq. now apply Hs, index_of_inj.
  - intros i state Hi Hlater.
    rewrite <- (take_drop_middle states i state Hi) in H.
    exact (from_last_request _ _ _ _ _ _ _ _ H Hlater).
Qed.

(** X1. After a call that returns, the recorded states are as many as
    before; a texture the list does not name keeps its recorded state; and
    the state recorded for a named texture is the one its last entry in the
    list requested. *)
Theorem BuildOptimizedTransitions_records store states max store' out :
  BuildOptimizedTransitions store states max = Done (store', out) ->
  length store' = length store
  /\ (forall t, Forall (fun st => texture st <> t) states ->
                GetState store' t = GetState store t)
  /\ (forall i state,
        states !! i = Some state ->
        Forall (fun s => texture s <> texture state) (drop (S i) states) ->
        exists d, GetState store' (texture state) = Some d
                  /\ barrierNextAccess d = nextAccess state
                  /\ barrierNextLayout d = nextLayout state).
Proof. exact (BuildOptimizedTransitions_records_parts store states max store' out). Qed.

Lemma BuildOptimizedTransitions_records_witness :
  exists d, GetState example_recorded Composition = Some d
            /\ barrierNextAccess d = ACCESS_SHADER_RESOURCE_STORAGE
            /\ barrierNextLayout d = LAYOUT_GENERAL.
Proof.
  refine (proj2 (proj2 (BuildOptimizedTransitions_records example_states
            Composition_states 32%nat example_recorded example_transitions eq_refl))
            11%nat _ eq_refl _).
  vm_compute. repeat constructor; discriminate.
Defined.

Lemma later_entries_differ (states : list TextureState) i state :
  NoDup (map texture states) ->
  states !! i = Some state ->
  Forall (fun s => texture s <> texture state) (drop (S i) states).
Proof.
  intros Hnd Hi. rewrite <- (take_drop_middle states i state Hi) in Hnd.
  rewrite map_app in Hnd. apply NoDup_app in Hnd as (_ & _ & Hnd).
  cbn [map] in Hnd. apply NoDup_cons in Hnd as (Hnot & _).
  apply Forall_forall. intros s Hs Heq. apply Hnot.
  rewrite <- Heq. apply list_elem_of_fmap. eauto.
Qed.

(** X2. A list that names no texture twice, handed over again right after a
    call that returned, gives no transition and leaves the recorded states
    as they are. *)
Theorem BuildOptimizedTransitions_again store states max store' out :
  NoDup (map texture states) ->
  BuildOptimizedTransitions store states max = Done (store', out) ->
  BuildOptimizedTransitions store' states max = Done (store', []).
Proof.
  intros Hnd H. unfold BuildOptimizedTransitions at 1.
  apply from_all_agree. apply Forall_lookup. intros i state Hi.
  destruct (BuildOptimizedTransitions_records_parts store states max store' out H)
    as (_ & _ & Hlast).
  destruct (Hlast i state Hi (later_entries_differ states i state Hnd Hi))
    as (d & Hd & Ha & Hl).
  exists d. split; [exact Hd|]. split; assumption.
Qed.

Lemma BuildOptimizedTransitions_again_witness :
  Composition_barrier example_recorded = Done (example_recorded, []).
Proof.
  refine (BuildOptimizedTransitions_again example_states Composition_states 32%nat
            example_recorded example_transitions _ eq_refl).
  apply (bool_decide_eq_true_1 _). vm_compute. reflexivity.
Defined.

Lemma from_only_changes states store out max store' out' :
  BuildOptimizedTransitions_from states store out max = Done (store', out') ->
  Forall changes out -> Forall changes out'.
Proof.
  revert store out. induction states as [|st states IH]; intros store out H Hout.
  - now injection H as <- <-.
  - cbn [BuildOptimizedTransitions_from] in H.
    destruct (GetState store (texture st)) as [tr|]; [|discriminate].
    destruct (decide _) as [Hdiff|].
    + destruct (decide _); [|discriminate].
      apply (IH _ _ H). apply Forall_app. split; [exact Hout|].
      constructor; [|constructor]. exact Hdiff.
    + exact (IH _ _ H Hout).
Qed.

Lemma from_requested (L : list TextureState) states store out max store' out' :
  BuildOptimizedTransitions_from states store out max = Done (store', out') ->
  (forall st, In st states -> In st L) ->
  Forall (fun t => exists st, In st L /\ agrees t st) out ->
  Forall (fun t => exists st, In st L /\ agrees t st) out'.
Proof.
  revert store out. induction states as [|st states IH]; intros store out H HL Hout.
  - now injection H as <- <-.
  - cbn [BuildOptimizedTransitions_from] in H.
    assert (HL' : forall s, In s states -> In s L) by (intros s Hs; apply HL; now right).
    destruct (GetState store (texture st)) as [tr|]; [|discriminate].
    destruct (decide _) as [Hdiff|].
    + destruct (decide _); [|discriminate].
      apply (IH _ _ H HL'). apply Forall_app. split; [exact Hout|].
      constructor; [|constructor].
      exists st. split; [apply HL; now left|]. split; reflexivity.
    + exact (IH _ _ H HL' Hout).
Qed.

(** X3. No transition written is a no-op: each changes the access or the
    layout of its texture, and leads to the state some entry of the list
    requested. *)
Theorem BuildOptimizedTransitions_only_changes store states max store' out :
  BuildOptimizedTransitions store states max = Done (store', out) ->
  forall t, In t out ->
    (prevAccess t <> barrierNextAccess t \/ prevLayout t <> barrierNextLayout t)
    /\ exists state, In state states
                     /\ barrierNextAccess t = nextAccess state
                     /\ barrierNextLayout t = nextLayout state.
Proof.
  unfold BuildOptimizedTransitions. intros H t Ht.
  pose proof (from_only_changes _ _ _ _ _ _ H (Forall_nil_2 _)) as Hc.
  pose proof (from_requested states _ _ _ _ _ _ H (fun _ h => h) (Forall_nil_2 _)) as Hr.
  rewrite Forall_forall in Hc, Hr. apply list_elem_of_In in Ht.
  split; [exact (Hc t Ht)|]. exact (Hr t Ht).
Qed.

Lemma BuildOptimizedTransitions_only_changes_witness :
  Forall (fun t => prevAccess t <> barrierNextAccess t
                   \/ prevLayout t <> barrierNextLayout t) example_transitions.
Proof.
  apply Forall_forall. intros t Ht. apply list_elem_of_In in Ht.
  exact (proj1 (BuildOptimizedTransitions_only_changes example_states
                  Composition_states 32%nat example_recorded example_transitions
                  eq_refl t Ht)).
Defined.




Lemma isEven_mod f : isEven f = (f mod 2 =? 0)%Z.
Proof.
  unfold isEven. change 1%Z with (Z.ones 1).
  now rewrite Z.land_ones by lia.
Qed.

Lemma isEven_next f : isEven (u32 (f + 1)) = negb (isEven f).
Proof.
  rewrite !isEven_mod. unfold u32.
  rewrite Z.mod_mod_divide by (exists (2 ^ 31)%Z; reflexivity).
  pose proof (Z.mod_pos_bound f 2 ltac:(lia)).
  pose proof (Z.mod_pos_bound (f + 1) 2 ltac:(lia)).
  pose proof (Z.div_mod f 2 ltac:(lia)).
  pose proof (Z.div_mod (f + 1) 2 ltac:(lia)).
  destruct (Z.eqb_spec ((f + 1) mod 2) 0), (Z.eqb_spec (f mod 2) 0);
    cbn [negb]; try reflexivity; exfalso; lia.
Qed.

(** X5. The two history textures of the temporal pass are a ping-pong
    pair by frame parity: in every frame one is requested as shader
    resource and the other as storage, never the same texture twice, and
    the one written in a frame is the one read in the next, also across the
    wrap-around of the frame index.  The descriptor set alternates with
    them. *)
Theorem history_ping_pong f :
  exists r w,
    history_read f = Some r /\ history_written f = Some w
    /\ texture r <> texture w
    /\ nextAccess r = ACCESS_SHADER_RESOURCE
    /\ nextAccess w = ACCESS_SHADER_RESOURCE_STORAGE
    /\ (texture w = TaaHistory <-> isEven f = true)
    /\ (texture w = TaaHistoryPrev <-> isEven f = false)
    /\ (texture <$> history_read (u32 (f + 1))) = Some (texture w)
    /\ (texture <$> history_written (u32 (f + 1))) = Some (texture r)
    /\ Temporal_descriptorSet (u32 (f + 1)) <> Temporal_descriptorSet f.
Proof.
  unfold history_read, history_written, Temporal_descriptorSet.
  rewrite isEven_next.
  destruct (isEven f); cbn; eexists _, _;
    repeat split; try reflexivity; try discriminate.
Qed.




End FrameProofs.

(** ** Resource creation *)

Module ResourcesProofs.
Import Transitions Resources.

Local Open Scope Z_scope.

Section CreationFacts.

Variable B : nat.
Variable CB : Z.

(** The loop over the scene's textures only appends. *)
Lemma materials_loop (l : list CTextureDesc) :
  forall s d,
    fold_left
      (fun c textureData =>
         CreateTexture c "" (textureFormat textureData) (width textureData)
           (height textureData) (mipNum textureData) (arraySize textureData)
           TextureUsage_SHADER_RESOURCE ACCESS_UNKNOWN) l (s, d)
    = ({| m_Frames := m_Frames s;
          m_Textures := m_Textures s ++ map material_texture l;
          m_TextureStates := m_TextureStates s;
          m_Buffers := m_Buffers s;
          m_Descriptors := m_Descriptors s;
          names := names s |},
       d ++ imap (fun k => material_desc (length (m_Textures s) + k)) l).
Proof.
  induction l as [|td l IH]; intros s d.
  - simpl. rewrite !app_nil_r. destruct s; reflexivity.
  - cbn [fold_left]. unfold CreateTexture at 2. cbn [decide].
    rewrite IH. cbn. rewrite length_app. cbn [length].
    rewrite <- !app_assoc. cbn [app].
    f_equal. rewrite Nat.add_0_r. do 2 f_equal.
    apply imap_ext. intros i x _. cbn. f_equal. lia.
Qed.

(** [CreateDescriptors] neither reads nor changes the textures. *)
Lemma step_set_textures s t desc :
  CreateDescriptors_step B CB (set_textures s t) desc
  = set_textures (CreateDescriptors_step B CB s desc) t.
Proof.
  unfold CreateDescriptors_step.
  destruct (decide (textureUsage desc = TextureUsage_NONE)); [|reflexivity].
  destruct (decide (bufferUsage desc = BufferUsage_CONSTANT_BUFFER)); [reflexivity|].
  destruct (buf_SHADER_RESOURCE (bufferUsage desc)); reflexivity.
Qed.

Lemma CreateDescriptors_set_textures descs :
  forall s t,
    CreateDescriptors B CB descs (set_textures s t)
    = set_textures (CreateDescriptors B CB descs s) t.
Proof.
  unfold CreateDescriptors.
  induction descs as [|desc descs IH]; intros s t; [reflexivity|].
  cbn [fold_left]. rewrite step_set_textures. apply IH.
Qed.

Lemma step_keeps s desc :
  m_Textures (CreateDescriptors_step B CB s desc) = m_Textures s
  /\ m_TextureStates (CreateDescriptors_step B CB s desc) = m_TextureStates s
  /\ m_Buffers (CreateDescriptors_step B CB s desc) = m_Buffers s.
Proof.
  unfold CreateDescriptors_step.
  destruct (decide (textureUsage desc = TextureUsage_NONE)); [|auto].
  destruct (decide (bufferUsage desc = BufferUsage_CONSTANT_BUFFER)); [auto|].
  destruct (buf_SHADER_RESOURCE (bufferUsage desc)); auto.
Qed.

Lemma CreateDescriptors_keeps descs :
  forall s,
    m_Textures (CreateDescriptors B CB descs s) = m_Textures s
    /\ m_TextureStates (CreateDescriptors B CB descs s) = m_TextureStates s
    /\ m_Buffers (CreateDescriptors B CB descs s) = m_Buffers s.
Proof.
  unfold CreateDescriptors.
  induction descs as [|desc descs IH]; intros s; [auto|].
  cbn [fold_left].
  destruct (IH (CreateDescriptors_step B CB s desc)) as (H1 & H2 & H3).
  destruct (step_keeps s desc) as (K1 & K2 & K3).
  rewrite H1, H2, H3. auto.
Qed.

Lemma step_material s n td :
  CreateDescriptors_step B CB s (material_desc n td)
  = {| m_Frames := m_Frames s;
       m_Textures := m_Textures s;
       m_TextureStates := m_TextureStates s;
       m_Buffers := m_Buffers s;
       m_Descriptors := m_Descriptors s ++ [material_view n td];
       names := names s ++ [(TextureHandle n, "")] |}.
Proof.
  unfold CreateDescriptors_step.
  destruct (decide _) as [E|_]; [discriminate E|]. reflexivity.
Qed.

(** The descriptions of the scene's textures each give one view. *)
Lemma CreateDescriptors_materials (l : list CTextureDesc) :
  forall s n,
    CreateDescriptors B CB (imap (fun k => material_desc (n + k)) l) s
    = {| m_Frames := m_Frames s;
         m_Textures := m_Textures s;
         m_TextureStates := m_TextureStates s;
         m_Buffers := m_Buffers s;
         m_Descriptors :=
           m_Descriptors s ++ imap (fun k => material_view (n + k)) l;
         names := names s ++ imap (fun k _ => (TextureHandle (n + k), "")) l |}.
Proof.
  unfold CreateDescriptors.
  induction l as [|td l IH]; intros s n.
  - cbn. rewrite !app_nil_r. destruct s; reflexivity.
  - rewrite !imap_cons. cbn [fold_left].
    assert (E : forall (X : Type) (f : nat -> CTextureDesc -> X),
               imap ((fun k => f (n + k)%nat) ∘ S) l
               = imap (fun k => f (S n + k)%nat) l).
    { intros X f. apply imap_ext. intros i x _. cbn. f_equal. lia. }
    rewrite (E _ material_desc), (E _ material_view).
    rewrite (E _ (fun k _ => (TextureHandle k, ""))).
    rewrite IH. rewrite Nat.add_0_r.
    rewrite step_material. cbn.
    rewrite <- !app_assoc. reflexivity.
Qed.

(** Creating the resources of a scene adds the scene's textures, their
    views and their (empty) names to what a scene without textures gets. *)
Lemma Initialize_resources_eq (p : Params) (fmt : Format) :
  Initialize_resources B CB p fmt
  = with_materials (named_resources B CB p fmt) (textures (m_Scene p)).
Proof.
  unfold Initialize_resources, CreateResources, named_resources.
  destruct (CreateResources_textures p fmt _) as [s d].
  unfold CreateResources_materials. rewrite materials_loop.
  cbn [fst snd].
  change (CreateDescriptors B CB
            (d ++ imap (fun k => material_desc (length (m_Textures s) + k))
                       (textures (m_Scene p)))
            (set_textures s (m_Textures s ++ map material_texture (textures (m_Scene p))))
          = with_materials (CreateDescriptors B CB d s) (textures (m_Scene p))).
  unfold CreateDescriptors at 1. rewrite fold_left_app.
  change (fold_left (CreateDescriptors_step B CB) d ?x) with (CreateDescriptors B CB d x).
  rewrite CreateDescriptors_set_textures.
  change (fold_left (CreateDescriptors_step B CB) ?l ?x)
    with (CreateDescriptors B CB l x).
  rewrite CreateDescriptors_materials.
  unfold with_materials, set_textures. cbn.
  destruct (CreateDescriptors_keeps d s) as (H1 & _).
  rewrite H1. reflexivity.
Qed.



End CreationFacts.

Lemma named_lengths B CB (p : Params) (fmt : Format) :
  length (m_TextureStates (named_resources B CB p fmt)) = 19%nat
  /\ length (m_Textures (named_resources B CB p fmt)) = 19%nat
  /\ length (m_Descriptors (named_resources B CB p fmt)) = 41%nat
  /\ length (m_Buffers (named_resources B CB p fmt)) = 7%nat.
Proof. repeat split; vm_compute; reflexivity. Qed.

Lemma named_names B CB p fmt X : X <> MaterialTextures ->
  (TextureHandle (index_of X), ("Texture::" ++ Texture_name X)%string)
    ∈ names (named_resources B CB p fmt).
Proof.
  intros HX.
  remember (names (named_resources B CB p fmt)) as nm eqn:Enm.
  vm_compute in Enm. subst nm.
  destruct X; try congruence; apply list_elem_of_In; vm_compute; tauto.
Qed.

Lemma named_states B CB p fmt X : X <> MaterialTextures ->
  exists d, GetState (m_TextureStates (named_resources B CB p fmt)) X = Some d
        /\ barrierTexture d = index_of X
        /\ barrierNextAccess d <> ACCESS_UNKNOWN
        /\ barrierNextLayout d
           = (if decide (barrierNextAccess d = ACCESS_SHADER_RESOURCE)
              then LAYOUT_SHADER_RESOURCE else LAYOUT_GENERAL).
Proof.
  intros HX.
  remember (m_TextureStates (named_resources B CB p fmt)) as st eqn:Est.
  vm_compute in Est. subst st.
  destruct X; try congruence;
    (eexists; split; [reflexivity|]; split; [reflexivity|];
     split; [discriminate|reflexivity]).
Qed.

(** X7. The textures that have a name are created in the order of their
    enumeration, each in a known state, and the textures of the scene after
    them without one.  So there are exactly as many recorded states as
    named textures; the state found by the enumerator of a named texture
    belongs to the texture found by the same enumerator, which is the one
    that was given the enumerator's name; its layout is the shader-resource
    layout exactly when its access is shader resource; and the textures of
    the scene follow in the scene's order. *)
Theorem texture_states_follow_enumeration B CB (p : Params) (fmt : Format) (X : Texture) :
  X <> MaterialTextures ->
  let s := Initialize_resources B CB p fmt in
  length (m_TextureStates s) = index_of MaterialTextures
  /\ length (m_Textures s)
     = (index_of MaterialTextures + length (textures (m_Scene p)))%nat
  /\ GetState (m_TextureStates s) MaterialTextures = None
  /\ (exists d td,
        GetState (m_TextureStates s) X = Some d
        /\ m_Textures s !! index_of X = Some td
        /\ barrierTexture d = index_of X
        /\ (TextureHandle (index_of X), ("Texture::" ++ Texture_name X)%string)
             ∈ names s
        /\ barrierNextAccess d <> ACCESS_UNKNOWN
        /\ barrierNextLayout d
           = (if decide (barrierNextAccess d = ACCESS_SHADER_RESOURCE)
              then LAYOUT_SHADER_RESOURCE else LAYOUT_GENERAL))
  /\ (forall k td,
        textures (m_Scene p) !! k = Some td ->
        m_Textures s !! (index_of MaterialTextures + k)%nat
        = Some (material_texture td)).
Proof.
  intros HX s. subst s. rewrite Initialize_resources_eq.
  destruct (named_lengths B CB p fmt) as (Hst & Htx & _ & _).
  pose proof (named_names B CB p fmt X HX) as Hname.
  destruct (named_states B CB p fmt X HX) as (d & Hd & Hdt & Hda & Hdl).
  assert (HX19 : (index_of X < 19)%nat) by (destruct X; cbn; try lia; congruence).
  change (index_of MaterialTextures) with 19%nat.
  revert Hst Htx Hname Hd. generalize (named_resources B CB p fmt) as N.
  intros N Hst Htx Hname Hd.
  unfold with_materials, GetState in *. cbn [m_TextureStates m_Textures names].
  split; [exact Hst|]. split.
  { rewrite length_app, length_map, Htx. reflexivity. }
  split.
  { apply lookup_ge_None_2. rewrite Hst. cbn. lia. }
  split.
  - destruct (lookup_lt_is_Some_2 (m_Textures N) (index_of X)) as [td Htd];
      [rewrite Htx; exact HX19|].
    exists d, td. split; [exact Hd|]. split.
    { rewrite lookup_app_l by (rewrite Htx; exact HX19). exact Htd. }
    split; [exact Hdt|]. split.
    { apply elem_of_app. left. exact Hname. }
    split; [exact Hda|exact Hdl].
  - intros k td Hk. rewrite lookup_app_r by (rewrite Htx; lia).
    rewrite Htx. replace (19 + k - 19)%nat with k by lia.
    rewrite list_lookup_fmap, Hk. reflexivity.
Qed.

Lemma texture_states_follow_enumeration_witness :
  exists d,
    GetState (m_TextureStates example_sample) TaaHistoryPrev = Some d
    /\ barrierTexture d = 17%nat
    /\ barrierNextAccess d <> ACCESS_UNKNOWN.
Proof.
  destruct (texture_states_follow_enumeration 2 256 example_params RGBA8_UNORM
              TaaHistoryPrev ltac:(discriminate))
    as (_ & _ & _ & (d & td & Hd & _ & Ht & _ & Ha & _) & _).
  exists d. split; [exact Hd|]. split; [exact Ht|exact Ha].
Defined.

Lemma named_descriptors B CB p fmt X :
  X <> MaterialTextures ->
  let N := named_resources B CB p fmt in
  exists td,
    m_Textures N !! index_of X = Some td
    /\ m_Descriptors N !! Descriptor.index (Texture_descriptor X)
       = Some (Texture2DView (TextureHandle (index_of X)) SHADER_RESOURCE_2D
                 (GetCorrectFormatForDepth (textureFormat td)))
    /\ m_Descriptors N !! Descriptor.index (StorageTexture_descriptor X)
       = Some (Texture2DView (TextureHandle (index_of X)) SHADER_RESOURCE_STORAGE_2D
                 (GetCorrectFormatForDepth (textureFormat td)))
    /\ arraySize td = 1
    /\ textureUsageMask td = SHADER_RESOURCE_or_STORAGE.
Proof.
  intros HX N. subst N.
  remember (m_Descriptors (named_resources B CB p fmt)) as ds eqn:Eds.
  vm_compute in Eds.
  remember (m_Textures (named_resources B CB p fmt)) as ts eqn:Ets.
  cbv -[Z.mul Z.add Z.div Z.modulo Z.of_nat Z.pow] in Ets.
  subst ds ts.
  destruct X; try congruence;
    (eexists; split; [reflexivity|]; repeat split; reflexivity).
Qed.

Lemma named_fixed_descriptors B CB p fmt :
  let N := named_resources B CB p fmt in
  m_Descriptors N !! Descriptor.index Descriptor.Opaque_AccelerationStructure
  = Some AccelerationStructureDescriptor
  /\ m_Descriptors N !! Descriptor.index Descriptor.PrimitiveData_Buffer
     = Some (BufferView (BufferHandle (Buffer_index PrimitiveData))
               BUFFER_SHADER_RESOURCE (Some RGBA32_UINT) None)
  /\ m_Descriptors N !! Descriptor.index Descriptor.InstanceData_Buffer
     = Some (BufferView (BufferHandle (Buffer_index InstanceData))
               BUFFER_SHADER_RESOURCE (Some RGBA32_SFLOAT) None).
Proof.
  intros N. subst N.
  remember (m_Descriptors (named_resources B CB p fmt)) as ds eqn:Eds.
  vm_compute in Eds. subst ds. repeat split; reflexivity.
Qed.

(** X8. The descriptors are created in the order of their enumeration: the
    acceleration structure first, the views of the two buffers the shaders
    read, then for each named texture its shader-resource view and its
    storage view, and after them one shader-resource view for each texture
    of the scene.  So the descriptor named after a texture is a view of
    that very texture, of the texture's format with a depth format
    replaced, and the scene's textures have no storage view. *)
Theorem descriptors_follow_enumeration B CB (p : Params) (fmt : Format) (X : Texture) :
  X <> MaterialTextures ->
  let s := Initialize_resources B CB p fmt in
  length (m_Descriptors s)
  = (Descriptor.index Descriptor.MaterialTextures + length (textures (m_Scene p)))%nat
  /\ Get_Descriptor s (Descriptor.index Descriptor.Opaque_AccelerationStructure)
     = Some AccelerationStructureDescriptor
  /\ Get_Descriptor s (Descriptor.index Descriptor.PrimitiveData_Buffer)
     = Some (BufferView (BufferHandle (Buffer_index PrimitiveData))
               BUFFER_SHADER_RESOURCE (Some RGBA32_UINT) None)
  /\ Get_Descriptor s (Descriptor.index Descriptor.InstanceData_Buffer)
     = Some (BufferView (BufferHandle (Buffer_index InstanceData))
               BUFFER_SHADER_RESOURCE (Some RGBA32_SFLOAT) None)
  /\ (exists td,
        m_Textures s !! index_of X = Some td
        /\ Get_Descriptor s (Descriptor.index (Texture_descriptor X))
           = Some (Texture2DView (TextureHandle (index_of X)) SHADER_RESOURCE_2D
                     (GetCorrectFormatForDepth (textureFormat td)))
        /\ Get_Descriptor s (Descriptor.index (StorageTexture_descriptor X))
           = Some (Texture2DView (TextureHandle (index_of X))
                     SHADER_RESOURCE_STORAGE_2D
                     (GetCorrectFormatForDepth (textureFormat td))))
  /\ (forall k td,
        textures (m_Scene p) !! k = Some td ->
        exists created,
          m_Textures s !! (index_of MaterialTextures + k)%nat = Some created
          /\ textureFormat created = textureFormat td
          /\ Get_Descriptor s (Descriptor.index Descriptor.MaterialTextures + k)
             = Some (Texture2DView (TextureHandle (index_of MaterialTextures + k))
                       (if (1 <? arraySize td)%Z
                        then SHADER_RESOURCE_2D_ARRAY else SHADER_RESOURCE_2D)
                       (GetCorrectFormatForDepth (textureFormat td)))).
Proof.
  intros HX s. subst s. unfold Get_Descriptor. rewrite Initialize_resources_eq.
  destruct (named_lengths B CB p fmt) as (_ & Htx & Hds & _).
  destruct (named_fixed_descriptors B CB p fmt) as (Ha & Hp & Hi).
  destruct (named_descriptors B CB p fmt X HX) as (td & Htd & Hr & Hw & _).
  assert (HX19 : (index_of X < 19)%nat) by (destruct X; cbn; try lia; congruence).
  assert (Hr41 : (Descriptor.index (Texture_descriptor X) < 41)%nat)
    by (destruct X; cbn; try lia; congruence).
  assert (Hw41 : (Descriptor.index (StorageTexture_descriptor X) < 41)%nat)
    by (destruct X; cbn; try lia; congruence).
  change (index_of MaterialTextures) with 19%nat.
  change (Descriptor.index Descriptor.MaterialTextures) with 41%nat.
  change (Descriptor.index Descriptor.Opaque_AccelerationStructure) with 0%nat in *.
  change (Descriptor.index Descriptor.PrimitiveData_Buffer) with 1%nat in *.
  change (Descriptor.index Descriptor.InstanceData_Buffer) with 2%nat in *.
  cbv zeta in Ha, Hp, Hi, Htd, Hr, Hw.
  revert Htx Hds Ha Hp Hi Htd Hr Hw. generalize (named_resources B CB p fmt) as N.
  intros N Htx Hds Ha Hp Hi Htd Hr Hw.
  unfold with_materials. cbn [m_Descriptors m_Textures].
  split.
  { rewrite length_app, length_imap, Hds. reflexivity. }
  split; [rewrite lookup_app_l by (rewrite Hds; lia); exact Ha|].
  split; [rewrite lookup_app_l by (rewrite Hds; lia); exact Hp|].
  split; [rewrite lookup_app_l by (rewrite Hds; lia); exact Hi|].
  split.
  - exists td.
    rewrite !lookup_app_l by (rewrite ?Hds, ?Htx; assumption).
    auto.
  - intros k td' Hk. exists (material_texture td').
    rewrite !lookup_app_r by (rewrite ?Hds, ?Htx; lia).
    rewrite Hds, Htx.
    replace (19 + k - 19)%nat with k by lia.
    replace (41 + k - 41)%nat with k by lia.
    rewrite list_lookup_fmap, list_lookup_imap, Hk.
    split; [reflexivity|]. split; reflexivity.
Qed.

Lemma descriptors_follow_enumeration_witness :
  Get_Descriptor example_sample 42
  = Some (Texture2DView (TextureHandle 20) SHADER_RESOURCE_2D_ARRAY R32_SFLOAT).
Proof.
  destruct (descriptors_follow_enumeration 2 256 example_params RGBA8_UNORM
              ViewZ ltac:(discriminate)) as (_ & _ & _ & _ & _ & H).
  destruct (H 1%nat _ eq_refl) as (created & _ & _ & Hv).
  exact Hv.
Defined.

Lemma depth_format_replaced f :
  is_depth (GetCorrectFormatForDepth f) = false
  /\ (GetCorrectFormatForDepth f = f <-> is_depth f = false).
Proof. destruct f; cbn; split; try reflexivity; split; congruence. Qed.

Lemma step_no_depth_view B CB s desc :
  Forall (fun d => depth_view d = false) (m_Descriptors s) ->
  Forall (fun d => depth_view d = false)
         (m_Descriptors (CreateDescriptors_step B CB s desc)).
Proof.
  intros H. unfold CreateDescriptors_step.
  destruct (decide (textureUsage desc = TextureUsage_NONE)).
  - destruct (decide (bufferUsage desc = BufferUsage_CONSTANT_BUFFER)); [exact H|].
    destruct (buf_SHADER_RESOURCE (bufferUsage desc)); [|exact H].
    cbn. apply Forall_app. split; [exact H|]. repeat constructor.
  - cbn [m_Descriptors]. apply Forall_app. split; [exact H|].
    apply Forall_app. split.
    + constructor; [|constructor]. exact (proj1 (depth_format_replaced _)).
    + destruct (tex_SHADER_RESOURCE_STORAGE (textureUsage desc));
        constructor; [|constructor]. exact (proj1 (depth_format_replaced _)).
Qed.

(** X9. [GetCorrectFormatForDepth] never returns a depth format and
    returns exactly the formats without depth as they are.  So
    [CreateDescriptors] creates no texture view of a depth format, whatever
    descriptions it is handed: if the sample has none before, it has none
    afterwards. *)
Theorem CreateDescriptors_no_depth_view B CB (descs : list DescriptorDesc) (s : Sample) :
  Forall (fun d => depth_view d = false) (m_Descriptors s) ->
  Forall (fun d => depth_view d = false)
         (m_Descriptors (CreateDescriptors B CB descs s))
  /\ forall f, is_depth (GetCorrectFormatForDepth f) = false
               /\ (GetCorrectFormatForDepth f = f <-> is_depth f = false).
Proof.
  intros H. split; [|exact depth_format_replaced].
  unfold CreateDescriptors. revert s H.
  induction descs as [|desc descs IH]; intros s H; [exact H|].
  cbn [fold_left]. apply IH. now apply step_no_depth_view.
Qed.

Lemma CreateDescriptors_no_depth_view_witness :
  Forall (fun d => depth_view d = false)
         (m_Descriptors
            (CreateDescriptors 2 256
               (imap material_desc (textures (m_Scene example_params)))
               (Sample_new 2))).
Proof.
  exact (proj1 (CreateDescriptors_no_depth_view 2 256
                  (imap material_desc (textures (m_Scene example_params)))
                  (Sample_new 2) (Forall_nil_2 _))).
Defined.


Lemma named_buffers B CB p fmt (b : Buffer) :
  let N := named_resources B CB p fmt in
  exists d,
    m_Buffers N !! Buffer_index b = Some d
    /\ structureStride d = 0
    /\ (BufferHandle (Buffer_index b), ("Buffer::" ++ Buffer_name b)%string) ∈ names N
    /\ (buf_SHADER_RESOURCE (usageMask d) = true
        <-> b = PrimitiveData \/ b = InstanceData)
    /\ (b = InstanceData ->
        size d = u64 (instanceDataSize p / (4 * sizeof_float) * (4 * sizeof_float)))
    /\ (b = InstanceDataStaging ->
        size d = u64 (u64 (instanceDataSize p * Z.of_nat B) * 1))
    /\ (b = GlobalConstants -> size d = u64 (u64 (CB * Z.of_nat B) * 1)).
Proof.
  intros N. subst N.
  assert (Hname : (BufferHandle (Buffer_index b), ("Buffer::" ++ Buffer_name b)%string)
                    ∈ names (named_resources B CB p fmt)).
  { remember (names (named_resources B CB p fmt)) as nm eqn:Enm.
    vm_compute in Enm. subst nm.
    destruct b; apply list_elem_of_In; vm_compute; tauto. }
  remember (m_Buffers (named_resources B CB p fmt)) as bs eqn:Ebs.
  cbv -[Z.mul Z.add Z.div Z.modulo Z.of_nat Z.pow u64 instanceDataSize sizeof_float] in Ebs.
  subst bs.
  destruct b;
    (eexists; split; [reflexivity|]; split; [reflexivity|];
     split; [exact Hname|]; split;
     [cbn; split; [intros E; first [discriminate E | tauto]
                  |intros [E|E]; first [discriminate E | reflexivity]]|];
     repeat split; intros E; first [discriminate E | reflexivity]).
Qed.


Lemma named_frames B CB p fmt :
  m_Frames (named_resources B CB p fmt)
  = map (fun i : nat =>
           {| globalConstantBufferDescriptor :=
                Some (BufferView (BufferHandle (Buffer_index GlobalConstants))
                        CONSTANT None (Some (u64 (Z.of_nat i * CB), CB)));
              globalConstantBufferOffset := u64 (Z.of_nat i * CB) |})
        (seq 0 B).
Proof.
  cbv -[Z.mul Z.add Z.div Z.modulo Z.of_nat Z.pow map seq u64]. reflexivity.
Qed.

(** X11. Each buffered frame gets a view of its own part of the constant
    buffer: frame [i] has the [m_ConstantBufferSize] bytes from
    [i * m_ConstantBufferSize] on, its recorded offset is the offset of its
    view, the part lies within the buffer, and the parts of two frames do
    not overlap - as long as the size of the whole buffer fits 64 bits. *)
Theorem constant_buffer_ranges B CB (p : Params) (fmt : Format) (i : nat) :
  0 <= CB -> Z.of_nat B * CB < 2 ^ 64 -> (i < B)%nat ->
  let s := Initialize_resources B CB p fmt in
  length (m_Frames s) = B
  /\ exists frame buffer,
       m_Frames s !! i = Some frame
       /\ m_Buffers s !! Buffer_index GlobalConstants = Some buffer
       /\ size buffer = Z.of_nat B * CB
       /\ globalConstantBufferOffset frame = Z.of_nat i * CB
       /\ globalConstantBufferDescriptor frame
          = Some (BufferView (BufferHandle (Buffer_index GlobalConstants))
                    CONSTANT None (Some (globalConstantBufferOffset frame, CB)))
       /\ globalConstantBufferOffset frame + CB <= size buffer
       /\ forall j other,
            j <> i -> m_Frames s !! j = Some other ->
            globalConstantBufferOffset frame + CB <= globalConstantBufferOffset other
            \/ globalConstantBufferOffset other + CB <= globalConstantBufferOffset frame.
Proof.
  intros HCB Hfit Hi s. subst s. rewrite Initialize_resources_eq.
  pose proof (named_frames B CB p fmt) as Hfr.
  destruct (named_buffers B CB p fmt GlobalConstants)
    as (d & Hd & _ & _ & _ & _ & _ & Hsize).
  specialize (Hsize eq_refl). cbv zeta in Hd.
  revert Hfr Hd. generalize (named_resources B CB p fmt) as N. intros N Hfr Hd.
  unfold with_materials. cbn [m_Frames m_Buffers]. rewrite Hfr.
  assert (Hsmall : forall k : nat, (k < B)%nat -> u64 (Z.of_nat k * CB) = Z.of_nat k * CB).
  { intros k Hk. unfold u64. apply Z.mod_small. nia. }
  split; [now rewrite length_map, length_seq|].
  exists {| globalConstantBufferDescriptor :=
              Some (BufferView (BufferHandle (Buffer_index GlobalConstants))
                      CONSTANT None (Some (u64 (Z.of_nat i * CB), CB)));
            globalConstantBufferOffset := u64 (Z.of_nat i * CB) |}, d.
  split.
  { rewrite list_lookup_fmap, lookup_seq_lt by exact Hi. reflexivity. }
  split; [exact Hd|].
  cbn [globalConstantBufferOffset globalConstantBufferDescriptor].
  rewrite (Hsmall i Hi).
  assert (Hd_size : size d = Z.of_nat B * CB).
  { rewrite Hsize, Z.mul_1_r. unfold u64. rewrite Z.mod_mod by lia.
    rewrite Z.mul_comm. apply Z.mod_small. nia. }
  split; [exact Hd_size|]. split; [reflexivity|]. split; [reflexivity|].
  split; [rewrite Hd_size; nia|].
  intros j other Hj Hother.
  rewrite list_lookup_fmap in Hother.
  destruct (seq 0 B !! j) as [j'|] eqn:Ej; [|discriminate Hother].
  apply lookup_seq in Ej as [-> Hjlt]. cbn in Hother. injection Hother as <-.
  cbn [globalConstantBufferOffset]. rewrite (Hsmall j Hjlt).
  destruct (Nat.lt_ge_cases i j); [left|right]; nia.
Qed.

Lemma constant_buffer_ranges_witness :
  exists frame,
    m_Frames example_sample !! 1%nat = Some frame
    /\ globalConstantBufferOffset frame = 256.
Proof.
  destruct (constant_buffer_ranges 2 256 example_params RGBA8_UNORM 1
              ltac:(lia) ltac:(reflexivity) ltac:(lia))
    as (_ & frame & buffer & Hf & _ & _ & Ho & _).
  exists frame. split; [exact Hf|exact Ho].
Defined.

End ResourcesProofs.

(** ** Descriptor sets against their layouts *)

Module PipelinesProofs.
Import Transitions Resources ResourcesProofs Pipelines.

Local Open Scope Z_scope.

Lemma has_type_named (N : Sample) l ty i :
  (i < length (m_Descriptors N))%nat ->
  has_type (with_materials N l) ty (Get i) = has_type N ty (Get i).
Proof.
  intros Hi. unfold has_type, Get_Descriptor, with_materials. cbn [m_Descriptors].
  now rewrite lookup_app_l by exact Hi.
Qed.

Lemma has_type_material (N : Sample) l k :
  (k < length l)%nat ->
  has_type (with_materials N l) TEXTURE (Get (length (m_Descriptors N) + k)) = true.
Proof.
  intros Hk. unfold has_type, Get_Descriptor, with_materials. cbn [m_Descriptors].
  rewrite lookup_app_r by lia.
  replace (length (m_Descriptors N) + k - length (m_Descriptors N))%nat with k by lia.
  rewrite list_lookup_imap.
  destruct (lookup_lt_is_Some_2 l k Hk) as [td ->]. cbn.
  unfold material_view. destruct (1 <? arraySize td); reflexivity.
Qed.

Lemma named_types B CB p fmt :
  let N := named_resources B CB p fmt in
  Forall (fun i => has_type N STORAGE_TEXTURE (Get i) = true)
         [4; 6; 8; 10; 12; 14; 16; 18; 20; 22; 24; 26; 28; 30; 32; 34; 36; 38; 40]%nat
  /\ Forall (fun i => has_type N TEXTURE (Get i) = true)
         [3; 5; 7; 9; 11; 13; 15; 17; 19; 21; 23; 25; 27; 29; 31; 33; 35; 37; 39]%nat
  /\ has_type N ACCELERATION_STRUCTURE (Get 0) = true
  /\ has_type N BUFFER (Get 1) = true
  /\ has_type N BUFFER (Get 2) = true.
Proof.
  intros N. subst N. unfold has_type, Get_Descriptor.
  remember (m_Descriptors (named_resources B CB p fmt)) as ds eqn:Eds.
  vm_compute in Eds. subst ds.
  split; [|split]; [repeat constructor..|].
  repeat split.
Qed.

Lemma length_material_textures (materials : list Material) :
  length (flat_map material_textures materials) = (4 * length materials)%nat.
Proof.
  induction materials as [|m l IH]; [reflexivity|].
  cbn [flat_map]. rewrite length_app, IH. cbn. lia.
Qed.

Lemma material_textures_fit (N : Sample) l (materials : list Material) :
  length (m_Descriptors N) = 41%nat ->
  Forall (fun m => (diffuseMapIndex m < length l)%nat
                   /\ (specularMapIndex m < length l)%nat
                   /\ (normalMapIndex m < length l)%nat
                   /\ (emissiveMapIndex m < length l)%nat) materials ->
  Forall (fun b => has_type (with_materials N l) TEXTURE b = true)
         (flat_map material_textures materials).
Proof.
  intros HN. induction 1 as [|m ms (H1 & H2 & H3 & H4) _ IH]; [constructor|].
  cbn [flat_map]. apply Forall_app. split; [|exact IH].
  unfold material_textures. change (Descriptor.index Descriptor.MaterialTextures) with 41%nat.
  rewrite <- HN.
  repeat constructor; now apply has_type_material.
Qed.

Section SetFacts.

Variable B : nat.
Variable materials : list Material.
Variables r1 r32 sobol : nat.

Lemma typed_fits (s : Sample) (n : nat) (set : DescriptorSetUpdate) :
  typed B s n ->
  Forall (fun b => has_type s TEXTURE b = true) (flat_map material_textures materials) ->
  (r1 < n)%nat -> (r32 < n)%nat -> (sobol < n)%nat ->
  Z.of_nat (length materials) * 4 < 2 ^ 32 ->
  set ∈ allocated_sets B materials r1 r32 sobol ->
  update_fits s (length materials) set.
Proof.
  intros (Hmaterial & Hs & Ht & Hframe & Has & Hb1 & Hb2) Hmt Hr1 Hr32 Hsobol Hfits Hin.
  assert (Hlen : Z.of_nat (length (flat_map material_textures materials))
                 = u32 (Z.of_nat (length (flat_map material_textures materials)))).
  { rewrite length_material_textures. unfold u32. rewrite Z.mod_small; lia. }
  unfold allocated_sets, m_DescriptorSets in Hin.
  apply elem_of_app in Hin as [Hin|Hin].
  - apply list_elem_of_fmap in Hin as (i & -> & Hi).
    apply elem_of_seq in Hi.
    eexists. split; [reflexivity|]. cbn -[u32].
    constructor; [|constructor]. split; [reflexivity|].
    constructor; [|constructor]. apply Hframe. lia.
  - repeat (apply elem_of_cons in Hin as [->|Hin]);
      [..|apply elem_of_nil in Hin; destruct Hin].
    all: eexists; split; [reflexivity|]; cbn -[u32 flat_map Nat.add];
        repeat (constructor; [split; [try reflexivity|]|]).
    all: try exact Hmt.
    all: try exact Hlen.
    all: cbn [descriptorType range].
    all: repeat match goal with
           | |- Forall2 _ [] [] => constructor
           | |- Forall _ [] => constructor
           | |- Forall _ (_ :: _) => constructor
           | |- has_type _ STORAGE_TEXTURE (Get _) = true => apply Hs; cbn; tauto
           | |- has_type _ TEXTURE (Get (_ + _)) = true =>
               apply Hmaterial; assumption
           | |- has_type _ TEXTURE (Get _) = true => apply Ht; cbn; tauto
           | |- has_type _ _ _ = true => first [exact Has | exact Hb1 | exact Hb2]
           end.
Qed.


Lemma Initialize_typed CB (p : Params) (fmt : Format) :
  typed B (Initialize_resources B CB p fmt) (length (textures (m_Scene p))).
Proof.
  rewrite Initialize_resources_eq.
  destruct (named_lengths B CB p fmt) as (_ & _ & Hds & _).
  destruct (named_types B CB p fmt) as (Hst & Htx & Has & Hb1 & Hb2).
  pose proof (named_frames B CB p fmt) as Hfr.
  cbv zeta in Hst, Htx, Has, Hb1, Hb2.
  revert Hds Hst Htx Has Hb1 Hb2 Hfr.
  generalize (named_resources B CB p fmt) as N.
  intros N Hds Hst Htx Has Hb1 Hb2 Hfr.
  rewrite Forall_forall in Hst, Htx.
  unfold typed. split.
  { intros k Hk. rewrite <- Hds. now apply has_type_material. }
  split.
  { intros i Hi. rewrite has_type_named by (rewrite Hds; cbn in Hi; lia).
    apply Hst, list_elem_of_In, Hi. }
  split.
  { intros i Hi. rewrite has_type_named by (rewrite Hds; cbn in Hi; lia).
    apply Htx, list_elem_of_In, Hi. }
  split.
  { intros i Hi. unfold has_type, with_materials. cbn [m_Frames]. rewrite Hfr.
    rewrite list_lookup_fmap, lookup_seq_lt by exact Hi. reflexivity. }
  rewrite !has_type_named by (rewrite Hds; lia). auto.
Qed.

(** X12. Every descriptor set that [CreateDescriptorSets] allocates is
    filled as the layout it was allocated for declares: range for range as
    many descriptors as declared, each of the declared type - a storage
    view where a storage texture is declared, a shader-resource view where
    a texture is, the buffer views, the acceleration structure, and the
    frame's own constant buffer view.  The declared ranges follow each other
    from register 0, and the number of textures passed for the range of
    variable size is the number declared for it. *)
Theorem updates_fit_layouts CB (p : Params) (fmt : Format) (set : DescriptorSetUpdate) :
  let n := length (textures (m_Scene p)) in
  Forall (fun m => (diffuseMapIndex m < n)%nat /\ (specularMapIndex m < n)%nat
                   /\ (normalMapIndex m < n)%nat /\ (emissiveMapIndex m < n)%nat)
         materials ->
  (r1 < n)%nat -> (r32 < n)%nat -> (sobol < n)%nat ->
  Z.of_nat (length materials) * TEXTURES_PER_MATERIAL < 2 ^ 32 ->
  set ∈ allocated_sets B materials r1 r32 sobol ->
  update_fits (Initialize_resources B CB p fmt) (length materials) set
  /\ exists d,
       declared materials set = Some d
       /\ laid_out set 0 (ranges d)
       /\ Forall (fun r => isVariable r = true ->
                           descriptorNum r = variableDescriptorNum set) (ranges d).
Proof.
  intros n Hmat Hr1 Hr32 Hsobol Hfits Hin. subst n.
  unfold TEXTURES_PER_MATERIAL in Hfits.
  pose proof (Initialize_typed CB p fmt) as Htyped.
  split.
  - apply (typed_fits _ (length (textures (m_Scene p))) set Htyped).
    + rewrite Initialize_resources_eq.
      apply material_textures_fit; [|exact Hmat].
      exact (proj1 (proj2 (proj2 (named_lengths B CB p fmt)))).
    + exact Hr1.
    + exact Hr32.
    + exact Hsobol.
    + exact Hfits.
    + exact Hin.
  - clear Htyped.
    assert (Hvar : u32 (u32 (Z.of_nat (length materials)) * 4)
                   = u32 (Z.of_nat (length (flat_map material_textures materials)))).
    { rewrite length_material_textures. unfold u32.
      rewrite (Z.mod_small (Z.of_nat (length materials))) by lia. f_equal. lia. }
    unfold allocated_sets, m_DescriptorSets in Hin.
    apply elem_of_app in Hin as [Hin|Hin].
    + apply list_elem_of_fmap in Hin as (i & -> & Hi).
      eexists. split; [reflexivity|]. cbn -[u32].
      split; [tauto|]. constructor; [discriminate|constructor].
    + repeat (apply elem_of_cons in Hin as [->|Hin]);
        [..|apply elem_of_nil in Hin; destruct Hin].
      all: (eexists; split; [reflexivity|]; cbn -[u32 flat_map Nat.add];
        unfold TEXTURES_PER_MATERIAL).
      all: (split; [cbn; repeat split|]).
      all: (repeat (constructor; [first [discriminate | intros _; exact Hvar]|]);
        constructor).
Qed.


Lemma sum_app (l1 l2 : list Z) :
  fold_right Z.add 0 (l1 ++ l2) = fold_right Z.add 0 l1 + fold_right Z.add 0 l2.
Proof. induction l1 as [|x l IH]; cbn; lia. Qed.

Lemma sum_frames (f : DescriptorSetUpdate -> Z) (c : Z) (n start : nat) :
  (forall i, f (globalConstantBufferDescriptorSet i) = c) ->
  fold_right Z.add 0 (map f (map globalConstantBufferDescriptorSet (seq start n)))
  = Z.of_nat n * c.
Proof.
  intros Hf. revert start. induction n as [|n IH]; intros start; [cbn; lia|].
  cbn [seq map fold_right]. rewrite IH, Hf. lia.
Qed.

(** X13. The descriptor pool is large enough for everything allocated
    from it - the set of each frame and the six sets of the passes - in
    sets, static samplers and descriptors of every type, for one to 122
    buffered frames and any number of materials whose textures can be
    counted in 32 bits. *)
Theorem pool_covers_sets :
  (1 <= B <= 122)%nat ->
  128 + Z.of_nat (length materials) * TEXTURES_PER_MATERIAL < 2 ^ 32 ->
  let pool := descriptorPoolDesc B materials in
  let sets := allocated_sets B materials r1 r32 sobol in
  let used := total B materials r1 r32 sobol in
  Z.of_nat (length sets) <= descriptorSetMaxNum pool
  /\ used (samplers_of materials) <= staticSamplerMaxNum pool
  /\ used (descriptors_of materials STORAGE_TEXTURE) <= storageTextureMaxNum pool
  /\ used (descriptors_of materials TEXTURE) <= textureMaxNum pool
  /\ used (descriptors_of materials ACCELERATION_STRUCTURE)
     <= accelerationStructureMaxNum pool
  /\ used (descriptors_of materials BUFFER) <= bufferMaxNum pool
  /\ used (descriptors_of materials CONSTANT_BUFFER) <= constantBufferMaxNum pool.
Proof.
  intros HB Hm pool sets used. subst pool sets used.
  unfold TEXTURES_PER_MATERIAL in Hm.
  unfold total, allocated_sets, descriptorPoolDesc.
  cbn [descriptorSetMaxNum staticSamplerMaxNum storageTextureMaxNum textureMaxNum
       accelerationStructureMaxNum bufferMaxNum constantBufferMaxNum].
  rewrite length_app, length_map, length_seq.
  rewrite !map_app, !sum_app.
  rewrite (sum_frames (samplers_of materials) 3) by reflexivity.
  rewrite (sum_frames (descriptors_of materials STORAGE_TEXTURE) 0) by reflexivity.
  rewrite (sum_frames (descriptors_of materials TEXTURE) 0) by reflexivity.
  rewrite (sum_frames (descriptors_of materials ACCELERATION_STRUCTURE) 0) by reflexivity.
  rewrite (sum_frames (descriptors_of materials BUFFER) 0) by reflexivity.
  rewrite (sum_frames (descriptors_of materials CONSTANT_BUFFER) 1) by reflexivity.
  assert (Htex : fold_right Z.add 0
                   (map (descriptors_of materials TEXTURE)
                        (m_DescriptorSets materials r1 r32 sobol))
                 = 25 + Z.of_nat (length materials) * 4).
  { unfold m_DescriptorSets.
    cbv -[u32 flat_map Z.add Z.mul Z.of_nat length material_textures].
    rewrite length_material_textures. unfold u32.
    rewrite Z.mod_small by lia. lia. }
  assert (Hsix : forall ty c,
            ty <> TEXTURE ->
            fold_right Z.add 0
              (map (descriptors_of [] ty) (m_DescriptorSets [] r1 r32 sobol)) = c ->
            fold_right Z.add 0
              (map (descriptors_of materials ty)
                   (m_DescriptorSets materials r1 r32 sobol)) = c).
  { intros ty c Hty <-. destruct ty; try congruence; reflexivity. }
  rewrite Htex.
  rewrite (Hsix STORAGE_TEXTURE 17), (Hsix ACCELERATION_STRUCTURE 1),
    (Hsix BUFFER 2), (Hsix CONSTANT_BUFFER 0) by (discriminate || reflexivity).
  assert (Hsam : fold_right Z.add 0
                   (map (samplers_of materials) (m_DescriptorSets materials r1 r32 sobol))
                 = 0) by reflexivity.
  rewrite Hsam.
  change (length (m_DescriptorSets materials r1 r32 sobol)) with 6%nat.
  unfold u32, TEXTURES_PER_MATERIAL.
  rewrite (Z.mod_small (Z.of_nat (length materials))) by lia.
  rewrite (Z.mod_small (Z.of_nat (length materials) * 4)) by lia.
  rewrite !Z.mod_small by lia.
  lia.
Qed.

End SetFacts.

Lemma pool_covers_sets_witness :
  total 2 example_materials 0 1 0 (descriptors_of example_materials TEXTURE)
  <= textureMaxNum (descriptorPoolDesc 2 example_materials).
Proof.
  pose proof (pool_covers_sets 2 example_materials 0 1 0) as H.
  exact (proj1 (proj2 (proj2 (proj2 (H ltac:(lia) ltac:(vm_compute; reflexivity)))))).
Defined.

Lemma updates_fit_layouts_witness :
  update_fits (Initialize_resources 2 256 example_params RGBA8_UNORM)
    (length example_materials) (Raytracing2 example_materials).
Proof.
  refine (proj1 (updates_fit_layouts 2 example_materials 0 1 0 256 example_params
                   RGBA8_UNORM (Raytracing2 example_materials) _ _ _ _ _ _)).
  - repeat constructor; cbn; lia.
  - cbn; lia.
  - cbn; lia.
  - cbn; lia.
  - reflexivity.
  - apply elem_of_app. right. apply list_elem_of_In. right. left. reflexivity.
Defined.

End PipelinesProofs.
